(** * AI-PPT chart tools: data parsing, colour registries and layout

    A shallow embedding of the three generator scripts

      - generate_chart.py        (bar, line, pie, donut, radar, waterfall)
      - generate_big_numbers.py  (big-number cards)
      - generate_timeline.py     (horizontal timeline)

    Conventions of the embedding.

    - A Python [str] is a Rocq [string] holding its UTF-8 bytes.
    - A Python [float] that is finite is a rational [Q]; arithmetic is exact
      (IEEE rounding is not modelled), comparisons are those of [Q].
    - A Python [dict] is a [gmap] with string keys.
    - A raised exception is the [Raise] branch of [result]. *)

From stdpp Require Import base option list strings gmap fin_maps.
From Stdlib Require Import Ascii ZArith QArith Qabs Qminmax Lia Lqa DecimalString.

Local Open Scope string_scope.
Local Open Scope list_scope.

(** ** Exceptions and the error monad *)

Inductive exn : Type :=
| ValueError_not_enough_values      (* a, b = xs   with len(xs) < 2 *)
| ValueError_too_many_values        (* a, b = xs   with len(xs) > 2 *)
| ValueError_float (s : string)     (* float(s) rejected s *)
| ValueError_max_empty              (* max([]) *)
| ValueError_subplots               (* plt.subplots with a zero dimension *)
| ValueError_matplotlib             (* an argument matplotlib rejects *)
| StopIteration                     (* next() on an exhausted iterator *)
| NotANumber                        (* a float nan, outside the rational model *)
| KeyError (k : string)             (* d[k] with k absent *)
| TypeError                         (* a value of the wrong Python type *)
| IndexError                        (* xs[i] out of range *)
| ZeroDivisionError.                (* x / 0 *)

Inductive result (A : Type) : Type :=
| Ok (a : A)
| Raise (e : exn).
Arguments Ok {A} a.
Arguments Raise {A} e.

(** [x ← r; k] runs [k] on the value of [r] and propagates its exception. *)
#[global] Instance result_bind : MBind result := fun A B k r =>
  match r with
  | Ok a => k a
  | Raise e => Raise e
  end.

#[global] Instance result_ret : MRet result := fun A a => Ok a.

Definition is_ok {A : Type} (r : result A) : bool :=
  match r with Ok _ => true | Raise _ => false end.

(** [[f(x) for x in xs]]: the elements are evaluated left to right and the
    first exception aborts the comprehension. *)
Fixpoint comprehension {A B : Type} (f : A -> result B) (xs : list A)
  : result (list B) :=
  match xs with
  | [] => Ok []
  | x :: xs' => y ← f x; ys ← comprehension f xs'; Ok (y :: ys)
  end.

(** ** Python string operations *)

(** [c in s] for a one-character needle. *)
Fixpoint contains (c : ascii) (s : string) : bool :=
  match s with
  | EmptyString => false
  | String a rest => if Ascii.eqb a c then true else contains c rest
  end.

(** [s.split(c)] for a one-character separator: never empty, an empty piece
    between two adjacent separators. *)
Fixpoint split (c : ascii) (s : string) : list string :=
  match s with
  | EmptyString => [EmptyString]
  | String a rest =>
      if Ascii.eqb a c then EmptyString :: split c rest
      else match split c rest with
           | [] => [String a EmptyString]
           | piece :: pieces => String a piece :: pieces
           end
  end.

(** The characters [str.strip()] removes are those of [str.isspace]:
    U+0009..000D, U+001C..0020, U+0085, U+00A0, U+1680, U+2000..200A,
    U+2028, U+2029, U+202F, U+205F, U+3000; here in UTF-8. *)
Definition byte_in (lo hi : nat) (c : ascii) : bool :=
  let n := nat_of_ascii c in (lo <=? n)%nat && (n <=? hi)%nat.

Definition is_space1 (a : ascii) : bool :=
  byte_in 9 13 a || byte_in 28 32 a.

Definition is_space2 (a b : ascii) : bool :=
  byte_in 194 194 a && (byte_in 133 133 b || byte_in 160 160 b).

Definition is_space3 (a b c : ascii) : bool :=
  byte_in 225 225 a && byte_in 154 154 b && byte_in 128 128 c
  || byte_in 226 226 a && byte_in 128 128 b
     && (byte_in 128 138 c || byte_in 168 169 c || byte_in 175 175 c)
  || byte_in 226 226 a && byte_in 129 129 b && byte_in 159 159 c
  || byte_in 227 227 a && byte_in 128 128 b && byte_in 128 128 c.

(** Drop white space from the front; [sp2] and [sp3] recognise the two- and
    three-byte characters in the order the bytes are met. *)
Fixpoint drop_spaces (sp2 : ascii -> ascii -> bool)
    (sp3 : ascii -> ascii -> ascii -> bool) (s : string) : string :=
  match s with
  | EmptyString => s
  | String a r =>
      if is_space1 a then drop_spaces sp2 sp3 r else
      match r with
      | EmptyString => s
      | String b r' =>
          if sp2 a b then drop_spaces sp2 sp3 r' else
          match r' with
          | EmptyString => s
          | String c r'' =>
              if sp3 a b c then drop_spaces sp2 sp3 r'' else s
          end
      end
  end.

Definition lstrip (s : string) : string := drop_spaces is_space2 is_space3 s.

Definition rstrip (s : string) : string :=
  String.rev (drop_spaces (fun a b => is_space2 b a)
                          (fun a b c => is_space3 c b a) (String.rev s)).

Definition strip (s : string) : string := rstrip (lstrip s).

(** [str(n)] for a non-negative [int]. *)
Definition str_of_nat (n : nat) : string :=
  NilEmpty.string_of_uint (Nat.to_uint n).

(** [a, b = xs]. *)
Definition unpack2 {A : Type} (xs : list A) : result (A * A) :=
  match xs with
  | [a; b] => Ok (a, b)
  | [] | [_] => Raise ValueError_not_enough_values
  | _ => Raise ValueError_too_many_values
  end.

(** *** A concrete [float] for the examples

    Finite decimal literals as the built-in accepts them after trimming:
    an optional sign, digits with an optional fraction (or a fraction alone),
    an optional exponent. The value is the exact rational the literal
    denotes. The non-finite literals ("inf", "nan") and digit-group
    underscores are outside this fragment. *)

Definition digit_of (c : ascii) : option Z :=
  if byte_in 48 57 c then Some (Z.of_nat (nat_of_ascii c) - 48)%Z else None.

Fixpoint read_digits (s : string) (acc : Z) (count : nat) : Z * nat * string :=
  match s with
  | EmptyString => (acc, count, s)
  | String c r =>
      match digit_of c with
      | Some d => read_digits r (10 * acc + d)%Z (S count)
      | None => (acc, count, s)
      end
  end.

Definition read_sign (s : string) : bool * string :=
  match s with
  | String "-" r => (true, r)
  | String "+" r => (false, r)
  | _ => (false, s)
  end.

Definition read_exponent (s : string) : option Z :=
  match s with
  | EmptyString => Some 0%Z
  | String c r =>
      if Ascii.eqb c "e" || Ascii.eqb c "E" then
        let '(neg, r) := read_sign r in
        match read_digits r 0 0 with
        | (e, S _, EmptyString) => Some (if neg then - e else e)%Z
        | _ => None
        end
      else None
  end.

Definition float_literal (s : string) : option Q :=
  let '(neg, s) := read_sign (strip s) in
  let '(int_part, n_int, s) := read_digits s 0 0 in
  let '(mantissa, n_frac, s) :=
    match s with
    | String "." r => let '(m, k, s) := read_digits r int_part 0 in (m, k, s)
    | _ => (int_part, 0%nat, s)
    end in
  match (n_int + n_frac)%nat, read_exponent s with
  | S _, Some e =>
      let m := if neg then (- mantissa)%Z else mantissa in
      Some (Qred (inject_Z m * Qpower 10 (e - Z.of_nat n_frac)))
  | _, _ => None
  end.

(** ** Python numbers, lists and dicts *)

Local Open Scope Q_scope.

Definition Qgt_bool (x y : Q) : bool := negb (Qle_bool x y).
Definition Qlt_bool (x y : Q) : bool := negb (Qle_bool y x).

Definition Qnat (n : nat) : Q := inject_Z (Z.of_nat n).

(** [sum(xs)]: left to right from the integer 0. *)
Definition py_sum (xs : list Q) : Q := fold_left Qplus xs 0.

(** [max(xs)]: the first of the greatest elements; [ValueError] on []. *)
Definition py_max (xs : list Q) : result Q :=
  match xs with
  | [] => Raise ValueError_max_empty
  | x :: xs' => Ok (fold_left (fun m y => if Qgt_bool y m then y else m) xs' x)
  end.

(** [max(a, b)]: the first argument unless the second is greater. *)
Definition py_max2 (a b : Q) : Q := if Qgt_bool b a then b else a.

(** [xs[i]] for 0 <= i. *)
Definition getindex {A : Type} (xs : list A) (i : nat) : result A :=
  match xs !! i with
  | Some x => Ok x
  | None => Raise IndexError
  end.

(** [enumerate(xs)]. *)
Definition enumerate {A : Type} (xs : list A) : list (nat * A) :=
  zip (seq 0 (length xs)) xs.

(** [zip(xs, ys, zs)]: as long as the shortest. *)
Fixpoint zip3 {A B C : Type} (xs : list A) (ys : list B) (zs : list C)
  : list (A * B * C) :=
  match xs, ys, zs with
  | x :: xs', y :: ys', z :: zs' => (x, y, z) :: zip3 xs' ys' zs'
  | _, _, _ => []
  end.

(** What a colour-scheme dict holds: a string or a list of strings. *)
Inductive value : Type :=
| Str (s : string)
| StrList (l : list string).

#[global] Instance value_eq_dec : EqDecision value.
Proof. solve_decision. Defined.

(** [d[k]]. *)
Definition getitem (d : gmap string value) (k : string) : result value :=
  match d !! k with
  | Some v => Ok v
  | None => Raise (KeyError k)
  end.

(** [v[:n]] for a list [v] (the registries hold a list wherever the code
    slices). *)
Definition slice_to (n : nat) (v : value) : result (list string) :=
  match v with
  | StrList l => Ok (take n l)
  | Str _ => Raise TypeError
  end.

(** ** numpy *)

(** [np.pi], the double nearest to pi, as the rational it is. *)
Definition np_pi : Q := 884279719003555 # 281474976710656.

(** [np.degrees]. *)
Definition degrees (x : Q) : Q := x * (180 / np_pi).

(** [np.linspace(start, stop, num, endpoint)], following numpy's
    function: [arange(num)] scaled by the step, shifted by [start], the last
    sample overwritten with [stop] when the end point is included. *)
Definition linspace (start stop : Q) (num : nat) (endpoint : bool) : list Q :=
  let div := if endpoint then (num - 1)%nat else num in
  let delta := stop - start in
  let y := map Qnat (seq 0 num) in
  let y :=
    if (0 <? div)%nat then
      let step := delta / Qnat div in
      if Qeq_bool step 0 then map (fun v => v / Qnat div * delta) y
      else map (fun v => v * step) y
    else map (fun v => v * delta) y in
  let y := map (fun v => v + start) y in
  if endpoint && (1 <? num)%nat then <[ (num - 1)%nat := stop ]> y else y.

(** ** matplotlib: Axes.pie

    The wedge computation of the library, with the defaults the scripts
    leave alone ([normalize=True], [counterclock=True]): sizes are divided
    by their sum, the first wedge starts at [startangle], each wedge spans
    its fraction of the full turn and the next one starts where it ends;
    colours are taken from the given list in a cycle.

    The angles are computed here in exact arithmetic, whereas the library
    rounds (in single precision up to its release 3.8). The statements
    below therefore rely on this model only for what does not depend on the
    rounding: which wedge belongs to which record, the start angle, that a
    wedge starts at the very angle at which the one before ends, the
    colours, the offsets of the wedges, and the refusal of negative
    sizes. *)

Record wedge : Type := Wedge {
  wedge_theta1 : Q;            (* start angle, degrees *)
  wedge_theta2 : Q;            (* end angle, degrees *)
  wedge_explode : Q;           (* radial offset of the wedge's centre *)
  wedge_label : string;
  wedge_color : string
}.

Definition wedge_sweep (w : wedge) : Q := wedge_theta2 w - wedge_theta1 w.

(** [next(color_cycle)] for the [i]-th wedge. *)
Definition cycle_color (colors : list string) (i : nat) : result string :=
  match colors !! (i mod length colors)%nat with
  | Some c => Ok c
  | None => Raise StopIteration
  end.

Fixpoint pie_wedges (colors : list string) (i : nat) (theta1 : Q)
    (rows : list (Q * string * Q)) : result (list wedge) :=
  match rows with
  | [] => Ok []
  | (frac, label, expl) :: rows' =>
      let theta2 := theta1 + frac in
      c ← cycle_color colors i;
      let w := {| wedge_theta1 := 360 * Qmin theta1 theta2;
                  wedge_theta2 := 360 * Qmax theta1 theta2;
                  wedge_explode := expl;
                  wedge_label := label;
                  wedge_color := c |} in
      ws ← pie_wedges colors (S i) theta2 rows';
      Ok (w :: ws)
  end.

Definition Axes_pie (x : list Q) (labels : list string) (colors : list string)
    (startangle : Q) (explode : list Q) : result (list wedge) :=
  if existsb (fun v => Qlt_bool v 0) x then Raise ValueError_matplotlib else
  let sx := py_sum x in
  if Qeq_bool sx 0 && negb (length x =? 0)%nat then Raise NotANumber else
  let x := map (fun v => v / sx) x in
  if negb (length x =? length labels)%nat then Raise ValueError_matplotlib else
  if negb (length x =? length explode)%nat then Raise ValueError_matplotlib else
  let theta1 := startangle / 360 in
  pie_wedges colors 0 theta1 (zip3 x labels explode).

(** A dict display [{k1: v1, k2: v2, ...}]: a later key overrides. *)
Definition dict {V : Type} (items : list (string * V)) : gmap string V :=
  fold_left (fun d kv => <[ kv.1 := kv.2 ]> d) items ∅.

(** [COLOR_SCHEMES[key]]. *)
Definition getscheme (registry : gmap string (gmap string value))
    (key : string) : result (gmap string value) :=
  match registry !! key with
  | Some scheme => Ok scheme
  | None => Raise (KeyError key)
  end.

(** A scheme value inside an f-string; the registries hold a string wherever
    the code formats one. *)
Definition as_str (v : value) : result string :=
  match v with
  | Str s => Ok s
  | StrList _ => Raise TypeError
  end.

(** The truth value of a [str]: non-empty. *)
Definition non_empty (s : string) : bool :=
  match s with
  | EmptyString => false
  | String _ _ => true
  end.

(** [s.upper()] on the ASCII letters; the code applies it to the chart type
    names only. *)
Definition upper_ascii (c : ascii) : ascii :=
  if byte_in 97 122 c then ascii_of_nat (nat_of_ascii c - 32) else c.

Fixpoint upper (s : string) : string :=
  match s with
  | EmptyString => EmptyString
  | String c rest => String (upper_ascii c) (upper rest)
  end.

(** ** matplotlib: Axes.bar and Axes.plot

    [Axes.bar(x, height, width, color)] broadcasts [x] against [height]
    (equal lengths, or one of them of length one) and draws one rectangle
    per pair, centred on its x; a colour list is used in a cycle and, once
    exhausted because empty, replaced by 'none'. *)

Definition broadcast2 {A B : Type} (xs : list A) (ys : list B)
  : result (list (A * B)) :=
  if (length xs =? length ys)%nat then Ok (zip xs ys)
  else match xs, ys with
       | [x], _ => Ok (map (fun y => (x, y)) ys)
       | _, [y] => Ok (map (fun x => (x, y)) xs)
       | _, _ => Raise ValueError_matplotlib
       end.

Definition bar_color (colors : list string) (i : nat) : string :=
  default "none" (colors !! (i mod length colors)%nat).

(** A rectangle of a bar chart over a categorical axis. *)
Record category_bar : Type := CategoryBar {
  cbar_category : string;
  cbar_height : Q;
  cbar_width : Q;
  cbar_color : string
}.

Definition Axes_bar (x : list string) (height : list Q) (width : Q)
    (colors : list string) : result (list category_bar) :=
  rows ← broadcast2 x height;
  Ok (imap (fun i row => {| cbar_category := row.1; cbar_height := row.2;
                            cbar_width := width;
                            cbar_color := bar_color colors i |}) rows).

(** [Axes.plot(x, y)] wants as many abscissae as ordinates. *)
Definition Axes_plot (x y : list Q) : result (list (Q * Q)) :=
  if (length x =? length y)%nat then Ok (zip x y)
  else Raise ValueError_matplotlib.

(** * generate_chart.py *)

Module Chart.

Definition COLOR_SCHEMES : gmap string (gmap string value) :=
  dict [
    ("blue", dict [
      ("name", Str "科技蓝");
      ("gradient", StrList ["#4A90E2"; "#5B7FCE"; "#6D6FBB"; "#7E5FA8"]);
      ("primary", Str "#4A90E2");
      ("accent", Str "#FF6B6B");
      ("text", Str "#2C3E50");
      ("text_light", Str "#7F8C8D");
      ("background", Str "#ECF0F1") ]);
    ("orange", dict [
      ("name", Str "商务橙");
      ("gradient", StrList ["#FF9500"; "#FFA733"; "#FFB966"; "#FFCB99"]);
      ("primary", Str "#FF9500");
      ("accent", Str "#4ECDC4");
      ("text", Str "#34495E");
      ("text_light", Str "#95A5A6");
      ("background", Str "#F7F9FA") ]);
    ("green", dict [
      ("name", Str "专业绿");
      ("gradient", StrList ["#00D084"; "#33D99A"; "#66E2B0"; "#99EBC6"]);
      ("primary", Str "#00D084");
      ("accent", Str "#FDCB6E");
      ("text", Str "#2D3436");
      ("text_light", Str "#636E72");
      ("background", Str "#DFE6E9") ]);
    ("gold_blue", dict [
      ("name", Str "高端金蓝");
      ("gradient", StrList ["#1E3A5F"; "#2C5282"; "#3A6FA5"]);
      ("primary", Str "#2C5282");
      ("accent", Str "#D4AF37");
      ("accent2", Str "#F4E4C1");
      ("text", Str "#2D3436");
      ("text_light", Str "#636E72");
      ("background", Str "#F5F6FA") ]);
    ("multilayer", dict [
      ("name", Str "多层次专业");
      ("gradient", StrList ["#2C5282"; "#3A6FA5"; "#5A8FC4"]);
      ("primary", Str "#2C5282");
      ("accent", Str "#FF9500");
      ("accent2", Str "#D4AF37");
      ("accent3", Str "#8B4513");
      ("text", Str "#2D3436");
      ("text_light", Str "#636E72");
      ("background", Str "#F5F6FA") ])
  ].

(** ** parse_data *)

Section ParseData.

(** The built-in [float] applied to a [str]: [None] stands for the
    [ValueError] it raises. The parser is the interpreter's, not the
    repository's, so the embedding takes it as a parameter. *)
Context {F : Type} (py_float : string -> option F).

Definition float (s : string) : result F :=
  match py_float s with
  | Some v => Ok v
  | None => Raise (ValueError_float s)
  end.

(** The loop [for item in items: ...] of the first format, with the two
    accumulators [categories] and [values]. *)
Fixpoint parse_items (items : list string)
    (categories : list string) (values : list F)
  : result (list string * list F) :=
  match items with
  | [] => Ok (categories, values)
  | item :: items' =>
      '(cat, val) ← unpack2 (split ":" item);
      let categories := categories ++ [strip cat] in
      v ← float (strip val);
      let values := values ++ [v] in
      parse_items items' categories values
  end.

Definition parse_data (data_str : string) : result (list string * list F) :=
  if contains ":" data_str then
    let items := split "," data_str in
    parse_items items [] []
  else
    values ← comprehension (fun x => float (strip x)) (split "," data_str);
    let categories :=
      map (fun i => "项目" +:+ str_of_nat (i + 1)) (seq 0 (length values)) in
    Ok (categories, values).

End ParseData.

(** ** Pie and donut *)

(** [[0.05 if v == max(values) else 0 for v in values]]. *)
Definition explode_of (values : list Q) : result (list Q) :=
  comprehension
    (fun v => m ← py_max values; Ok (if Qeq_bool v m then 5 # 100 else 0))
    values.

Record pie_drawing : Type := PieDrawing {
  pie_wedges_drawn : list wedge;
  pie_hole : Q;                          (* radius of the white centre disc *)
  pie_centre_label : option Q            (* donut: the total, shown '.0f' *)
}.

Definition generate_pie_chart (categories : list string) (values : list Q)
    (scheme : gmap string value) : result pie_drawing :=
  gradient ← getitem scheme "gradient";
  colors ← slice_to (length categories) gradient;
  explode ← explode_of values;
  _ ← getitem scheme "text";
  wedges ← Axes_pie values categories colors 90 explode;
  _ ← getitem scheme "text";
  Ok {| pie_wedges_drawn := wedges; pie_hole := 70 # 100;
        pie_centre_label := None |}.

Definition generate_donut_chart (categories : list string) (values : list Q)
    (scheme : gmap string value) : result pie_drawing :=
  gradient ← getitem scheme "gradient";
  colors ← slice_to (length categories) gradient;
  explode ← explode_of values;
  _ ← getitem scheme "text";
  wedges ← Axes_pie values categories colors 90 explode;
  let total := py_sum values in
  _ ← getitem scheme "text";
  _ ← getitem scheme "text_light";
  _ ← getitem scheme "text";
  Ok {| pie_wedges_drawn := wedges; pie_hole := 65 # 100;
        pie_centre_label := Some total |}.

(** ** Radar *)

Record radar_drawing : Type := RadarDrawing {
  radar_theta : list Q;                  (* ax.plot(angles, values_plot) *)
  radar_r : list Q;
  radar_xticks : list Q;                 (* angles[:-1] *)
  radar_labels : list (Q * Q)            (* (angle, value + 5) *)
}.

Definition generate_radar_chart (categories : list string) (values : list Q)
    (scheme : gmap string value) : result radar_drawing :=
  let angles := linspace 0 (2 * np_pi) (length categories) false in
  v0 ← getindex values 0;
  let values_plot := values ++ [v0] in
  let angles := angles ++ take 1 angles in
  _ ← getitem scheme "primary";
  if negb (length angles =? length values_plot)%nat then Raise ValueError_matplotlib
  else
  _ ← getitem scheme "text";
  _ ← getitem scheme "text_light";
  labels ← comprehension
    (fun '(angle, v, category) =>
       _ ← getitem scheme "accent"; Ok (angle, v + 5))
    (zip3 (removelast angles) values categories);
  _ ← getitem scheme "text";
  Ok {| radar_theta := angles; radar_r := values_plot;
        radar_xticks := removelast angles; radar_labels := labels |}.

(** ** Waterfall *)

Record bar : Type := Bar {
  bar_x : Q;
  bar_height : Q;
  bar_bottom : Q;
  bar_color : value;
  bar_width : Q
}.

(** [ax.plot([x1, x2], [y1, y2], 'k--')]. *)
Record segment : Type := Segment {
  seg_x1 : Q; seg_x2 : Q;
  seg_y1 : Q; seg_y2 : Q
}.

Inductive label_format : Type :=
| Plain       (* f'{val:.0f}' *)
| Signed.     (* f'{val:+.0f}' *)

Record data_label : Type := DataLabel {
  label_x : Q;
  label_y : Q;
  label_val : Q;
  label_fmt : label_format
}.

Record waterfall_drawing : Type := WaterfallDrawing {
  waterfall_bars : list bar;
  waterfall_connectors : list segment;
  waterfall_labels : list data_label
}.

(** [cumulative = [0]; for v in values[:-1]: cumulative.append(cumulative[-1] + v)]. *)
Definition cumulative_of (values : list Q) : list Q :=
  fold_left (fun cumulative v => cumulative ++ [List.last cumulative 0 + v])
            (removelast values) [0].

(** [i == len(xs) - 1] on Python integers. *)
Definition is_last_index {A : Type} (i : nat) (xs : list A) : bool :=
  (Z.of_nat i =? Z.of_nat (length xs) - 1)%Z.

Definition waterfall_colors (values : list Q) (scheme : gmap string value)
  : result (list value) :=
  comprehension
    (fun '(i, v) =>
       if (i =? 0)%nat || is_last_index i values then getitem scheme "primary"
       else if Qle_bool 0 v then getitem scheme "accent"
       else Ok (Str "#FF6B6B"))
    (enumerate values).

Definition generate_waterfall_chart (categories : list string)
    (values : list Q) (scheme : gmap string value) : result waterfall_drawing :=
  let cumulative := cumulative_of values in
  colors ← waterfall_colors values scheme;
  bars ← comprehension
    (fun '(i, (cat, val, cum)) =>
       c ← getindex colors i;
       if is_last_index i categories then
         Ok {| bar_x := Qnat i; bar_height := val; bar_bottom := 0;
               bar_color := c; bar_width := 6 # 10 |}
       else
         Ok {| bar_x := Qnat i; bar_height := val; bar_bottom := cum;
               bar_color := c; bar_width := 6 # 10 |})
    (enumerate (zip3 categories values cumulative));
  connectors ← comprehension
    (fun i =>
       level ← getindex cumulative (i + 1);
       Ok {| seg_x1 := Qnat i + (3 # 10); seg_x2 := Qnat i + (7 # 10);
             seg_y1 := level; seg_y2 := level |})
    (seq 0 (length categories - 2));
  let labels :=
    map (fun '(i, (cat, val, cum)) =>
           let y_pos := if is_last_index i categories then val / 2
                        else cum + val / 2 in
           {| label_x := Qnat i; label_y := y_pos; label_val := val;
              label_fmt := if (0 <? i)%nat
                              && (Z.of_nat i <? Z.of_nat (length categories) - 1)%Z
                           then Signed else Plain |})
        (enumerate (zip3 categories values cumulative)) in
  _ ← getitem scheme "text_light";
  _ ← getitem scheme "text";
  Ok {| waterfall_bars := bars; waterfall_connectors := connectors;
        waterfall_labels := labels |}.

(** ** Bar and line *)

(** [ax.text(bar.get_x() + bar.get_width()/2, height, f'{height:.0f}')]:
    a text centred over the bar of the given index, at the bar's height. *)
Record bar_label : Type := BarLabel {
  over_bar : nat;
  bar_label_y : Q;
  bar_label_val : Q
}.

Record bar_drawing : Type := BarDrawing {
  drawn_bars : list category_bar;
  drawn_bar_labels : list bar_label;
  bar_set_ylim : Q * Q         (* the limits handed to ax.set_ylim *)
}.

Definition generate_bar_chart (categories : list string) (values : list Q)
    (scheme : gmap string value) : result bar_drawing :=
  gradient ← getitem scheme "gradient";
  colors ← slice_to (length categories) gradient;
  bars ← Axes_bar categories values (6 # 10) colors;
  labels ← comprehension
    (fun '(i, b) =>
       let height := cbar_height b in
       _ ← getitem scheme "text";
       Ok {| over_bar := i; bar_label_y := height; bar_label_val := height |})
    (enumerate bars);
  m ← py_max values;
  let ylim := (0, m * (115 # 100)) in
  _ ← getitem scheme "text_light";
  _ ← getitem scheme "text";
  Ok {| drawn_bars := bars; drawn_bar_labels := labels;
        bar_set_ylim := ylim |}.

Record line_drawing : Type := LineDrawing {
  line_points : list (Q * Q);            (* ax.plot(x, values) *)
  line_labels : list data_label;         (* (i, v + max(values)*0.03) *)
  line_xticklabels : list string;
  line_ylim : Q * Q
}.

Definition generate_line_chart (categories : list string) (values : list Q)
    (scheme : gmap string value) : result line_drawing :=
  let x := map Qnat (seq 0 (length categories)) in
  _ ← getitem scheme "primary";
  points ← Axes_plot x values;
  _ ← getitem scheme "primary";
  labels ← comprehension
    (fun '(i, v) =>
       m ← py_max values;
       _ ← getitem scheme "text";
       Ok {| label_x := Qnat i; label_y := v + m * (3 # 100);
             label_val := v; label_fmt := Plain |})
    (enumerate values);
  m ← py_max values;
  let ylim := (0, m * (115 # 100)) in
  _ ← getitem scheme "text_light";
  _ ← getitem scheme "text";
  Ok {| line_points := points; line_labels := labels;
        line_xticklabels := categories; line_ylim := ylim |}.

(** ** Comparison *)

(** The colour of the bar of index [i] when [Axes.bar] is given [color]: a
    single colour for every bar, a list in a cycle ('none' when empty). *)
Definition color_at (color : value) (i : nat) : value :=
  match color with
  | Str s => Str s
  | StrList l => Str (default "none" (l !! (i mod length l)%nat))
  end.

(** [Axes.bar(x, height, width, color=color)] at numeric abscissae: [x] is
    broadcast against [height]; every bar is centred on its x and stands
    on 0. *)
Definition Axes_bar_at (x height : list Q) (width : Q) (color : value)
  : result (list bar) :=
  rows ← broadcast2 x height;
  Ok (imap (fun i row => {| bar_x := row.1; bar_height := row.2;
                            bar_bottom := 0; bar_color := color_at color i;
                            bar_width := width |}) rows).

(** [bar.get_x()]: the left edge of a centred bar. *)
Definition get_x (b : bar) : Q := bar_x b - bar_width b / 2.

Record comparison_drawing : Type := ComparisonDrawing {
  bars1 : list bar;
  bars2 : list bar;
  comparison_labels : list data_label;   (* over bars1, then over bars2 *)
  comparison_xticklabels : list string;
  comparison_set_ylim : Q * Q  (* the limits handed to ax.set_ylim *)
}.

Definition generate_comparison_chart (categories : list string)
    (values1 values2 : list Q) (scheme : gmap string value)
  : result comparison_drawing :=
  let x := map Qnat (seq 0 (length categories)) in
  let width := 35 # 100 in
  primary ← getitem scheme "primary";
  bars1 ← Axes_bar_at (map (fun xi => xi - width / 2) x) values1 width primary;
  accent ← getitem scheme "accent";
  bars2 ← Axes_bar_at (map (fun xi => xi + width / 2) x) values2 width accent;
  labels ← comprehension
    (fun b =>
       let height := bar_height b in
       _ ← getitem scheme "text";
       Ok {| label_x := get_x b + bar_width b / 2; label_y := height;
             label_val := height; label_fmt := Plain |})
    (bars1 ++ bars2);
  m1 ← py_max values1;
  m2 ← py_max values2;
  let ylim := (0, py_max2 m1 m2 * (115 # 100)) in
  _ ← getitem scheme "text_light";
  _ ← getitem scheme "text";
  Ok {| bars1 := bars1; bars2 := bars2; comparison_labels := labels;
        comparison_xticklabels := categories;
        comparison_set_ylim := ylim |}.

(** ** main *)

(** The values argparse admits for [--type]. *)
Inductive chart_type : Type :=
| type_bar | type_line | type_pie | type_donut | type_radar | type_waterfall.

Definition type_name (t : chart_type) : string :=
  match t with
  | type_bar => "bar"
  | type_line => "line"
  | type_pie => "pie"
  | type_donut => "donut"
  | type_radar => "radar"
  | type_waterfall => "waterfall"
  end.

(** The parsed command line; an option left out is the empty string. *)
Record args : Type := Args {
  arg_type : chart_type;
  arg_data : string;
  arg_color : string;
  arg_title : string;
  arg_output : string
}.

Inductive drawing : Type :=
| BarChart (d : bar_drawing)
| LineChart (d : line_drawing)
| PieChart (d : pie_drawing)
| DonutChart (d : pie_drawing)
| RadarChart (d : radar_drawing)
| WaterfallChart (d : waterfall_drawing).

Definition default_output (t : chart_type) (color : string) : string :=
  "chart_" +:+ type_name t +:+ "_" +:+ color +:+ ".png".

(** [main] after [parse_args], up to the rendering: the drawing, the title
    it carries and the file it is meant for. The printing is left out, and
    so are [plt.tight_layout] and [plt.savefig], which the generators call
    last: a run that returns here may still fail there. *)
Definition main (py_float : string -> option Q) (a : args)
  : result (drawing * string * string) :=
  scheme ← getscheme COLOR_SCHEMES (arg_color a);
  _ ← getitem scheme "name";
  '(categories, values) ← parse_data py_float (arg_data a);
  title ←
    (if non_empty (arg_title a) then Ok (arg_title a)
     else name ← getitem scheme "name";
          name ← as_str name;
          Ok (name +:+ " - " +:+ upper (type_name (arg_type a)) +:+ "图表"));
  let output :=
    if non_empty (arg_output a) then arg_output a
    else default_output (arg_type a) (arg_color a) in
  d ←
    match arg_type a with
    | type_bar =>
        d ← generate_bar_chart categories values scheme; Ok (BarChart d)
    | type_line =>
        d ← generate_line_chart categories values scheme; Ok (LineChart d)
    | type_pie =>
        d ← generate_pie_chart categories values scheme; Ok (PieChart d)
    | type_donut =>
        d ← generate_donut_chart categories values scheme; Ok (DonutChart d)
    | type_radar =>
        d ← generate_radar_chart categories values scheme; Ok (RadarChart d)
    | type_waterfall =>
        d ← generate_waterfall_chart categories values scheme;
        Ok (WaterfallChart d)
    end;
  _ ← getitem scheme "name";
  Ok (d, title, output).

End Chart.

(** * generate_big_numbers.py *)

Module BigNumbers.

Definition COLOR_SCHEMES : gmap string (gmap string value) :=
  dict [
    ("blue", dict [
      ("name", Str "科技蓝");
      ("primary", Str "#4A90E2");
      ("accent", Str "#FF6B6B");
      ("gradient", StrList ["#4A90E2"; "#5B7FCE"; "#6D6FBB"; "#7E5FA8"]);
      ("text", Str "#2C3E50");
      ("text_light", Str "#7F8C8D");
      ("background", Str "#ECF0F1") ]);
    ("gold_blue", dict [
      ("name", Str "高端金蓝");
      ("primary", Str "#2C5282");
      ("accent", Str "#D4AF37");
      ("gradient", StrList ["#2C5282"; "#D4AF37"; "#3A6FA5"; "#F4E4C1"]);
      ("text", Str "#2D3436");
      ("text_light", Str "#636E72");
      ("background", Str "#F5F6FA") ]);
    ("multilayer", dict [
      ("name", Str "多层次专业");
      ("primary", Str "#2C5282");
      ("accent", Str "#FF9500");
      ("gradient", StrList ["#2C5282"; "#FF9500"; "#D4AF37"; "#8B4513"]);
      ("text", Str "#2D3436");
      ("text_light", Str "#636E72");
      ("background", Str "#F5F6FA") ]);
    ("orange", dict [
      ("name", Str "商务橙");
      ("primary", Str "#FF9500");
      ("accent", Str "#4ECDC4");
      ("gradient", StrList ["#FF9500"; "#FFA733"; "#FFB966"; "#FFCB99"]);
      ("text", Str "#34495E");
      ("text_light", Str "#95A5A6");
      ("background", Str "#F7F9FA") ]);
    ("green", dict [
      ("name", Str "专业绿");
      ("primary", Str "#00D084");
      ("accent", Str "#FDCB6E");
      ("gradient", StrList ["#00D084"; "#33D99A"; "#66E2B0"; "#99EBC6"]);
      ("text", Str "#2D3436");
      ("text_light", Str "#636E72");
      ("background", Str "#DFE6E9") ])
  ].

(** ** parse_metrics_data *)

(** The dict literal [{'number': .., 'title': .., 'description': ..}]. *)
Record metric : Type := Metric {
  number : string;
  title : string;
  description : string
}.

(** The loop of [parse_metrics_data] with its accumulator [metrics]. *)
Fixpoint parse_metrics_items (items : list string) (metrics : list metric)
  : list metric :=
  match items with
  | [] => metrics
  | item :: items' =>
      let parts := split ":" item in
      if (3 <=? length parts)%nat then
        let number := strip (parts !!! 0%nat) in
        let title := strip (parts !!! 1%nat) in
        let description := strip (parts !!! 2%nat) in
        parse_metrics_items items'
          (metrics ++ [ {| number := number; title := title;
                           description := description |} ])
      else parse_metrics_items items' metrics
  end.

Definition parse_metrics_data (data_str : string) : list metric :=
  let items := split "," data_str in
  parse_metrics_items items [].

(** ** generate_big_number_cards *)

(** One subplot. A fresh Axes shows its frame; [ax.axis('off')] hides it.
    A card is the rounded box with its three texts. *)
Record card : Type := Card {
  card_facecolor : value;
  card_number : string;
  card_title : string;
  card_description : string
}.

Record axes : Type := Axes {
  axis_on : bool;
  axes_card : option card
}.

Definition new_axes : axes := {| axis_on := true; axes_card := None |}.

(** [plt.subplots(rows, cols)], flattened row by row. The three branches
    that flatten the returned value (a single Axes, a vector, a matrix)
    all give this list. *)
Definition subplots (rows cols : nat) : result (list axes) :=
  if (rows =? 0)%nat || (cols =? 0)%nat then Raise ValueError_subplots
  else Ok (replicate (rows * cols) new_axes).

Record figure : Type := Figure {
  fig_rows : nat;
  fig_cols : nat;
  fig_size : nat * nat;
  fig_axes : list axes
}.

(** The packing: [(cols, rows, figsize)] from the number of cards. *)
Definition grid (n : nat) : nat * nat * (nat * nat) :=
  if (n <=? 2)%nat then
    let cols := n in
    let rows := 1%nat in
    (cols, rows, (7 * cols, 6))%nat
  else if (n <=? 4)%nat then
    (2, 2, (14, 12))%nat
  else
    let cols := 3%nat in
    let rows := ((n + 2) / 3)%nat in
    (cols, rows, (18, 6 * rows))%nat.

Definition generate_big_number_cards (metrics : list metric)
    (scheme : gmap string value) : result figure :=
  let n := length metrics in
  let '(cols, rows, figsize) := grid n in
  axes ← subplots rows cols;
  _ ← getitem scheme "text";
  primary ← getitem scheme "primary";
  accent ← getitem scheme "accent";
  let colors := [primary; accent] in
  drawn ← comprehension
    (fun '(i, (ax, metric)) =>
       color ← getindex colors (i mod 2);
       Ok {| axis_on := false;
             axes_card := Some {| card_facecolor := color;
                                  card_number := number metric;
                                  card_title := title metric;
                                  card_description := description metric |} |})
    (enumerate (zip (take n axes) metrics));
  let hidden :=
    map (fun ax => {| axis_on := false; axes_card := axes_card ax |})
        (drop n axes) in
  Ok {| fig_rows := rows; fig_cols := cols; fig_size := figsize;
        fig_axes := drawn ++ hidden |}.

(** ** main *)

Record args : Type := Args {
  arg_data : string;
  arg_color : string;
  arg_title : string;       (* argparse default: '核心指标' *)
  arg_output : string
}.

Definition default_output (color : string) : string :=
  "big_numbers_" +:+ color +:+ ".png".

(** [main] after [parse_args], up to the rendering: the figure, its title
    and the file it is meant for. The printing is left out, and so are
    [plt.tight_layout] and [plt.savefig], which the generator calls last: a
    run that returns here may still fail there. *)
Definition main (a : args) : result (figure * string * string) :=
  scheme ← getscheme COLOR_SCHEMES (arg_color a);
  _ ← getitem scheme "name";
  let metrics := parse_metrics_data (arg_data a) in
  let output :=
    if non_empty (arg_output a) then arg_output a
    else default_output (arg_color a) in
  fig ← generate_big_number_cards metrics scheme;
  _ ← getitem scheme "name";
  Ok (fig, arg_title a, output).

End BigNumbers.

(** * generate_timeline.py *)

Module Timeline.

Definition COLOR_SCHEMES : gmap string (gmap string value) :=
  dict [
    ("blue", dict [
      ("name", Str "科技蓝");
      ("colors", StrList ["#4A90E2"; "#5B7FCE"; "#6D6FBB"; "#7E5FA8"]);
      ("text", Str "#2C3E50");
      ("text_light", Str "#7F8C8D") ]);
    ("gold_blue", dict [
      ("name", Str "高端金蓝");
      ("colors", StrList ["#2C5282"; "#D4AF37"; "#3A6FA5"; "#8B4513"]);
      ("text", Str "#2D3436");
      ("text_light", Str "#636E72") ]);
    ("multilayer", dict [
      ("name", Str "多层次专业");
      ("colors", StrList ["#2C5282"; "#FF9500"; "#D4AF37"; "#5A8FC4"]);
      ("text", Str "#2D3436");
      ("text_light", Str "#636E72") ]);
    ("orange", dict [
      ("name", Str "商务橙");
      ("colors", StrList ["#FF9500"; "#FFA733"; "#FFB966"; "#FFCB99"]);
      ("text", Str "#34495E");
      ("text_light", Str "#95A5A6") ]);
    ("green", dict [
      ("name", Str "专业绿");
      ("colors", StrList ["#00D084"; "#33D99A"; "#66E2B0"; "#99EBC6"]);
      ("text", Str "#2D3436");
      ("text_light", Str "#636E72") ])
  ].

(** ** parse_timeline_data *)

(** The dict literal [{'time': .., 'title': .., 'description': ..}]. *)
Record event : Type := Event {
  time : string;
  title : string;
  description : string
}.

Fixpoint parse_timeline_items (items : list string) (timeline : list event)
  : list event :=
  match items with
  | [] => timeline
  | item :: items' =>
      let parts := split ":" item in
      if (3 <=? length parts)%nat then
        let time_label := strip (parts !!! 0%nat) in
        let title := strip (parts !!! 1%nat) in
        let description := strip (parts !!! 2%nat) in
        parse_timeline_items items'
          (timeline ++ [ {| time := time_label; title := title;
                            description := description |} ])
      else parse_timeline_items items' timeline
  end.

Definition parse_timeline_data (data_str : string) : list event :=
  let items := split "," data_str in
  parse_timeline_items items [].

(** ** generate_horizontal_timeline *)

(** A node on the main line: the coloured circle at [(x, line_y)] with the
    time above it and the stage title below. *)
Record node : Type := Node {
  node_x : Q;
  node_y : Q;
  node_color : string;
  node_time : string;
  node_title : string
}.

(** A card under the line: the box with lower-left corner [(card_x, card_y)]
    and the description centred on the node's x. *)
Record card : Type := Card {
  card_x : Q;
  card_y : Q;
  card_width : Q;
  card_height : Q;
  card_color : string;
  card_text : string
}.

Record timeline_drawing : Type := TimelineDrawing {
  drawn_nodes : list node;
  drawn_cards : list card
}.

Definition generate_horizontal_timeline (timeline : list event)
    (scheme : gmap string value) : result timeline_drawing :=
  _ ← getitem scheme "text";
  let line_y := 65 # 10 in
  let n := length timeline in
  let x_positions := linspace (15 # 10) (85 # 10) n true in
  palette ← getitem scheme "colors";
  colors ← slice_to n palette;
  nodes ← comprehension
    (fun '(x, item, color) =>
       _ ← getitem scheme "text";
       Ok {| node_x := x; node_y := line_y; node_color := color;
             node_time := time item; node_title := title item |})
    (zip3 x_positions timeline colors);
  let card_y_start := 4 in
  card_width ←
    (if (n =? 0)%nat then Raise ZeroDivisionError
     else Ok (((85 # 10) - (15 # 10)) / Qnat n - (2 # 10)));
  let card_height := 25 # 10 in
  let cards :=
    map (fun '(x, item, color) =>
           {| card_x := x - card_width / 2;
              card_y := card_y_start - card_height;
              card_width := card_width; card_height := card_height;
              card_color := color; card_text := description item |})
        (zip3 x_positions timeline colors) in
  Ok {| drawn_nodes := nodes; drawn_cards := cards |}.

(** ** main *)

Record args : Type := Args {
  arg_data : string;
  arg_color : string;
  arg_title : string;       (* argparse default: '项目时间轴' *)
  arg_output : string
}.

Definition default_output (color : string) : string :=
  "timeline_" +:+ color +:+ ".png".

(** [main] after [parse_args], up to the rendering: the drawing, its title
    and the file it is meant for. The printing is left out, and so are
    [plt.tight_layout] and [plt.savefig], which the generator calls last: a
    run that returns here may still fail there. *)
Definition main (a : args) : result (timeline_drawing * string * string) :=
  scheme ← getscheme COLOR_SCHEMES (arg_color a);
  _ ← getitem scheme "name";
  let timeline := parse_timeline_data (arg_data a) in
  let output :=
    if non_empty (arg_output a) then arg_output a
    else default_output (arg_color a) in
  d ← generate_horizontal_timeline timeline scheme;
  _ ← getitem scheme "name";
  Ok (d, arg_title a, output).

End Timeline.

(** * Vocabulary of the statements *)

Local Close Scope Q_scope.

(** The comma-separated records of an input and the colon-separated fields
    of a record, as the parsers cut them. *)
Definition records (raw : string) : list string := split "," raw.
Definition fields (record : string) : list string := split ":" record.

(** The label the second format of [parse_data] gives the value at
    (0-based) position [i]. *)
Definition auto_label (i : nat) : string := "项目" +:+ str_of_nat (i + 1).

(** The metric and the event a record of at least three fields becomes. *)
Definition metric_of (record : string) : BigNumbers.metric :=
  let parts := fields record in
  BigNumbers.Metric (strip (parts !!! 0%nat)) (strip (parts !!! 1%nat))
                    (strip (parts !!! 2%nat)).

Definition event_of (record : string) : Timeline.event :=
  let parts := fields record in
  Timeline.Event (strip (parts !!! 0%nat)) (strip (parts !!! 1%nat))
                 (strip (parts !!! 2%nat)).

Definition has_three_fields (record : string) : bool :=
  (3 <=? length (fields record))%nat.

(** What the loop of [parse_data] makes of one well-formed record: the
    trimmed label and the number its second field denotes. *)
Definition parses_to {F : Type} (py_float : string -> option F)
    (item : string) (p : string * F) : Prop :=
  exists a b, fields item = [a; b] /\ p.1 = strip a
              /\ py_float (strip b) = Some p.2.

(** The five scheme keys, and the value a registry gives a key and a field
    ([COLOR_SCHEMES[key][field]], [None] where either lookup fails). *)
Definition scheme_keys : list string :=
  ["blue"; "orange"; "green"; "gold_blue"; "multilayer"].

Definition field_of (registry : gmap string (gmap string value))
    (key field : string) : option value :=
  scheme ← registry !! key; scheme !! field.

(** The scheme [main] hands a chart generator: [COLOR_SCHEMES[args.color]];
    argparse admits the five keys only. *)
Definition chart_scheme (key : string) : gmap string value :=
  default ∅ (Chart.COLOR_SCHEMES !! key).

Definition big_numbers_scheme (key : string) : gmap string value :=
  default ∅ (BigNumbers.COLOR_SCHEMES !! key).

Definition timeline_scheme (key : string) : gmap string value :=
  default ∅ (Timeline.COLOR_SCHEMES !! key).

(** * The error monad *)

Lemma bind_Ok {A B : Type} (a : A) (k : A -> result B) :
  (Ok a ≫= k) = k a.
Proof. reflexivity. Qed.

Lemma bind_Raise {A B : Type} (e : exn) (k : A -> result B) :
  (Raise e ≫= k) = Raise e.
Proof. reflexivity. Qed.

Lemma bind_inv_Ok {A B : Type} (r : result A) (k : A -> result B) (b : B) :
  (r ≫= k) = Ok b -> exists a, r = Ok a /\ k a = Ok b.
Proof. destruct r as [a|e]; [eauto | discriminate]. Qed.

Lemma result_cases {A : Type} (r : result A) :
  (exists a, r = Ok a) \/ (exists e, r = Raise e).
Proof. destruct r; eauto. Qed.

Lemma comprehension_Ok {A B : Type} (f : A -> result B) xs ys :
  comprehension f xs = Ok ys <-> Forall2 (fun x y => f x = Ok y) xs ys.
Proof.
  revert ys. induction xs as [|x xs IH]; intros ys; simpl.
  - split.
    + intros [= <-]. constructor.
    + intros H. inversion H. reflexivity.
  - split.
    + intros H. apply bind_inv_Ok in H as (y & Hy & H).
      apply bind_inv_Ok in H as (ys' & Hys & [= <-]).
      constructor; [exact Hy | by apply IH].
    + intros H. inversion H as [|? y ? ys' Hy Hys]; subst.
      rewrite Hy, bind_Ok. apply IH in Hys. rewrite Hys. reflexivity.
Qed.

Lemma comprehension_length {A B : Type} (f : A -> result B) xs ys :
  comprehension f xs = Ok ys -> length ys = length xs.
Proof.
  intros H. apply comprehension_Ok in H. symmetry. eapply Forall2_length, H.
Qed.

Lemma comprehension_Raise {A B : Type} (f : A -> result B) xs :
  Exists (fun x => exists e, f x = Raise e) xs ->
  exists e, comprehension f xs = Raise e.
Proof.
  induction 1 as [x xs [e He] | x xs _ [e IH]]; simpl.
  - rewrite He. eauto.
  - destruct (f x); [rewrite bind_Ok, IH | ]; eauto.
Qed.

(** A comprehension whose body cannot raise is a [map]. *)
Lemma comprehension_map {A B : Type} (f : A -> result B) (g : A -> B) xs :
  Forall (fun x => f x = Ok (g x)) xs -> comprehension f xs = Ok (map g xs).
Proof.
  induction 1 as [|x xs Hx _ IH]; simpl; [reflexivity|].
  rewrite Hx, bind_Ok, IH. reflexivity.
Qed.

(** * String splitting *)

Lemma split_nonempty c s : split c s <> [].
Proof.
  destruct s as [|a s]; simpl; [discriminate|].
  destruct (Ascii.eqb a c); [discriminate|].
  destruct (split c s); discriminate.
Qed.

Lemma split_no_separator c s : contains c s = false -> split c s = [s].
Proof.
  induction s as [|a s IH]; simpl; [reflexivity|].
  destruct (Ascii.eqb a c); [discriminate|].
  intros H. rewrite (IH H). reflexivity.
Qed.

(** * The pair parser *)

Section ParseDataFacts.

Context {F : Type} (py_float : string -> option F).

Lemma parse_items_Ok items categories values d :
  Chart.parse_items py_float items categories values = Ok d ->
  exists parsed, Forall2 (parses_to py_float) items parsed
    /\ d = (categories ++ parsed.*1, values ++ parsed.*2).
Proof.
  revert categories values.
  induction items as [|item items IH]; intros categories values; simpl.
  - intros [= <-]. exists []. split; [constructor|].
    simpl. by rewrite !app_nil_r.
  - intros H. apply bind_inv_Ok in H as ([a b] & Hu & H).
    apply bind_inv_Ok in H as (v & Hv & H).
    apply IH in H as (parsed & Hall & ->).
    exists ((strip a, v) :: parsed). split.
    + constructor; [|exact Hall]. exists a, b. simpl.
      unfold Chart.float in Hv. destruct (py_float (strip b)); [|discriminate].
      injection Hv as ->. split; [|done].
      unfold fields. destruct (split ":" item) as [|x [|y [|z l]]];
        simpl in Hu; try discriminate. by injection Hu as -> ->.
    + simpl. by rewrite <- !app_assoc.
Qed.

Lemma parse_items_Ok_two_fields items categories values d :
  Chart.parse_items py_float items categories values = Ok d ->
  Forall (fun item => length (fields item) = 2%nat) items.
Proof.
  intros H. apply parse_items_Ok in H as (parsed & Hall & _).
  induction Hall as [|item p items parsed (a & b & Hf & _) _ IH];
    constructor; [by rewrite Hf | exact IH].
Qed.

Lemma parse_items_wrong_arity items categories values :
  Exists (fun item => length (fields item) <> 2%nat) items ->
  exists e, Chart.parse_items py_float items categories values = Raise e.
Proof.
  intros Hex.
  destruct (result_cases (Chart.parse_items py_float items categories values))
    as [[d Hd] | He]; [|exact He].
  apply parse_items_Ok_two_fields in Hd.
  apply Exists_exists in Hex as (item & Hin & Hne).
  rewrite Forall_forall in Hd. by destruct Hne; apply Hd.
Qed.

End ParseDataFacts.

(** * The triple parsers *)

Lemma parse_metrics_items_filter items metrics :
  BigNumbers.parse_metrics_items items metrics
  = metrics ++ map metric_of (List.filter has_three_fields items).
Proof.
  revert metrics. induction items as [|item items IH]; intros metrics.
  - simpl. by rewrite app_nil_r.
  - cbn [BigNumbers.parse_metrics_items List.filter].
    change (3 <=? length (split ":" item))%nat with (has_three_fields item).
    destruct (has_three_fields item); rewrite IH; [|done].
    cbn [map]. by rewrite <- app_assoc.
Qed.

Lemma parse_timeline_items_filter items timeline :
  Timeline.parse_timeline_items items timeline
  = timeline ++ map event_of (List.filter has_three_fields items).
Proof.
  revert timeline. induction items as [|item items IH]; intros timeline.
  - simpl. by rewrite app_nil_r.
  - cbn [Timeline.parse_timeline_items List.filter].
    change (3 <=? length (split ":" item))%nat with (has_three_fields item).
    destruct (has_three_fields item); rewrite IH; [|done].
    cbn [map]. by rewrite <- app_assoc.
Qed.

(** * Claims on parsing *)

(** C1, as stated, fails: a record with fewer fields than its shape asks for
    does not always make the parse fail. In triple mode the short record "X"
    is skipped and the other record is returned; in pair mode an input
    without any colon is read as bare numbers although each record has one
    field only. *)
Lemma short_record_not_rejected :
  (Exists (fun r => length (fields r) < 3) (records "3000:GMV:up,X")
   /\ BigNumbers.parse_metrics_data "3000:GMV:up,X"
      = [BigNumbers.Metric "3000" "GMV" "up"])
  /\ (Exists (fun r => length (fields r) < 2) (records "10,20")
      /\ is_ok (Chart.parse_data float_literal "10,20") = true).
Proof.
  split; split.
  - apply Exists_cons_tl, Exists_cons_hd. vm_compute. lia.
  - vm_compute. reflexivity.
  - apply Exists_cons_hd. vm_compute. lia.
  - vm_compute. reflexivity.
Qed.

(** C1, amended: in pair mode an input that contains a colon and has a
    record of fewer than two fields makes [parse_data] raise, whatever the
    other records are, and "A:10,B" raises the unpacking error; the triple
    parsers never raise: they return, in input order, the records that have
    at least three fields and skip the others. *)
Theorem short_record_outcome {F : Type} (py_float : string -> option F)
    (raw : string) :
  (contains ":" raw = true ->
   Exists (fun r => length (fields r) < 2) (records raw) ->
   exists e, Chart.parse_data py_float raw = Raise e)
  /\ Chart.parse_data float_literal "A:10,B" = Raise ValueError_not_enough_values
  /\ BigNumbers.parse_metrics_data raw
     = map metric_of (List.filter has_three_fields (records raw))
  /\ Timeline.parse_timeline_data raw
     = map event_of (List.filter has_three_fields (records raw)).
Proof.
  split; [|split; [|split]].
  - intros Hcolon Hshort. unfold Chart.parse_data. rewrite Hcolon.
    apply parse_items_wrong_arity.
    eapply Exists_impl; [exact Hshort|]. simpl. lia.
  - vm_compute. reflexivity.
  - unfold BigNumbers.parse_metrics_data. apply parse_metrics_items_filter.
  - unfold Timeline.parse_timeline_data. apply parse_timeline_items_filter.
Qed.

Lemma short_record_outcome_witness :
  contains ":" "A:10,B" = true
  /\ Exists (fun r => length (fields r) < 2) (records "A:10,B")
  /\ exists e, Chart.parse_data float_literal "A:10,B" = Raise e.
Proof.
  assert (Hc : contains ":" "A:10,B" = true) by reflexivity.
  assert (Hs : Exists (fun r => length (fields r) < 2) (records "A:10,B")).
  { apply Exists_cons_tl, Exists_cons_hd. vm_compute. lia. }
  split; [exact Hc|]. split; [exact Hs|].
  exact (proj1 (short_record_outcome float_literal "A:10,B") Hc Hs).
Defined.

(** The values of the second format, in the order of the records. *)
Lemma bare_values_Ok {F : Type} (py_float : string -> option F) xs values :
  comprehension (fun x => Chart.float py_float (strip x)) xs = Ok values
  <-> Forall2 (fun x v => py_float (strip x) = Some v) xs values.
Proof.
  rewrite comprehension_Ok. split; intros H.
  - eapply Forall2_impl; [exact H|]. intros x v. unfold Chart.float.
    destruct (py_float (strip x)); [by intros [= ->] | discriminate].
  - eapply Forall2_impl; [exact H|]. intros x v Hx. unfold Chart.float.
    by rewrite Hx.
Qed.

(** C9, as stated, fails twice over: the synthesized label is the text
    "项目" followed at once by the 1-based index, not "Item " and the index;
    and an input without colon is not always accepted, "abc" raises. *)
Lemma bare_list_label_and_rejection :
  (contains ":" "10,20" = false
   /\ Chart.parse_data float_literal "10,20"
      = Ok (["项目1"; "项目2"], [10%Q; 20%Q])
   /\ ["项目1"; "项目2"] <> ["Item 1"; "Item 2"])
  /\ (contains ":" "abc" = false
      /\ Chart.parse_data float_literal "abc" = Raise (ValueError_float "abc")).
Proof.
  split; split; [reflexivity | split | reflexivity | ].
  - vm_compute. reflexivity.
  - discriminate.
  - vm_compute. reflexivity.
Qed.

(** C9, amended: an input without colon is read as a bare comma-separated
    list. When every trimmed record is a number for [float], the parse
    returns those numbers in input order, as many as there are records, the
    value at 0-based position i labelled "项目" followed by i+1; this is the
    only way it succeeds, and a record that is no number makes it raise. *)
Theorem bare_list_parse {F : Type} (py_float : string -> option F)
    (raw : string) :
  contains ":" raw = false ->
  (forall categories values,
     Chart.parse_data py_float raw = Ok (categories, values)
     <-> Forall2 (fun x v => py_float (strip x) = Some v) (records raw) values
         /\ categories = map auto_label (seq 0 (length (records raw))))
  /\ (forall categories values,
        Chart.parse_data py_float raw = Ok (categories, values) ->
        length values = length (records raw)
        /\ length categories = length (records raw))
  /\ (Exists (fun x => py_float (strip x) = None) (records raw) ->
      exists e, Chart.parse_data py_float raw = Raise e).
Proof.
  intros Hcolon. unfold Chart.parse_data. rewrite Hcolon. fold (records raw).
  assert (Hiff : forall categories values,
    (comprehension (fun x => Chart.float py_float (strip x)) (records raw)
       ≫= fun values =>
         Ok (map (fun i => "项目" +:+ str_of_nat (i + 1))
                 (seq 0 (length values)), values))
     = Ok (categories, values)
    <-> Forall2 (fun x v => py_float (strip x) = Some v) (records raw) values
        /\ categories = map auto_label (seq 0 (length (records raw)))).
  { intros categories values. split.
    - intros H. apply bind_inv_Ok in H as (vs & Hvs & [= <- <-]).
      apply bare_values_Ok in Hvs. split; [exact Hvs|].
      by rewrite (Forall2_length _ _ _ Hvs).
    - intros [Hvs ->]. rewrite (Forall2_length _ _ _ Hvs).
      apply bare_values_Ok in Hvs. rewrite Hvs. reflexivity. }
  split; [exact Hiff|]. split.
  - intros categories values H. apply Hiff in H as [Hvs ->].
    rewrite length_map, length_seq. split; [|done].
    symmetry. exact (Forall2_length _ _ _ Hvs).
  - intros Hbad.
    destruct (comprehension_Raise (fun x => Chart.float py_float (strip x))
                (records raw)) as [e He].
    + eapply Exists_impl; [exact Hbad|]. intros x Hx. unfold Chart.float.
      rewrite Hx. eauto.
    + exists e. by rewrite He.
Qed.

Lemma bare_list_parse_witness :
  contains ":" "10, 20,+35" = false
  /\ Chart.parse_data float_literal "10, 20,+35"
     = Ok (["项目1"; "项目2"; "项目3"], [10%Q; 20%Q; 35%Q]).
Proof.
  assert (Hc : contains ":" "10, 20,+35" = false) by reflexivity.
  split; [exact Hc|].
  apply (proj1 (bare_list_parse float_literal "10, 20,+35" Hc)).
  split; [|reflexivity].
  repeat constructor.
Defined.

(** C10: in pair mode, that is on an input with a colon, a record of more
    than two fields makes [parse_data] raise; "A:10:20" raises at the
    two-variable unpacking, before [float] is even called; and the parse
    succeeds only when every record has exactly two fields. *)
Theorem pair_mode_field_count {F : Type} (py_float : string -> option F)
    (raw : string) :
  contains ":" raw = true ->
  (Exists (fun r => 2 < length (fields r)) (records raw) ->
   exists e, Chart.parse_data py_float raw = Raise e)
  /\ (forall d, Chart.parse_data py_float raw = Ok d ->
      Forall (fun r => length (fields r) = 2) (records raw))
  /\ Chart.parse_data py_float "A:10:20" = Raise ValueError_too_many_values.
Proof.
  intros Hcolon. unfold Chart.parse_data at 1 2. rewrite Hcolon.
  split; [|split].
  - intros Hlong. apply parse_items_wrong_arity.
    eapply Exists_impl; [exact Hlong|]. simpl. lia.
  - intros d. apply parse_items_Ok_two_fields.
  - reflexivity.
Qed.

Lemma pair_mode_field_count_witness :
  contains ":" "A:10:20" = true
  /\ Exists (fun r => 2 < length (fields r)) (records "A:10:20")
  /\ exists e, Chart.parse_data float_literal "A:10:20" = Raise e.
Proof.
  assert (Hc : contains ":" "A:10:20" = true) by reflexivity.
  assert (Hl : Exists (fun r => 2 < length (fields r)) (records "A:10:20")).
  { apply Exists_cons_hd. vm_compute. lia. }
  split; [exact Hc|]. split; [exact Hl|].
  exact (proj1 (pair_mode_field_count float_literal "A:10:20" Hc) Hl).
Defined.

(** * The colour registries *)

Lemma dict_fold_lookup {V : Type} (items : list (string * V))
    (d : gmap string V) k v :
  fold_left (fun d kv => <[ kv.1 := kv.2 ]> d) items d !! k = Some v ->
  In (k, v) items \/ d !! k = Some v.
Proof.
  revert d. induction items as [|[k' v'] items IH]; intros d; simpl.
  - by right.
  - intros H. apply IH in H as [H | H]; [by left; right|].
    destruct (decide (k' = k)) as [-> | Hne].
    + rewrite lookup_insert_eq in H. injection H as ->. by left; left.
    + rewrite lookup_insert_ne in H by done. by right.
Qed.

Lemma dict_lookup_In {V : Type} (items : list (string * V)) k v :
  dict items !! k = Some v -> In (k, v) items.
Proof.
  intros H. apply dict_fold_lookup in H as [H | H]; [exact H|].
  by rewrite lookup_empty in H.
Qed.

Lemma field_of_Some registry key field v :
  field_of registry key field = Some v ->
  exists scheme, registry !! key = Some scheme /\ scheme !! field = Some v.
Proof.
  unfold field_of. destruct (registry !! key) as [scheme|]; [|discriminate].
  simpl. eauto.
Qed.

(** Enumerate the entries behind a successful lookup [H] in a registry:
    one goal per scheme key and field, with the value found there. *)
Ltac entry_cases H :=
  apply dict_lookup_In in H; cbn [In] in H;
  repeat (destruct H as [H | H]; [injection H as <- <- | ]); [ .. | destruct H].

Ltac registry_cases H :=
  let Hf := fresh "Hfield" in
  apply field_of_Some in H as (? & H & Hf);
  entry_cases H; entry_cases Hf.

(** Close a goal [v1 = v2] from the other registry's lookup [H], which is at
    a concrete key and field by now. *)
Ltac compare_with H := vm_compute in H; first [discriminate H | by injection H as <-].

(** C5, as stated, fails: the registries do not give the same key and field
    the same colours. For gold_blue the gradient of generate_chart.py has
    three colours and starts with #1E3A5F, that of generate_big_numbers.py
    has four and starts with #2C5282. *)
Lemma registries_disagree :
  field_of Chart.COLOR_SCHEMES "gold_blue" "gradient"
    = Some (StrList ["#1E3A5F"; "#2C5282"; "#3A6FA5"])
  /\ field_of BigNumbers.COLOR_SCHEMES "gold_blue" "gradient"
    = Some (StrList ["#2C5282"; "#D4AF37"; "#3A6FA5"; "#F4E4C1"])
  /\ field_of Chart.COLOR_SCHEMES "gold_blue" "gradient"
     <> field_of BigNumbers.COLOR_SCHEMES "gold_blue" "gradient".
Proof.
  split; [|split]; [vm_compute; reflexivity .. | vm_compute; discriminate].
Qed.

(** C5, amended: each of the three registries has exactly the five keys;
    generate_chart.py and generate_big_numbers.py give a key and a field the
    same value whenever both define it, except for the gradient of gold_blue
    and of multilayer, which both define and which differ between the two
    files; the schemes of generate_timeline.py have the fields name, colors,
    text and text_light and no other; generate_timeline.py agrees with both
    other files on every field it shares with them; and the colors of
    generate_timeline.py are the gradient of the other two for blue, orange
    and green. *)
Theorem registries_agreement :
  (forall key,
     (is_Some (Chart.COLOR_SCHEMES !! key) <-> In key scheme_keys)
     /\ (is_Some (BigNumbers.COLOR_SCHEMES !! key) <-> In key scheme_keys)
     /\ (is_Some (Timeline.COLOR_SCHEMES !! key) <-> In key scheme_keys))
  /\ (forall key field v1 v2,
        field <> "gradient" \/ In key ["blue"; "orange"; "green"] ->
        field_of Chart.COLOR_SCHEMES key field = Some v1 ->
        field_of BigNumbers.COLOR_SCHEMES key field = Some v2 ->
        v1 = v2)
  /\ (forall key field v1 v2,
        field_of Timeline.COLOR_SCHEMES key field = Some v1 ->
        field_of Chart.COLOR_SCHEMES key field = Some v2
        \/ field_of BigNumbers.COLOR_SCHEMES key field = Some v2 ->
        v1 = v2)
  /\ (forall key, In key ["blue"; "orange"; "green"] ->
        field_of Timeline.COLOR_SCHEMES key "colors"
          = field_of Chart.COLOR_SCHEMES key "gradient"
        /\ field_of Timeline.COLOR_SCHEMES key "colors"
          = field_of BigNumbers.COLOR_SCHEMES key "gradient")
  /\ (forall key, In key ["gold_blue"; "multilayer"] ->
        exists g1 g2,
          field_of Chart.COLOR_SCHEMES key "gradient" = Some g1
          /\ field_of BigNumbers.COLOR_SCHEMES key "gradient" = Some g2
          /\ g1 <> g2)
  /\ (forall key field,
        is_Some (field_of Timeline.COLOR_SCHEMES key field)
        <-> In key scheme_keys
            /\ In field ["name"; "colors"; "text"; "text_light"]).
Proof.
  split; [|split; [|split; [|split; [|split]]]].
  - assert (Hkeys : forall registry : gmap string (gmap string value),
              (forall key scheme, registry !! key = Some scheme ->
                                  In key scheme_keys) ->
              Forall (fun key => is_Some (registry !! key)) scheme_keys ->
              forall key, is_Some (registry !! key) <-> In key scheme_keys).
    { intros registry Hsub Hsup key. split.
      - intros [scheme Hs]. by eapply Hsub.
      - intros Hin. rewrite Forall_forall in Hsup. by apply Hsup, list_elem_of_In. }
    intros key. split; [|split]; apply Hkeys.
    all: try (intros k scheme H; entry_cases H; simpl; tauto).
    all: apply (bool_decide_unpack _); vm_compute; exact I.
  - intros key field v1 v2 Hwhere H1 H2.
    registry_cases H1; try compare_with H2.
    all: destruct Hwhere as [Hne | Hin]; [by destruct Hne | ].
    all: simpl in Hin; repeat (destruct Hin as [Hin | Hin]; [discriminate Hin|]).
    all: destruct Hin.
  - intros key field v1 v2 H1 [H2 | H2]; registry_cases H1; compare_with H2.
  - intros key Hin. simpl in Hin.
    repeat (destruct Hin as [<- | Hin]; [split; vm_compute; reflexivity|]).
    destruct Hin.
  - intros key Hin. simpl in Hin.
    repeat (destruct Hin as [<- | Hin];
            [eexists _, _; split; [vm_compute; reflexivity|];
             split; [vm_compute; reflexivity | discriminate]|]).
    destruct Hin.
  - intros key field. split.
    + intros [v H]. registry_cases H; simpl; tauto.
    + intros [Hkey Hfield]. simpl in Hkey, Hfield.
      repeat (destruct Hkey as [<- | Hkey]);
        repeat (destruct Hfield as [<- | Hfield]).
      all: try done.
      all: apply (bool_decide_unpack _); vm_compute; exact I.
Qed.

Lemma registries_agreement_witness :
  field_of Chart.COLOR_SCHEMES "gold_blue" "accent" = Some (Str "#D4AF37")
  /\ field_of BigNumbers.COLOR_SCHEMES "gold_blue" "accent" = Some (Str "#D4AF37")
  /\ Str "#D4AF37" = Str "#D4AF37".
Proof.
  assert (H1 : field_of Chart.COLOR_SCHEMES "gold_blue" "accent"
               = Some (Str "#D4AF37")) by (vm_compute; reflexivity).
  assert (H2 : field_of BigNumbers.COLOR_SCHEMES "gold_blue" "accent"
               = Some (Str "#D4AF37")) by (vm_compute; reflexivity).
  split; [exact H1|]. split; [exact H2|].
  refine (proj1 (proj2 registries_agreement) "gold_blue" "accent" _ _ _ H1 H2).
  left. discriminate.
Defined.

(** * Numbers *)

Local Open Scope Q_scope.

Lemma Qgt_bool_true x y : Qgt_bool x y = true <-> y < x.
Proof.
  unfold Qgt_bool. rewrite negb_true_iff, <- not_true_iff_false, Qle_bool_iff.
  split; [apply Qnot_le_lt | apply Qlt_not_le].
Qed.

Lemma Qgt_bool_false x y : Qgt_bool x y = false <-> x <= y.
Proof.
  unfold Qgt_bool. rewrite negb_false_iff. apply Qle_bool_iff.
Qed.

Lemma Qlt_bool_false x y : Qlt_bool x y = false <-> y <= x.
Proof.
  unfold Qlt_bool. rewrite negb_false_iff. apply Qle_bool_iff.
Qed.

(** The running maximum of [max]: an element of the list, above all. *)
Lemma running_max_spec xs x :
  let m := fold_left (fun m y => if Qgt_bool y m then y else m) xs x in
  In m (x :: xs) /\ Forall (fun v => v <= m) (x :: xs).
Proof.
  revert x. induction xs as [|y xs IH]; intros x; cbn [fold_left].
  - split; [by left | repeat constructor; apply Qle_refl].
  - destruct (Qgt_bool y x) eqn:E.
    + destruct (IH y) as [Hin Hle]. split; [by right|].
      apply Qgt_bool_true in E. inversion Hle as [|? ? Hy Hxs]; subst.
      constructor; [|exact Hle]. eapply Qle_trans; [apply Qlt_le_weak, E | exact Hy].
    + destruct (IH x) as [Hin Hle]. apply Qgt_bool_false in E. split.
      * destruct Hin as [<- | Hin]; [by left | by right; right].
      * inversion Hle as [|? ? Hx Hxs]; subst.
        constructor; [exact Hx|]. constructor; [|exact Hxs].
        eapply Qle_trans; [exact E | exact Hx].
Qed.

Lemma py_max_spec values :
  values <> [] ->
  exists m, py_max values = Ok m /\ In m values
            /\ Forall (fun v => v <= m) values.
Proof.
  destruct values as [|x xs]; [done|]. intros _.
  eexists. split; [reflexivity|]. apply running_max_spec.
Qed.

(** * Pie and donut: the exploded wedges *)

Lemma explode_of_spec values m :
  py_max values = Ok m ->
  Chart.explode_of values
  = Ok (map (fun v => if Qeq_bool v m then 5 # 100 else 0) values).
Proof.
  intros Hm. unfold Chart.explode_of. apply comprehension_map.
  apply Forall_forall. intros v _. by rewrite Hm.
Qed.

Lemma zip3_length {A B C : Type} (xs : list A) (ys : list B) (zs : list C) :
  length xs = length ys -> length xs = length zs ->
  length (zip3 xs ys zs) = length xs.
Proof.
  revert ys zs. induction xs as [|x xs IH]; intros [|y ys] [|z zs];
    simpl; try done. intros [= Hy] [= Hz]. by rewrite IH.
Qed.

Lemma zip3_lookup {A B C : Type} (xs : list A) (ys : list B) (zs : list C)
    i x y z :
  xs !! i = Some x -> ys !! i = Some y -> zs !! i = Some z ->
  zip3 xs ys zs !! i = Some (x, y, z).
Proof.
  revert ys zs i. induction xs as [|x' xs IH]; intros [|y' ys] [|z' zs] [|i];
    simpl; try done.
  - by intros [= ->] [= ->] [= ->].
  - apply IH.
Qed.

Lemma zip3_lookup_inv {A B C : Type} (xs : list A) (ys : list B)
    (zs : list C) i x y z :
  zip3 xs ys zs !! i = Some (x, y, z) ->
  xs !! i = Some x /\ ys !! i = Some y /\ zs !! i = Some z.
Proof.
  revert ys zs i. induction xs as [|x' xs IH]; intros [|y' ys] [|z' zs] [|i];
    simpl; try done.
  - by intros [= -> -> ->].
  - apply IH.
Qed.

Lemma zip3_explode {A B C : Type} (xs : list A) (ys : list B) (zs : list C) :
  length xs = length ys -> length xs = length zs ->
  map (fun row => row.2) (zip3 xs ys zs) = zs.
Proof.
  revert ys zs. induction xs as [|x xs IH]; intros [|y ys] [|z zs];
    simpl; try done. intros [= Hy] [= Hz]. by rewrite IH.
Qed.

Lemma pie_wedges_explode colors i theta rows ws :
  pie_wedges colors i theta rows = Ok ws ->
  map wedge_explode ws = map (fun row => row.2) rows.
Proof.
  revert i theta ws.
  induction rows as [|[[frac label] expl] rows IH]; intros i theta ws; simpl.
  - by intros [= <-].
  - intros H. apply bind_inv_Ok in H as (c & _ & H).
    apply bind_inv_Ok in H as (ws' & Hws & [= <-]).
    simpl. f_equal. by eapply IH.
Qed.

Lemma Axes_pie_explode x labels colors startangle explode ws :
  Axes_pie x labels colors startangle explode = Ok ws ->
  map wedge_explode ws = explode.
Proof.
  unfold Axes_pie. intros H.
  destruct (existsb _ x); [discriminate|].
  destruct (Qeq_bool (py_sum x) 0 && negb (length x =? 0)%nat); [discriminate|].
  destruct (length (map _ x) =? length labels)%nat eqn:El; [|discriminate].
  destruct (length (map _ x) =? length explode)%nat eqn:Ee; [|discriminate].
  simpl in H. apply Nat.eqb_eq in El, Ee.
  apply pie_wedges_explode in H. rewrite H. by apply zip3_explode.
Qed.

Lemma pie_chart_inv categories values scheme d :
  Chart.generate_pie_chart categories values scheme = Ok d
  \/ Chart.generate_donut_chart categories values scheme = Ok d ->
  exists gradient explode,
    scheme !! "gradient" = Some (StrList gradient)
    /\ Chart.explode_of values = Ok explode
    /\ Axes_pie values categories (take (length categories) gradient) 90 explode
       = Ok (Chart.pie_wedges_drawn d).
Proof.
  assert (Hg : forall v, getitem scheme "gradient" = Ok v ->
                         scheme !! "gradient" = Some v).
  { intros v. unfold getitem. by destruct (scheme !! "gradient"); intros [= ->]. }
  assert (Hs : forall n v l, slice_to n v = Ok l ->
                             exists g, v = StrList g /\ l = take n g).
  { intros n [?|g] l; simpl; [discriminate|]. intros [= <-]. eauto. }
  unfold Chart.generate_pie_chart, Chart.generate_donut_chart.
  intros [H | H].
  all: apply bind_inv_Ok in H as (v & Hv & H); apply Hg in Hv.
  all: apply bind_inv_Ok in H as (colors & Hc & H).
  all: apply Hs in Hc as (g & -> & ->).
  all: apply bind_inv_Ok in H as (explode & He & H).
  all: apply bind_inv_Ok in H as (? & _ & H).
  all: apply bind_inv_Ok in H as (ws & Hws & H).
  all: repeat (apply bind_inv_Ok in H as (? & _ & H)).
  all: injection H as <-; simpl; eauto.
Qed.

(** C2, as stated, fails on ties: with values 5, 5, 1 both records that
    hold the maximum are exploded, not the first one only. *)
Lemma tie_explodes_both :
  exists d,
    Chart.generate_pie_chart ["a"; "b"; "c"] [5; 5; 1] (chart_scheme "blue")
    = Ok d
    /\ map wedge_explode (Chart.pie_wedges_drawn d) = [5 # 100; 5 # 100; 0].
Proof.
  eexists. split; vm_compute; reflexivity.
Qed.

(** C2, amended: for a non-empty numeric dataset laid out as pie or donut,
    every record whose value equals the maximum gets the offset 0.05, all the
    records tied for the maximum alike, and every other record gets 0. *)
Theorem exploded_wedges categories values scheme d :
  values <> [] ->
  Chart.generate_pie_chart categories values scheme = Ok d
  \/ Chart.generate_donut_chart categories values scheme = Ok d ->
  exists m,
    py_max values = Ok m /\ In m values /\ Forall (fun v => v <= m) values
    /\ map wedge_explode (Chart.pie_wedges_drawn d)
       = map (fun v => if Qeq_bool v m then 5 # 100 else 0) values.
Proof.
  intros Hne Hd.
  destruct (py_max_spec values Hne) as (m & Hm & Hin & Hmax).
  exists m. split; [exact Hm|]. split; [exact Hin|]. split; [exact Hmax|].
  apply pie_chart_inv in Hd as (gradient & explode & _ & He & Hws).
  rewrite (explode_of_spec values m Hm) in He. injection He as <-.
  by apply Axes_pie_explode in Hws.
Qed.

Lemma exploded_wedges_witness :
  exists d,
    Chart.generate_donut_chart ["a"; "b"; "c"] [30; 25; 45]
      (chart_scheme "green") = Ok d
    /\ exists m, py_max [30; 25; 45] = Ok m
       /\ map wedge_explode (Chart.pie_wedges_drawn d)
          = map (fun v => if Qeq_bool v m then 5 # 100 else 0) [30; 25; 45].
Proof.
  eexists. split; [vm_compute; reflexivity|].
  edestruct (exploded_wedges ["a"; "b"; "c"] [30; 25; 45]
               (chart_scheme "green")) as (m & Hm & _ & _ & Hw).
  - discriminate.
  - right. vm_compute. reflexivity.
  - exists m. split; [exact Hm | exact Hw].
Defined.

(** * Lists *)

Lemma enumerate_lookup {A : Type} (xs : list A) i x :
  xs !! i = Some x -> enumerate xs !! i = Some (i, x).
Proof.
  intros Hx. unfold enumerate. apply lookup_zip_with_Some.
  exists i, x. split; [done|]. split; [|exact Hx].
  apply lookup_seq. split; [done|]. by eapply lookup_lt_Some.
Qed.

Lemma enumerate_lookup_inv {A : Type} (xs : list A) i j x :
  enumerate xs !! i = Some (j, x) -> j = i /\ xs !! i = Some x.
Proof.
  unfold enumerate. intros H.
  apply lookup_zip_with_Some in H as (k & y & [= -> ->] & Hk & Hy).
  apply lookup_seq in Hk as [-> _]. done.
Qed.

Lemma enumerate_length {A : Type} (xs : list A) :
  length (enumerate xs) = length xs.
Proof.
  unfold enumerate. rewrite length_zip_with, length_seq. lia.
Qed.

Lemma getindex_Ok {A : Type} (xs : list A) i x :
  xs !! i = Some x -> getindex xs i = Ok x.
Proof. unfold getindex. by intros ->. Qed.

Lemma getitem_Ok (d : gmap string value) k v :
  d !! k = Some v -> getitem d k = Ok v.
Proof. unfold getitem. by intros ->. Qed.

(** * Waterfall: the running total *)

Lemma cumulative_fold xs pre a :
  fold_left (fun cumulative v => cumulative ++ [List.last cumulative 0 + v])
            xs (pre ++ [a])
  = pre ++ map (fun k => fold_left Qplus (take k xs) a)
               (seq 0 (S (length xs))).
Proof.
  revert pre a. induction xs as [|x xs IH]; intros pre a.
  - reflexivity.
  - cbn [fold_left]. rewrite List.last_last, IH, <- app_assoc.
    cbn [length].
    change (seq 0 (S (S (length xs)))) with (0%nat :: seq 1 (S (length xs))).
    rewrite <- seq_shift, map_cons, map_map. reflexivity.
Qed.

Lemma take_removelast {A : Type} (xs : list A) k :
  (k < length xs)%nat -> take k (removelast xs) = take k xs.
Proof.
  revert k. induction xs as [|x xs IH]; intros k Hk; [simpl in Hk; lia|].
  destruct xs as [|y xs].
  - simpl in Hk. by replace k with 0%nat by lia.
  - destruct k as [|k]; [done|]. cbn [removelast take]. f_equal.
    apply IH. simpl in *. lia.
Qed.

Lemma removelast_length {A : Type} (xs : list A) :
  length (removelast xs) = pred (length xs).
Proof. rewrite removelast_firstn_len, length_take. lia. Qed.

Lemma cumulative_of_map values :
  Chart.cumulative_of values
  = map (fun k => py_sum (take k (removelast values)))
        (seq 0 (S (length (removelast values)))).
Proof. exact (cumulative_fold (removelast values) [] 0). Qed.

Lemma cumulative_of_length values :
  values <> [] -> length (Chart.cumulative_of values) = length values.
Proof.
  intros Hne. rewrite cumulative_of_map, length_map, length_seq.
  destruct values as [|x xs]; [done|].
  rewrite (removelast_length (x :: xs)). simpl. lia.
Qed.

(** [cumulative[i]] is the sum of the values before position [i]. *)
Lemma cumulative_of_lookup values i :
  (i < length values)%nat ->
  Chart.cumulative_of values !! i = Some (py_sum (take i values)).
Proof.
  intros Hi. rewrite cumulative_of_map, list_lookup_fmap, lookup_seq_lt.
  - simpl. by rewrite take_removelast.
  - rewrite removelast_length. lia.
Qed.

(** Every scheme of generate_chart.py has the fields the generators read. *)
Lemma chart_scheme_fields key scheme :
  Chart.COLOR_SCHEMES !! key = Some scheme ->
  exists gradient primary accent text text_light,
    scheme !! "gradient" = Some (StrList gradient) /\ gradient <> []
    /\ scheme !! "primary" = Some primary /\ scheme !! "accent" = Some accent
    /\ scheme !! "text" = Some text /\ scheme !! "text_light" = Some text_light.
Proof.
  intros H. entry_cases H.
  all: eexists _, _, _, _, _; split_and!.
  all: try (vm_compute; reflexivity).
  all: discriminate.
Qed.

Lemma lookup_default_Some (registry : gmap string (gmap string value)) key :
  bool_decide (is_Some (registry !! key)) = true ->
  registry !! key = Some (default ∅ (registry !! key)).
Proof.
  intros H. apply bool_decide_eq_true in H as [scheme ->]. reflexivity.
Qed.

(** The scheme of a known key is the registry's entry. *)
Lemma chart_scheme_lookup key :
  bool_decide (is_Some (Chart.COLOR_SCHEMES !! key)) = true ->
  Chart.COLOR_SCHEMES !! key = Some (chart_scheme key).
Proof. apply lookup_default_Some. Qed.

Lemma big_numbers_scheme_lookup key :
  bool_decide (is_Some (BigNumbers.COLOR_SCHEMES !! key)) = true ->
  BigNumbers.COLOR_SCHEMES !! key = Some (big_numbers_scheme key).
Proof. apply lookup_default_Some. Qed.

Lemma timeline_scheme_lookup key :
  bool_decide (is_Some (Timeline.COLOR_SCHEMES !! key)) = true ->
  Timeline.COLOR_SCHEMES !! key = Some (timeline_scheme key).
Proof. apply lookup_default_Some. Qed.

(** * Waterfall *)

Section Waterfall.

Variables (categories : list string) (values : list Q).
Variable scheme : gmap string value.
Variables primary accent text text_light : value.

Hypothesis same_length : length categories = length values.
Hypothesis Hprimary : scheme !! "primary" = Some primary.
Hypothesis Haccent : scheme !! "accent" = Some accent.
Hypothesis Htext : scheme !! "text" = Some text.
Hypothesis Htext_light : scheme !! "text_light" = Some text_light.

Let color_of (iv : nat * Q) : value :=
  if (iv.1 =? 0)%nat || Chart.is_last_index iv.1 values then primary
  else if Qle_bool 0 iv.2 then accent else Str "#FF6B6B".

Let bar_of (row : nat * (string * Q * Q)) : Chart.bar :=
  let '(i, (cat, val, cum)) := row in
  {| Chart.bar_x := Qnat i; Chart.bar_height := val;
     Chart.bar_bottom := if Chart.is_last_index i categories then 0 else cum;
     Chart.bar_color := color_of (i, val); Chart.bar_width := 6 # 10 |}.

Let connector_of (i : nat) : Chart.segment :=
  let level := py_sum (take (i + 1) values) in
  {| Chart.seg_x1 := Qnat i + (3 # 10); Chart.seg_x2 := Qnat i + (7 # 10);
     Chart.seg_y1 := level; Chart.seg_y2 := level |}.

Lemma waterfall_colors_Ok :
  Chart.waterfall_colors values scheme = Ok (map color_of (enumerate values)).
Proof.
  unfold Chart.waterfall_colors. apply comprehension_map.
  apply Forall_forall. intros [i v] _. unfold color_of. simpl.
  destruct ((i =? 0)%nat || Chart.is_last_index i values);
    [by apply getitem_Ok|].
  destruct (Qle_bool 0 v); [by apply getitem_Ok | reflexivity].
Qed.

Lemma waterfall_bars_Ok :
  comprehension
    (fun '(i, (cat, val, cum)) =>
       c ← getindex (map color_of (enumerate values)) i;
       if Chart.is_last_index i categories then
         Ok {| Chart.bar_x := Qnat i; Chart.bar_height := val;
               Chart.bar_bottom := 0; Chart.bar_color := c;
               Chart.bar_width := 6 # 10 |}
       else
         Ok {| Chart.bar_x := Qnat i; Chart.bar_height := val;
               Chart.bar_bottom := cum; Chart.bar_color := c;
               Chart.bar_width := 6 # 10 |})
    (enumerate (zip3 categories values (Chart.cumulative_of values)))
  = Ok (map bar_of
          (enumerate (zip3 categories values (Chart.cumulative_of values)))).
Proof.
  apply comprehension_map, Forall_lookup.
  intros i [j [[cat val] cum]] Hrow.
  apply enumerate_lookup_inv in Hrow as [-> Hrow].
  apply zip3_lookup_inv in Hrow as (_ & Hval & _).
  rewrite (getindex_Ok _ i (color_of (i, val))).
  - rewrite bind_Ok. unfold bar_of.
    by destruct (Chart.is_last_index i categories).
  - rewrite list_lookup_fmap, (enumerate_lookup _ _ _ Hval). reflexivity.
Qed.

Lemma waterfall_connectors_Ok :
  comprehension
    (fun i =>
       level ← getindex (Chart.cumulative_of values) (i + 1);
       Ok {| Chart.seg_x1 := Qnat i + (3 # 10);
             Chart.seg_x2 := Qnat i + (7 # 10);
             Chart.seg_y1 := level; Chart.seg_y2 := level |})
    (seq 0 (length categories - 2))
  = Ok (map connector_of (seq 0 (length categories - 2))).
Proof.
  apply comprehension_map, Forall_forall. intros i Hi.
  apply elem_of_seq in Hi.
  rewrite (getindex_Ok _ _ (py_sum (take (i + 1) values))); [reflexivity|].
  apply cumulative_of_lookup. lia.
Qed.

Lemma generate_waterfall_chart_Ok :
  Chart.generate_waterfall_chart categories values scheme
  = Ok {| Chart.waterfall_bars :=
            map bar_of (enumerate (zip3 categories values
                                        (Chart.cumulative_of values)));
          Chart.waterfall_connectors :=
            map connector_of (seq 0 (length values - 2));
          Chart.waterfall_labels :=
            map (fun '(i, (cat, val, cum)) =>
                   {| Chart.label_x := Qnat i;
                      Chart.label_y :=
                        if Chart.is_last_index i categories then val / 2
                        else cum + val / 2;
                      Chart.label_val := val;
                      Chart.label_fmt :=
                        if (0 <? i)%nat
                           && (Z.of_nat i <? Z.of_nat (length categories) - 1)%Z
                        then Chart.Signed else Chart.Plain |})
                (enumerate (zip3 categories values
                                 (Chart.cumulative_of values))) |}.
Proof.
  unfold Chart.generate_waterfall_chart.
  rewrite waterfall_colors_Ok, bind_Ok.
  rewrite waterfall_bars_Ok, bind_Ok.
  rewrite waterfall_connectors_Ok, bind_Ok.
  rewrite (getitem_Ok _ _ _ Htext_light), bind_Ok.
  rewrite (getitem_Ok _ _ _ Htext), bind_Ok.
  by rewrite same_length.
Qed.

(** The bar drawn for the value at position [i]. *)
Lemma waterfall_bar_lookup i v :
  values !! i = Some v ->
  exists b,
    map bar_of (enumerate (zip3 categories values
                                (Chart.cumulative_of values))) !! i = Some b
    /\ Chart.bar_x b = Qnat i /\ Chart.bar_height b = v
    /\ Chart.bar_bottom b
       = if (i =? length values - 1)%nat then 0 else py_sum (take i values).
Proof.
  intros Hv. pose proof (lookup_lt_Some _ _ _ Hv) as Hi.
  destruct (lookup_lt_is_Some_2 categories i) as [cat Hcat]; [lia|].
  eexists. split.
  - rewrite list_lookup_fmap.
    erewrite enumerate_lookup; [reflexivity|].
    apply zip3_lookup; [exact Hcat | exact Hv |].
    by apply cumulative_of_lookup.
  - simpl. split; [done|]. split; [done|].
    unfold Chart.is_last_index. rewrite same_length.
    destruct (Nat.eqb_spec i (length values - 1)) as [-> | Hne].
    + rewrite (proj2 (Z.eqb_eq _ _)); [done | lia].
    + rewrite (proj2 (Z.eqb_neq _ _)); [done | lia].
Qed.

End Waterfall.

(** C4: for a dataset of n >= 2 values drawn as a waterfall under any of
    the five schemes, there is one bar per value, at x = i with height
    values[i]; bar 0 starts at 0, an intermediate bar i starts at the sum of
    values[0..i-1], and the last bar starts at 0 whatever the running total
    is; the connectors are those at i = 0 .. n-3, at the level of the sum of
    values[0..i], so none is drawn right before the last bar. *)
Theorem waterfall_layout key scheme categories values :
  Chart.COLOR_SCHEMES !! key = Some scheme ->
  length categories = length values ->
  (2 <= length values)%nat ->
  exists d,
    Chart.generate_waterfall_chart categories values scheme = Ok d
    /\ length (Chart.waterfall_bars d) = length values
    /\ (forall v, values !! 0%nat = Some v ->
        exists b, Chart.waterfall_bars d !! 0%nat = Some b
                  /\ Chart.bar_bottom b = 0 /\ Chart.bar_height b = v)
    /\ (forall i v, (0 < i < length values - 1)%nat -> values !! i = Some v ->
        exists b, Chart.waterfall_bars d !! i = Some b
                  /\ Chart.bar_x b = Qnat i
                  /\ Chart.bar_bottom b = py_sum (take i values)
                  /\ Chart.bar_height b = v)
    /\ (forall v, values !! (length values - 1)%nat = Some v ->
        exists b, Chart.waterfall_bars d !! (length values - 1)%nat = Some b
                  /\ Chart.bar_bottom b = 0 /\ Chart.bar_height b = v)
    /\ Chart.waterfall_connectors d
       = map (fun i =>
                let level := py_sum (take (i + 1) values) in
                {| Chart.seg_x1 := Qnat i + (3 # 10);
                   Chart.seg_x2 := Qnat i + (7 # 10);
                   Chart.seg_y1 := level; Chart.seg_y2 := level |})
             (seq 0 (length values - 2)).
Proof.
  intros Hscheme Hlen Hn.
  destruct (chart_scheme_fields key scheme Hscheme)
    as (gradient & primary & accent & text & text_light
        & _ & _ & Hp & Ha & Ht & Htl).
  eexists. split.
  { exact (generate_waterfall_chart_Ok categories values scheme
             primary accent text text_light Hlen Hp Ha Ht Htl). }
  cbn [Chart.waterfall_bars Chart.waterfall_connectors].
  pose proof (waterfall_bar_lookup categories values primary accent Hlen)
    as Hbar.
  split; [|split; [|split; [|split]]].
  - rewrite length_map, enumerate_length.
    rewrite zip3_length; [exact Hlen | exact Hlen | ].
    rewrite cumulative_of_length; [exact Hlen|].
    destruct values; [simpl in Hn; lia | done].
  - intros v Hv. destruct (Hbar 0%nat v Hv) as (b & Hb & _ & Hh & Hbot).
    exists b. split; [exact Hb|]. split; [|exact Hh].
    rewrite Hbot. by destruct (0 =? length values - 1)%nat.
  - intros i v Hi Hv. destruct (Hbar i v Hv) as (b & Hb & Hx & Hh & Hbot).
    exists b. split; [exact Hb|]. split; [exact Hx|]. split; [|exact Hh].
    rewrite Hbot. destruct (Nat.eqb_spec i (length values - 1)); [lia | done].
  - intros v Hv.
    destruct (Hbar (length values - 1)%nat v Hv) as (b & Hb & _ & Hh & Hbot).
    exists b. split; [exact Hb|]. split; [|exact Hh].
    by rewrite Hbot, Nat.eqb_refl.
  - reflexivity.
Qed.

Lemma waterfall_layout_witness :
  exists categories values,
    Chart.parse_data float_literal "Base:100,Growth:+35,Total:200"
    = Ok (categories, values)
    /\ exists d,
         Chart.generate_waterfall_chart categories values (chart_scheme "blue")
         = Ok d
         /\ exists b, Chart.waterfall_bars d !! 2%nat = Some b
                      /\ Chart.bar_bottom b = 0 /\ Chart.bar_height b = 200.
Proof.
  exists ["Base"; "Growth"; "Total"], [100; 35; 200].
  split; [vm_compute; reflexivity|].
  destruct (waterfall_layout "blue" (chart_scheme "blue")
              ["Base"; "Growth"; "Total"] [100; 35; 200])
    as (d & Hd & _ & _ & _ & Hlast & _).
  - apply chart_scheme_lookup. vm_compute. reflexivity.
  - reflexivity.
  - simpl. lia.
  - exists d. split; [exact Hd|]. apply (Hlast 200). reflexivity.
Defined.

(** * Big-number cards *)

Local Close Scope Q_scope.

Lemma alternate_lookup {A : Type} (x y : A) i :
  [x; y] !! (i mod 2) = Some (if Nat.even i then x else y).
Proof.
  pose proof (Nat.mod_upper_bound i 2) as Hlt.
  rewrite (Nat.div_mod_eq i 2) at 2.
  rewrite Nat.add_comm, Nat.even_add_mul_2.
  destruct (i mod 2) as [|[|k]]; [done | done | lia].
Qed.

Lemma grid_covers n :
  1 <= n ->
  let '(cols, rows, _) := BigNumbers.grid n in
  1 <= rows /\ 1 <= cols /\ n <= rows * cols.
Proof.
  intros Hn. unfold BigNumbers.grid.
  destruct (Nat.leb_spec n 2); [lia|].
  destruct (Nat.leb_spec n 4); [lia|].
  pose proof (Nat.div_mod_eq (n + 2) 3) as Hdiv.
  pose proof (Nat.mod_upper_bound (n + 2) 3) as Hmod.
  lia.
Qed.

Section BigNumberCards.

Variable metrics : list BigNumbers.metric.
Variable scheme : gmap string value.
Variables primary accent text : value.

Hypothesis Hprimary : scheme !! "primary" = Some primary.
Hypothesis Haccent : scheme !! "accent" = Some accent.
Hypothesis Htext : scheme !! "text" = Some text.
Hypothesis nonempty : 1 <= length metrics.

Let card_of (i : nat) (metric : BigNumbers.metric) : BigNumbers.axes :=
  {| BigNumbers.axis_on := false;
     BigNumbers.axes_card :=
       Some {| BigNumbers.card_facecolor :=
                 if Nat.even i then primary else accent;
               BigNumbers.card_number := BigNumbers.number metric;
               BigNumbers.card_title := BigNumbers.title metric;
               BigNumbers.card_description :=
                 BigNumbers.description metric |} |}.

Let hidden : BigNumbers.axes :=
  {| BigNumbers.axis_on := false; BigNumbers.axes_card := None |}.

Lemma generate_big_number_cards_Ok :
  let '(cols, rows, figsize) := BigNumbers.grid (length metrics) in
  BigNumbers.generate_big_number_cards metrics scheme
  = Ok {| BigNumbers.fig_rows := rows; BigNumbers.fig_cols := cols;
          BigNumbers.fig_size := figsize;
          BigNumbers.fig_axes :=
            imap card_of metrics
            ++ replicate (rows * cols - length metrics) hidden |}.
Proof.
  pose proof (grid_covers (length metrics) nonempty) as Hgrid.
  unfold BigNumbers.generate_big_number_cards.
  destruct (BigNumbers.grid (length metrics)) as [[cols rows] figsize].
  destruct Hgrid as (Hrows & Hcols & Hfit).
  unfold BigNumbers.subplots.
  destruct (Nat.eqb_spec rows 0) as [|_]; [lia|].
  destruct (Nat.eqb_spec cols 0) as [|_]; [lia|].
  cbn [orb]. rewrite bind_Ok.
  rewrite (getitem_Ok _ _ _ Htext), bind_Ok.
  rewrite (getitem_Ok _ _ _ Hprimary), bind_Ok.
  rewrite (getitem_Ok _ _ _ Haccent), bind_Ok.
  rewrite take_replicate, drop_replicate, fmap_replicate.
  rewrite Nat.min_l by exact Hfit.
  rewrite (comprehension_map _
             (fun row => card_of row.1 row.2.2)).
  - rewrite bind_Ok. do 3 f_equal.
    apply list_eq. intros i.
    rewrite list_lookup_fmap, list_lookup_imap.
    destruct (metrics !! i) as [metric|] eqn:Hm.
    + rewrite (enumerate_lookup _ i (BigNumbers.new_axes, metric));
        [reflexivity|].
      apply lookup_zip_with_Some. exists BigNumbers.new_axes, metric.
      split; [done|]. split; [|exact Hm].
      apply lookup_replicate_2. by eapply lookup_lt_Some.
    + apply lookup_ge_None in Hm. simpl.
      rewrite (proj2 (lookup_ge_None _ _)); [done|].
      rewrite enumerate_length, length_zip_with, length_replicate. lia.
  - apply Forall_forall. intros [i [ax metric]] _.
    rewrite (getindex_Ok _ _ _ (alternate_lookup primary accent i)).
    reflexivity.
Qed.

End BigNumberCards.

Lemma big_numbers_scheme_fields key scheme :
  BigNumbers.COLOR_SCHEMES !! key = Some scheme ->
  exists primary accent text,
    scheme !! "primary" = Some primary /\ scheme !! "accent" = Some accent
    /\ scheme !! "text" = Some text.
Proof.
  intros H. entry_cases H.
  all: eexists _, _, _; split_and!; vm_compute; reflexivity.
Qed.

(** C8: for n >= 1 metrics under any of the five schemes the figure is
    packed by n alone: one row of n columns for n <= 2, two by two for
    n = 3 or 4, three columns and ceil(n/3) rows from 5 on; rows * cols axes
    are allocated; the card at flat index i is filled with the primary
    colour for even i and the accent for odd i, whatever its row and column;
    the rows * cols - n axes after the cards carry no card and have their
    axis turned off. *)
Theorem big_number_grid key scheme metrics :
  BigNumbers.COLOR_SCHEMES !! key = Some scheme ->
  1 <= length metrics ->
  exists fig primary accent,
    scheme !! "primary" = Some primary /\ scheme !! "accent" = Some accent
    /\ BigNumbers.generate_big_number_cards metrics scheme = Ok fig
    /\ let n := length metrics in
       let rows := BigNumbers.fig_rows fig in
       let cols := BigNumbers.fig_cols fig in
       (n <= 2 -> rows = 1 /\ cols = n)
       /\ (3 <= n <= 4 -> rows = 2 /\ cols = 2)
       /\ (5 <= n -> cols = 3 /\ 3 * (rows - 1) < n <= 3 * rows)
       /\ length (BigNumbers.fig_axes fig) = rows * cols
       /\ (forall i metric, metrics !! i = Some metric ->
           BigNumbers.fig_axes fig !! i
           = Some {| BigNumbers.axis_on := false;
                     BigNumbers.axes_card :=
                       Some {| BigNumbers.card_facecolor :=
                                 if Nat.even i then primary else accent;
                               BigNumbers.card_number :=
                                 BigNumbers.number metric;
                               BigNumbers.card_title :=
                                 BigNumbers.title metric;
                               BigNumbers.card_description :=
                                 BigNumbers.description metric |} |})
       /\ (forall i, n <= i < rows * cols ->
           BigNumbers.fig_axes fig !! i
           = Some {| BigNumbers.axis_on := false;
                     BigNumbers.axes_card := None |}).
Proof.
  intros Hscheme Hn.
  destruct (big_numbers_scheme_fields key scheme Hscheme)
    as (primary & accent & text & Hp & Ha & Ht).
  pose proof (generate_big_number_cards_Ok metrics scheme primary accent text
                Hp Ha Ht Hn) as Hfig.
  pose proof (grid_covers (length metrics) Hn) as Hcover.
  assert (Hshape : let '(cols, rows, _) := BigNumbers.grid (length metrics) in
            (length metrics <= 2 -> rows = 1 /\ cols = length metrics)
            /\ (3 <= length metrics <= 4 -> rows = 2 /\ cols = 2)
            /\ (5 <= length metrics ->
                cols = 3 /\ 3 * (rows - 1) < length metrics <= 3 * rows)).
  { unfold BigNumbers.grid.
    destruct (Nat.leb_spec (length metrics) 2); [lia|].
    destruct (Nat.leb_spec (length metrics) 4); [lia|].
    pose proof (Nat.div_mod_eq (length metrics + 2) 3).
    pose proof (Nat.mod_upper_bound (length metrics + 2) 3). lia. }
  destruct (BigNumbers.grid (length metrics)) as [[cols rows] figsize].
  destruct Hcover as (_ & _ & Hfit). destruct Hshape as (H2 & H4 & H5).
  eexists _, primary, accent.
  split; [exact Hp|]. split; [exact Ha|]. split; [exact Hfig|].
  cbn [BigNumbers.fig_rows BigNumbers.fig_cols BigNumbers.fig_axes].
  split; [exact H2|]. split; [exact H4|]. split; [exact H5|].
  split; [|split].
  - rewrite length_app, length_imap, length_replicate. lia.
  - intros i metric Hm. rewrite lookup_app_l.
    + rewrite list_lookup_imap, Hm. reflexivity.
    + rewrite length_imap. by eapply lookup_lt_Some.
  - intros i Hi. rewrite lookup_app_r; rewrite length_imap; [|lia].
    apply lookup_replicate_2. lia.
Qed.

Lemma big_number_grid_witness :
  exists fig,
    BigNumbers.generate_big_number_cards
      (BigNumbers.parse_metrics_data "1:a:b,2:c:d,3:e:f,4:g:h,5:i:j")
      (big_numbers_scheme "gold_blue") = Ok fig
    /\ BigNumbers.fig_cols fig = 3 /\ BigNumbers.fig_rows fig = 2
    /\ BigNumbers.fig_axes fig !! 5
       = Some {| BigNumbers.axis_on := false; BigNumbers.axes_card := None |}.
Proof.
  destruct (big_number_grid "gold_blue" (big_numbers_scheme "gold_blue")
              (BigNumbers.parse_metrics_data "1:a:b,2:c:d,3:e:f,4:g:h,5:i:j"))
    as (fig & primary & accent & _ & _ & Hfig & _ & _ & H5 & _ & _ & Hhid).
  - apply big_numbers_scheme_lookup. vm_compute. reflexivity.
  - vm_compute. lia.
  - exists fig. split; [exact Hfig|].
    assert (Hn : length (BigNumbers.parse_metrics_data
                           "1:a:b,2:c:d,3:e:f,4:g:h,5:i:j") = 5)
      by (vm_compute; reflexivity).
    rewrite Hn in H5, Hhid.
    destruct H5 as [Hc Hr]; [lia|].
    split; [exact Hc|]. split; [lia|]. apply Hhid. nia.
Defined.

(** * numpy.linspace *)

Local Open Scope Q_scope.

Lemma Qnat_nonzero n : (0 < n)%nat -> ~ Qnat n == 0.
Proof. intros Hn H. unfold Qnat, Qeq in H. simpl in H. lia. Qed.

Lemma linspace_length start stop num endpoint :
  length (linspace start stop num endpoint) = num.
Proof.
  unfold linspace. cbv zeta.
  destruct (endpoint && (1 <? num)%nat); [rewrite length_insert|].
  all: destruct (0 <? _)%nat; [destruct (Qeq_bool _ _)|].
  all: by rewrite !length_map, length_seq.
Qed.

(** The samples before any overwrite: [i * step + start]. *)
Lemma linspace_samples_lookup start stop num div i :
  (i < num)%nat -> (0 < div)%nat ->
  exists y,
    map (fun v => v + start)
        (if Qeq_bool ((stop - start) / Qnat div) 0
         then map (fun v => v / Qnat div * (stop - start))
                  (map Qnat (seq 0 num))
         else map (fun v => v * ((stop - start) / Qnat div))
                  (map Qnat (seq 0 num))) !! i = Some y
    /\ y == start + Qnat i * ((stop - start) / Qnat div).
Proof.
  intros Hi Hdiv. pose proof (Qnat_nonzero div Hdiv) as Hnz.
  destruct (Qeq_bool _ 0); eexists.
  all: rewrite !list_lookup_fmap, lookup_seq_lt by exact Hi.
  all: split; [reflexivity|]; simpl; field; exact Hnz.
Qed.

(** Without the end point: [num] samples, [start + i * (stop - start) / num]. *)
Lemma linspace_open_lookup start stop num i :
  (i < num)%nat ->
  exists y, linspace start stop num false !! i = Some y
            /\ y == start + Qnat i * ((stop - start) / Qnat num).
Proof.
  intros Hi. unfold linspace. cbv zeta. cbn [andb].
  destruct (Nat.ltb_spec 0 num) as [Hnum|]; [|lia].
  by apply linspace_samples_lookup.
Qed.

(** With the end point and at least two samples: the step is
    [(stop - start) / (num - 1)] and the last sample is [stop] itself. *)
Lemma linspace_closed_lookup start stop num i :
  (2 <= num)%nat -> (i < num)%nat ->
  exists y, linspace start stop num true !! i = Some y
            /\ y == start + Qnat i * ((stop - start) / Qnat (num - 1))
            /\ (i = (num - 1)%nat -> y = stop).
Proof.
  intros Hnum Hi. unfold linspace. cbv zeta. cbn [andb].
  destruct (Nat.ltb_spec 1 num) as [_|]; [|lia].
  destruct (Nat.ltb_spec 0 (num - 1)) as [Hdiv|]; [|lia].
  destruct (linspace_samples_lookup start stop num (num - 1)%nat i Hi Hdiv)
    as (y & Hy & Heq).
  destruct (decide (i = (num - 1)%nat)) as [-> | Hne].
  - exists stop. split; [|split; [|done]].
    + apply list_lookup_insert_eq.
      destruct (Qeq_bool _ 0); rewrite !length_map, length_seq; lia.
    + field. apply Qnat_nonzero, Hdiv.
  - exists y. split; [|split; [exact Heq | done]].
    rewrite list_lookup_insert_ne by done. exact Hy.
Qed.

(** One sample with the end point: [start]. *)
Lemma linspace_single start stop :
  exists y, linspace start stop 1 true = [y] /\ y == start.
Proof.
  eexists. split; [reflexivity|]. unfold Qnat. simpl. ring.
Qed.

(** * Radar *)

Lemma np_pi_nonzero : ~ np_pi == 0.
Proof. apply Qeq_bool_neq. reflexivity. Qed.

Section Radar.

Variables (categories : list string) (values : list Q).
Variable scheme : gmap string value.
Variables primary accent text text_light : value.

Hypothesis same_length : length categories = length values.
Hypothesis nonempty : (1 <= length categories)%nat.
Hypothesis Hprimary : scheme !! "primary" = Some primary.
Hypothesis Haccent : scheme !! "accent" = Some accent.
Hypothesis Htext : scheme !! "text" = Some text.
Hypothesis Htext_light : scheme !! "text_light" = Some text_light.

Let angles : list Q := linspace 0 (2 * np_pi) (length categories) false.

Lemma take_1_angles : exists a0, angles !! 0%nat = Some a0 /\ take 1 angles = [a0].
Proof.
  destruct (linspace_open_lookup 0 (2 * np_pi) (length categories) 0 nonempty)
    as (a0 & Ha0 & _).
  exists a0. split; [exact Ha0|]. fold angles in Ha0.
  destruct angles; [discriminate|]. by injection Ha0 as ->.
Qed.

Lemma generate_radar_chart_Ok :
  exists v0 labels,
    values !! 0%nat = Some v0
    /\ Chart.generate_radar_chart categories values scheme
       = Ok {| Chart.radar_theta := angles ++ take 1 angles;
               Chart.radar_r := values ++ [v0];
               Chart.radar_xticks := removelast (angles ++ take 1 angles);
               Chart.radar_labels := labels |}.
Proof.
  destruct (lookup_lt_is_Some_2 values 0) as [v0 Hv0]; [lia|].
  destruct take_1_angles as (a0 & _ & Htake).
  exists v0. eexists. split; [exact Hv0|].
  unfold Chart.generate_radar_chart. fold angles.
  rewrite (getindex_Ok _ _ _ Hv0), bind_Ok.
  rewrite (getitem_Ok _ _ _ Hprimary), bind_Ok.
  replace (length (angles ++ take 1 angles) =? length (values ++ [v0]))%nat
    with true.
  2:{ symmetry. apply Nat.eqb_eq. rewrite Htake, !length_app.
      unfold angles. rewrite linspace_length. simpl. lia. }
  cbn [negb].
  rewrite (getitem_Ok _ _ _ Htext), bind_Ok.
  rewrite (getitem_Ok _ _ _ Htext_light), bind_Ok.
  rewrite (comprehension_map _ (fun row => (row.1.1, row.1.2 + 5))).
  - reflexivity.
  - apply Forall_forall. intros [[angle v] category] _.
    by rewrite (getitem_Ok _ _ _ Haccent).
Qed.

End Radar.

(** C6, as stated, fails at the closing point: with five categories the
    sixth angle is the first angle again, 0 degrees, and not the first angle
    plus 360 degrees. *)
Lemma radar_closing_angle_is_first_angle :
  exists d a0 a5,
    Chart.generate_radar_chart ["a"; "b"; "c"; "d"; "e"] [85; 92; 78; 88; 90]
      (chart_scheme "multilayer") = Ok d
    /\ Chart.radar_theta d !! 0%nat = Some a0
    /\ Chart.radar_theta d !! 5%nat = Some a5
    /\ a5 = a0
    /\ ~ degrees a5 == degrees a0 + 360.
Proof.
  eexists _, _, _. split; [vm_compute; reflexivity|].
  split; [reflexivity|]. split; [reflexivity|]. split; [reflexivity|].
  apply Qeq_bool_neq. vm_compute. reflexivity.
Qed.

(** C6, amended: for n >= 1 categories the plotted angles are 2*pi*i/n for
    i in [0, n), in insertion order (in degrees 360*i/n: 0, 72, 144, 216,
    288 for n = 5), and the polygon is closed by appending the first point
    itself: point n+1 equals point 0, so that angles[n] == angles[0], the
    same direction as angles[0] + 360 degrees but not that number. *)
Theorem radar_angles key scheme categories values :
  Chart.COLOR_SCHEMES !! key = Some scheme ->
  length categories = length values ->
  (1 <= length categories)%nat ->
  exists d,
    Chart.generate_radar_chart categories values scheme = Ok d
    /\ length (Chart.radar_theta d) = S (length categories)
    /\ length (Chart.radar_r d) = S (length categories)
    /\ (forall i, (i < length categories)%nat ->
        exists a, Chart.radar_theta d !! i = Some a
                  /\ a == 2 * np_pi * Qnat i / Qnat (length categories)
                  /\ degrees a == 360 * Qnat i / Qnat (length categories))
    /\ (forall i, (i < length categories)%nat ->
        Chart.radar_r d !! i = values !! i)
    /\ Chart.radar_theta d !! length categories = Chart.radar_theta d !! 0%nat
    /\ Chart.radar_r d !! length categories = Chart.radar_r d !! 0%nat.
Proof.
  intros Hscheme Hlen Hn.
  destruct (chart_scheme_fields key scheme Hscheme)
    as (gradient & primary & accent & text & text_light
        & _ & _ & Hp & Ha & Ht & Htl).
  destruct (generate_radar_chart_Ok categories values scheme
              primary accent text text_light Hlen Hn Hp Ha Ht Htl)
    as (v0 & labels & Hv0 & Hd).
  destruct (take_1_angles categories Hn) as (a0 & Ha0 & Htake).
  cbv zeta in Hd. eexists. split; [exact Hd|].
  cbn [Chart.radar_theta Chart.radar_r].
  set (angles := linspace 0 (2 * np_pi) (length categories) false) in *.
  assert (Hangles : length angles = length categories)
    by apply linspace_length.
  rewrite Htake. split; [|split; [|split; [|split; [|split]]]].
  - rewrite length_app, Hangles. simpl. lia.
  - rewrite length_app, <- Hlen. simpl. lia.
  - intros i Hi.
    destruct (linspace_open_lookup 0 (2 * np_pi) (length categories) i Hi)
      as (a & Hlook & Heq).
    pose proof (Qnat_nonzero (length categories) Hn) as Hnz.
    exists a. split; [|split].
    + rewrite lookup_app_l by (rewrite Hangles; exact Hi). exact Hlook.
    + rewrite Heq. field. exact Hnz.
    + unfold degrees. rewrite Heq. field.
      split; [exact Hnz | exact np_pi_nonzero].
  - intros i Hi. apply lookup_app_l. lia.
  - rewrite lookup_app_r by (rewrite Hangles; lia).
    rewrite Hangles, Nat.sub_diag.
    rewrite lookup_app_l by (rewrite Hangles; lia).
    rewrite Ha0. reflexivity.
  - rewrite lookup_app_r by lia. rewrite Hlen, Nat.sub_diag.
    rewrite lookup_app_l by lia. rewrite Hv0. reflexivity.
Qed.

Lemma radar_angles_witness :
  exists d,
    Chart.generate_radar_chart ["a"; "b"; "c"; "d"; "e"] [85; 92; 78; 88; 90]
      (chart_scheme "multilayer") = Ok d
    /\ (exists a, Chart.radar_theta d !! 1%nat = Some a /\ degrees a == 72)
    /\ (exists a, Chart.radar_theta d !! 4%nat = Some a /\ degrees a == 288)
    /\ Chart.radar_theta d !! 5%nat = Chart.radar_theta d !! 0%nat.
Proof.
  destruct (radar_angles "multilayer" (chart_scheme "multilayer")
              ["a"; "b"; "c"; "d"; "e"] [85; 92; 78; 88; 90])
    as (d & Hd & _ & _ & Hangle & _ & Hclose & _).
  - apply chart_scheme_lookup. vm_compute. reflexivity.
  - reflexivity.
  - simpl. lia.
  - exists d. split; [exact Hd|]. split; [|split; [|exact Hclose]].
    + destruct (Hangle 1%nat) as (a & Ha & _ & Hdeg); [simpl; lia|].
      exists a. split; [exact Ha|]. rewrite Hdeg. reflexivity.
    + destruct (Hangle 4%nat) as (a & Ha & _ & Hdeg); [simpl; lia|].
      exists a. split; [exact Ha|]. rewrite Hdeg. reflexivity.
Defined.

(** * Pie and donut: the arcs *)

Lemma fold_Qplus_shift xs a : fold_left Qplus xs a == a + fold_left Qplus xs 0.
Proof.
  revert a. induction xs as [|x xs IH]; intros a; cbn [fold_left].
  - ring.
  - rewrite (IH (a + x)), (IH (0 + x)). ring.
Qed.

Lemma py_sum_cons x xs : py_sum (x :: xs) == x + py_sum xs.
Proof.
  unfold py_sum. cbn [fold_left]. rewrite fold_Qplus_shift. ring.
Qed.

Lemma py_sum_scaled k xs : py_sum (map (fun v => v / k) xs) == py_sum xs / k.
Proof.
  induction xs as [|x xs IH]; cbn [map].
  - unfold py_sum, Qdiv. simpl. ring.
  - rewrite !py_sum_cons, IH. unfold Qdiv. ring.
Qed.

Lemma py_sum_positive xs :
  xs <> [] -> Forall (fun v => 0 < v) xs -> 0 < py_sum xs.
Proof.
  intros Hne Hpos. induction Hpos as [|x xs Hx Hxs IH]; [done|].
  rewrite py_sum_cons. destruct xs as [|y ys].
  - unfold py_sum. simpl. by rewrite Qplus_0_r.
  - rewrite <- (Qplus_0_r 0). apply Qplus_lt_le_compat; [exact Hx|].
    apply Qlt_le_weak, IH. discriminate.
Qed.

Lemma cycle_color_Ok colors i :
  colors <> [] -> exists c, cycle_color colors i = Ok c.
Proof.
  intros Hne. unfold cycle_color.
  destruct (lookup_lt_is_Some_2 colors (i mod length colors)) as [c ->];
    [|by eauto].
  apply Nat.mod_upper_bound. by destruct colors.
Qed.

(** The wedges of a list of non-negative fractions: wedge [j] starts where
    the fractions before it end and spans its own fraction of the turn. *)
Lemma pie_wedges_spec colors i theta rows :
  colors <> [] ->
  Forall (fun row : Q * string * Q => 0 <= row.1.1) rows ->
  exists ws,
    pie_wedges colors i theta rows = Ok ws
    /\ length ws = length rows
    /\ py_sum (map wedge_sweep ws) == 360 * py_sum (map (fun row => row.1.1) rows)
    /\ forall j frac label expl, rows !! j = Some (frac, label, expl) ->
       exists w, ws !! j = Some w
         /\ wedge_theta1 w
            == 360 * (theta + py_sum (take j (map (fun row => row.1.1) rows)))
         /\ wedge_sweep w == 360 * frac
         /\ wedge_label w = label.
Proof.
  intros Hcolors Hrows. revert i theta.
  induction Hrows as [|[[frac label] expl] rows Hfrac _ IH]; intros i theta.
  - exists []. split; [done|]. split; [done|]. split; [|done].
    unfold py_sum. simpl. ring.
  - simpl in Hfrac. cbn [pie_wedges].
    destruct (cycle_color_Ok colors i Hcolors) as [c ->]. rewrite bind_Ok.
    destruct (IH (S i) (theta + frac)) as (ws & -> & Hlen & Hsum & Hws).
    rewrite bind_Ok. eexists. split; [reflexivity|].
    assert (Hle : theta <= theta + frac).
    { rewrite <- (Qplus_0_r theta) at 1. by apply Qplus_le_r. }
    assert (Hsweep : 360 * Qmax theta (theta + frac)
                     - 360 * Qmin theta (theta + frac) == 360 * frac).
    { rewrite (Q.max_r _ _ Hle), (Q.min_l _ _ Hle). ring. }
    split; [simpl; by rewrite Hlen|]. split.
    + cbn [map]. rewrite !py_sum_cons, Hsum.
      unfold wedge_sweep at 1. cbn [wedge_theta1 wedge_theta2 fst].
      rewrite Hsweep. ring.
    + intros [|j] frac' label' expl'.
      * intros [= <- <- <-]. eexists. split; [reflexivity|].
        unfold wedge_sweep. cbn [wedge_theta1 wedge_theta2 wedge_label].
        split; [|split; [exact Hsweep | done]].
        rewrite (Q.min_l _ _ Hle). unfold py_sum. simpl. ring.
      * intros Hrow. destruct (Hws j frac' label' expl' Hrow)
          as (w & Hw & Hstart & Hspan & Hlabel).
        exists w. split; [exact Hw|]. split; [|split; [exact Hspan | exact Hlabel]].
        rewrite Hstart. cbn [map take fst]. rewrite py_sum_cons. ring.
Qed.

Lemma zip3_fractions {A B C : Type} (xs : list A) (ys : list B) (zs : list C) :
  length xs = length ys -> length xs = length zs ->
  map (fun row => row.1.1) (zip3 xs ys zs) = xs.
Proof.
  revert ys zs. induction xs as [|x xs IH]; intros [|y ys] [|z zs];
    simpl; try done. intros [= Hy] [= Hz]. by rewrite IH.
Qed.

Lemma Axes_pie_spec x labels colors startangle explode :
  x <> [] -> Forall (fun v => 0 < v) x -> colors <> [] ->
  length x = length labels -> length x = length explode ->
  exists ws,
    Axes_pie x labels colors startangle explode = Ok ws
    /\ length ws = length x
    /\ py_sum (map wedge_sweep ws) == 360
    /\ forall j v, x !! j = Some v ->
       exists w, ws !! j = Some w
         /\ wedge_theta1 w
            == startangle + 360 * (py_sum (take j x) / py_sum x)
         /\ wedge_sweep w == 360 * v / py_sum x
         /\ Some (wedge_label w) = labels !! j.
Proof.
  intros Hne Hpos Hcolors Hlabels Hexplode.
  pose proof (py_sum_positive x Hne Hpos) as Hsum.
  assert (Hnz : ~ py_sum x == 0).
  { intros H. rewrite H in Hsum. by apply Qlt_irrefl in Hsum. }
  unfold Axes_pie.
  replace (existsb (fun v => Qlt_bool v 0) x) with false.
  2:{ symmetry. apply not_true_iff_false. intros H.
      apply existsb_exists in H as (v & Hin & Hv).
      rewrite List.Forall_forall in Hpos. specialize (Hpos v Hin).
      apply Qlt_le_weak, Qlt_bool_false in Hpos. congruence. }
  replace (Qeq_bool (py_sum x) 0) with false.
  2:{ symmetry. apply not_true_iff_false. intros H.
      by apply Qeq_bool_iff in H. }
  cbn [andb]. rewrite length_map, <- Hlabels, <- Hexplode, Nat.eqb_refl.
  cbn [negb].
  set (fracs := map (fun v => v / py_sum x) x).
  assert (Hfl : length fracs = length labels)
    by (unfold fracs; by rewrite length_map).
  assert (Hfe : length fracs = length explode)
    by (unfold fracs; by rewrite length_map).
  destruct (pie_wedges_spec colors 0 (startangle / 360)
              (zip3 fracs labels explode) Hcolors)
    as (ws & Hws & Hlen & Htotal & Hwedge).
  { rewrite List.Forall_forall. intros [[frac label] expl] Hin.
    apply (List.in_map (fun row : Q * string * Q => row.1.1)) in Hin.
    rewrite zip3_fractions in Hin by done. unfold fracs in Hin.
    apply List.in_map_iff in Hin as (v & <- & Hv).
    rewrite List.Forall_forall in Hpos. specialize (Hpos v Hv). simpl.
    apply Qlt_le_weak, Qlt_shift_div_l; [exact Hsum|].
    by rewrite Qmult_0_l. }
  rewrite zip3_fractions in Htotal, Hwedge by done.
  exists ws. split; [exact Hws|]. split.
  { rewrite Hlen, zip3_length by done. unfold fracs. by rewrite length_map. }
  split.
  { rewrite Htotal. unfold fracs. rewrite py_sum_scaled. by field. }
  intros j v Hv. pose proof (lookup_lt_Some _ _ _ Hv) as Hj.
  destruct (lookup_lt_is_Some_2 labels j) as [label Hlabel]; [lia|].
  destruct (lookup_lt_is_Some_2 explode j) as [expl Hexpl]; [lia|].
  destruct (Hwedge j (v / py_sum x) label expl)
    as (w & Hw & Hstart & Hspan & <-).
  { apply zip3_lookup; [|exact Hlabel | exact Hexpl].
    unfold fracs. by rewrite list_lookup_fmap, Hv. }
  exists w. split; [exact Hw|]. split; [|split; [|by rewrite Hlabel]].
  - rewrite Hstart. unfold fracs. rewrite List.firstn_map, py_sum_scaled.
    by field.
  - rewrite Hspan. by field.
Qed.

(** * Timeline *)

Lemma zip3_length_min {A B C : Type} (xs : list A) (ys : list B)
    (zs : list C) :
  length (zip3 xs ys zs)
  = Nat.min (length xs) (Nat.min (length ys) (length zs)).
Proof.
  revert ys zs. induction xs as [|x xs IH]; intros [|y ys] [|z zs];
    simpl; try done. by rewrite IH.
Qed.

(** Every scheme of generate_timeline.py has a palette of four colours. *)
Lemma timeline_scheme_fields key scheme :
  Timeline.COLOR_SCHEMES !! key = Some scheme ->
  exists colors text,
    scheme !! "colors" = Some (StrList colors) /\ length colors = 4%nat
    /\ scheme !! "text" = Some text.
Proof.
  intros H. entry_cases H.
  all: eexists _, _; split_and!; vm_compute; reflexivity.
Qed.

(** What the generator draws for n >= 1 events: the nodes and cards of the
    first min(n, 4) events, node i at the i-th of n evenly spaced samples
    from 1.5 to 8.5, in the i-th colour of the palette, every card
    (8.5 - 1.5)/n - 0.2 wide. *)
Lemma timeline_layout key scheme timeline :
  Timeline.COLOR_SCHEMES !! key = Some scheme ->
  (1 <= length timeline)%nat ->
  let n := length timeline in
  let width := ((85 # 10) - (15 # 10)) / Qnat n - (2 # 10) in
  exists d colors,
    scheme !! "colors" = Some (StrList colors)
    /\ Timeline.generate_horizontal_timeline timeline scheme = Ok d
    /\ length (Timeline.drawn_nodes d) = Nat.min n (length colors)
    /\ length (Timeline.drawn_cards d) = Nat.min n (length colors)
    /\ forall i item color,
         timeline !! i = Some item -> colors !! i = Some color ->
         exists x,
           linspace (15 # 10) (85 # 10) n true !! i = Some x
           /\ ((2 <= n)%nat ->
               x == (15 # 10)
                    + Qnat i * (((85 # 10) - (15 # 10)) / Qnat (n - 1)))
           /\ Timeline.drawn_nodes d !! i
              = Some {| Timeline.node_x := x; Timeline.node_y := 65 # 10;
                        Timeline.node_color := color;
                        Timeline.node_time := Timeline.time item;
                        Timeline.node_title := Timeline.title item |}
           /\ Timeline.drawn_cards d !! i
              = Some {| Timeline.card_x := x - width / 2;
                        Timeline.card_y := 4 - (25 # 10);
                        Timeline.card_width := width;
                        Timeline.card_height := 25 # 10;
                        Timeline.card_color := color;
                        Timeline.card_text := Timeline.description item |}.
Proof.
  intros Hscheme Hn n width.
  destruct (timeline_scheme_fields key scheme Hscheme)
    as (colors & text & Hc & Hfour & Ht).
  set (rows := zip3 (linspace (15 # 10) (85 # 10) n true) timeline
                    (take n colors)).
  assert (Hrows : length rows = Nat.min n (length colors)).
  { unfold rows. rewrite zip3_length_min, linspace_length, length_take.
    fold n. lia. }
  eexists _, colors. split; [exact Hc|]. split.
  { unfold Timeline.generate_horizontal_timeline. fold n.
    rewrite (getitem_Ok _ _ _ Ht), bind_Ok, (getitem_Ok _ _ _ Hc), bind_Ok.
    cbn [slice_to]. rewrite bind_Ok. fold rows.
    rewrite (comprehension_map _
      (fun row : Q * Timeline.event * string =>
         {| Timeline.node_x := row.1.1; Timeline.node_y := 65 # 10;
            Timeline.node_color := row.2;
            Timeline.node_time := Timeline.time row.1.2;
            Timeline.node_title := Timeline.title row.1.2 |})).
    2:{ apply Forall_forall. by intros [[x item] color] _. }
    rewrite bind_Ok. destruct (Nat.eqb_spec n 0) as [Hz|_]; [lia|].
    rewrite bind_Ok. reflexivity. }
  cbn [Timeline.drawn_nodes Timeline.drawn_cards].
  split; [by rewrite length_map|]. split; [by rewrite length_map|].
  intros i item color Hitem Hcolor.
  pose proof (lookup_lt_Some _ _ _ Hitem) as Hi.
  destruct (lookup_lt_is_Some_2 (linspace (15 # 10) (85 # 10) n true) i)
    as [x Hx]; [by rewrite linspace_length|].
  assert (Hrow : rows !! i = Some (x, item, color)).
  { apply zip3_lookup; [exact Hx | exact Hitem |].
    rewrite lookup_take_lt by exact Hi. exact Hcolor. }
  exists x. split; [exact Hx|]. split.
  { intros Htwo.
    destruct (linspace_closed_lookup (15 # 10) (85 # 10) n i Htwo Hi)
      as (y & Hy & Heq & _).
    rewrite Hx in Hy. injection Hy as <-. exact Heq. }
  rewrite !list_lookup_fmap, Hrow. split; reflexivity.
Qed.

(** C3 at five events: positions and card width are computed for five, but
    the loops run over [zip(x_positions, timeline, colors)] with the four
    colours of [scheme['colors'][:n]], so the fifth event gets no colour,
    no node and no card. *)
Lemma timeline_fifth_event_not_drawn :
  exists d,
    Timeline.generate_horizontal_timeline
      (Timeline.parse_timeline_data "Q1:a:b,Q2:c:d,Q3:e:f,Q4:g:h,Q5:i:j")
      (timeline_scheme "blue") = Ok d
    /\ length (Timeline.parse_timeline_data
                 "Q1:a:b,Q2:c:d,Q3:e:f,Q4:g:h,Q5:i:j") = 5%nat
    /\ map Timeline.node_time (Timeline.drawn_nodes d)
       = ["Q1"; "Q2"; "Q3"; "Q4"]
    /\ map Timeline.node_color (Timeline.drawn_nodes d)
       = ["#4A90E2"; "#5B7FCE"; "#6D6FBB"; "#7E5FA8"]
    /\ map Timeline.card_text (Timeline.drawn_cards d) = ["b"; "d"; "f"; "h"]
    /\ Forall (fun c => Timeline.card_width c == 12 # 10)
              (Timeline.drawn_cards d).
Proof.
  eexists. split; [vm_compute; reflexivity|].
  split; [vm_compute; reflexivity|]. split; [reflexivity|].
  split; [reflexivity|]. split; [reflexivity|].
  repeat constructor.
Qed.

(** * Further properties of the parsers *)

Local Close Scope Q_scope.

Lemma parse_items_app {F : Type} (py_float : string -> option F)
    good parsed items categories values :
  Forall2 (parses_to py_float) good parsed ->
  Chart.parse_items py_float (good ++ items) categories values
  = Chart.parse_items py_float items (categories ++ parsed.*1)
                      (values ++ parsed.*2).
Proof.
  intros Hgood. revert categories values.
  induction Hgood as [|item [cat v] good parsed (a & b & Hf & Hcat & Hv) _ IH];
    intros categories values.
  - simpl. by rewrite !app_nil_r.
  - simpl in Hcat, Hv. subst cat. cbn [app Chart.parse_items].
    unfold fields in Hf. rewrite Hf. cbn [unpack2]. rewrite bind_Ok.
    unfold Chart.float. rewrite Hv, bind_Ok, IH.
    cbn [fmap list_fmap fst snd]. by rewrite <- !app_assoc.
Qed.

Lemma parse_items_complete {F : Type} (py_float : string -> option F)
    items parsed categories values :
  Forall2 (parses_to py_float) items parsed ->
  Chart.parse_items py_float items categories values
  = Ok (categories ++ parsed.*1, values ++ parsed.*2).
Proof.
  intros H. rewrite <- (app_nil_r items).
  by rewrite (parse_items_app py_float items parsed [] categories values H).
Qed.

(** In pair mode the parse succeeds exactly on the inputs all of whose
    records are a label and a number, and then returns the trimmed labels
    and the numbers, record by record in input order. *)
Theorem pair_parse_characterised {F : Type} (py_float : string -> option F)
    raw categories values :
  contains ":" raw = true ->
  Chart.parse_data py_float raw = Ok (categories, values)
  <-> exists parsed,
        Forall2 (parses_to py_float) (records raw) parsed
        /\ categories = parsed.*1 /\ values = parsed.*2.
Proof.
  intros Hcolon. unfold Chart.parse_data. rewrite Hcolon.
  fold (records raw). split.
  - intros H. apply parse_items_Ok in H as (parsed & Hall & [= -> ->]).
    by exists parsed.
  - intros (parsed & Hall & -> & ->).
    by rewrite (parse_items_complete py_float _ parsed [] [] Hall).
Qed.

Lemma pair_parse_characterised_witness :
  Chart.parse_data float_literal "Q1: 85 , Q2 :92"
  = Ok (["Q1"; "Q2"], [85%Q; 92%Q]).
Proof.
  apply (pair_parse_characterised float_literal "Q1: 85 , Q2 :92");
    [reflexivity|].
  exists [("Q1", 85%Q); ("Q2", 92%Q)]. split; [|by split].
  constructor; [by exists "Q1", " 85 "|].
  constructor; [by exists " Q2 ", "92" | constructor].
Defined.

(** A parsed dataset is never empty, has one label per value, and as many
    values as the input has comma-separated records, in either format. *)
Theorem parsed_dataset_shape {F : Type} (py_float : string -> option F)
    raw categories values :
  Chart.parse_data py_float raw = Ok (categories, values) ->
  length categories = length (records raw)
  /\ length values = length (records raw)
  /\ 1 <= length values.
Proof.
  intros H.
  assert (Hrec : 1 <= length (records raw)).
  { unfold records. pose proof (split_nonempty "," raw).
    destruct (split "," raw); [done | simpl; lia]. }
  enough (length categories = length (records raw)
          /\ length values = length (records raw)) by lia.
  unfold Chart.parse_data in H. fold (records raw) in H.
  destruct (contains ":" raw).
  - apply parse_items_Ok in H as (parsed & Hall & [= -> ->]).
    rewrite !length_fmap. apply Forall2_length in Hall. lia.
  - apply bind_inv_Ok in H as (vs & Hvs & [= <- <-]).
    apply bare_values_Ok, Forall2_length in Hvs.
    rewrite length_map, length_seq. lia.
Qed.

Lemma parsed_dataset_shape_witness :
  length ["Q1"; "Q2"; "Q3"] = length (records "Q1:85,Q2:92,Q3:88")
  /\ length [85%Q; 92%Q; 88%Q] = length (records "Q1:85,Q2:92,Q3:88")
  /\ 1 <= length [85%Q; 92%Q; 88%Q].
Proof.
  apply (parsed_dataset_shape float_literal "Q1:85,Q2:92,Q3:88").
  vm_compute. reflexivity.
Defined.

(** In pair mode the exception is that of the first record that is not a
    label and a number: too few fields, too many fields, or a second field
    that [float] rejects, whatever follows it. *)
Theorem pair_parse_first_error {F : Type} (py_float : string -> option F)
    raw good parsed bad rest :
  contains ":" raw = true ->
  records raw = good ++ bad :: rest ->
  Forall2 (parses_to py_float) good parsed ->
  (length (fields bad) < 2 ->
   Chart.parse_data py_float raw = Raise ValueError_not_enough_values)
  /\ (2 < length (fields bad) ->
      Chart.parse_data py_float raw = Raise ValueError_too_many_values)
  /\ (forall a b, fields bad = [a; b] -> py_float (strip b) = None ->
      Chart.parse_data py_float raw = Raise (ValueError_float (strip b))).
Proof.
  intros Hcolon Hrec Hgood. unfold Chart.parse_data. rewrite Hcolon.
  fold (records raw). rewrite Hrec.
  rewrite (parse_items_app py_float good parsed _ [] [] Hgood).
  cbn [Chart.parse_items]. fold (fields bad). split; [|split].
  - intros Hlen. destruct (fields bad) as [|a [|b l]]; simpl in *;
      [done | done | lia].
  - intros Hlen. destruct (fields bad) as [|a [|b [|c l]]]; simpl in *;
      [lia | lia | lia | done].
  - intros a b -> Hb. cbn [unpack2]. rewrite bind_Ok.
    unfold Chart.float. by rewrite Hb.
Qed.

Lemma pair_parse_first_error_witness :
  Chart.parse_data float_literal "A:10,B:x,C"
  = Raise (ValueError_float "x").
Proof.
  refine (proj2 (proj2 (pair_parse_first_error float_literal "A:10,B:x,C"
                          ["A:10"] [("A", 10%Q)] "B:x" ["C"] _ _ _))
            "B" "x" _ _); try reflexivity.
  constructor; [by exists "A", "10" | constructor].
Defined.

Lemma split_trailing_separator c s :
  split c (s +:+ String c "") = split c s ++ [""].
Proof.
  induction s as [|a s IH]; simpl.
  - by rewrite Ascii.eqb_refl.
  - rewrite IH. destruct (Ascii.eqb a c); [done|].
    pose proof (split_nonempty c s). by destruct (split c s).
Qed.

(** An empty record makes [parse_data] raise in either format, since
    [float] rejects the empty string: so do the empty input and every input
    that ends with a comma. *)
Theorem empty_record_rejected {F : Type} (py_float : string -> option F)
    raw :
  py_float "" = None ->
  (In "" (records raw) -> exists e, Chart.parse_data py_float raw = Raise e)
  /\ (exists e, Chart.parse_data py_float (raw +:+ ",") = Raise e)
  /\ (exists e, Chart.parse_data py_float "" = Raise e).
Proof.
  intros Hfloat.
  assert (Hmain : forall raw, In "" (records raw) ->
            exists e, Chart.parse_data py_float raw = Raise e).
  { clear raw. intros raw Hin. unfold Chart.parse_data. fold (records raw).
    destruct (contains ":" raw).
    - apply parse_items_wrong_arity, Exists_exists.
      exists "". split; [by apply list_elem_of_In | by vm_compute].
    - destruct (comprehension_Raise
                  (fun x => Chart.float py_float (strip x)) (records raw))
        as [e He].
      + apply Exists_exists. exists "". split; [by apply list_elem_of_In|].
        unfold Chart.float. change (strip "") with "". rewrite Hfloat. eauto.
      + exists e. by rewrite He. }
  split; [apply Hmain|]. split; apply Hmain.
  - unfold records. rewrite split_trailing_separator.
    apply in_or_app. right. by left.
  - by left.
Qed.

Lemma empty_record_rejected_witness :
  exists e, Chart.parse_data float_literal "Q1:85,Q2:92," = Raise e.
Proof.
  exact (proj1 (proj2 (empty_record_rejected float_literal "Q1:85,Q2:92"
                         eq_refl))).
Defined.

(** * Further properties of the card and timeline tools *)

Lemma scheme_key_cases (P : string -> Prop) :
  P "blue" -> P "orange" -> P "green" -> P "gold_blue" -> P "multilayer" ->
  forall key, In key scheme_keys -> P key.
Proof.
  intros ????? key Hin. simpl in Hin.
  repeat (destruct Hin as [<- | Hin]; [assumption|]). destruct Hin.
Qed.

Lemma registry_key_name
    (registry : gmap string (gmap string value)) key :
  bool_decide (is_Some (field_of registry key "name")) = true ->
  exists scheme name,
    registry !! key = Some scheme /\ scheme !! "name" = Some name.
Proof.
  intros H. apply bool_decide_eq_true in H as [name H].
  apply field_of_Some in H as (scheme & Hs & Hn). eauto.
Qed.

Lemma no_triple_record raw :
  Forall (fun r => length (fields r) < 3) (records raw) ->
  List.filter has_three_fields (records raw) = [].
Proof.
  induction 1 as [|r rs Hr _ IH]; [done|]. cbn [List.filter].
  unfold has_three_fields at 1.
  destruct (Nat.leb_spec 3 (length (fields r))); [lia | exact IH].
Qed.

(** Data without a single record of three fields - a label:value list, for
    one - is not rejected by the triple parsers: they return no record, and
    each tool then fails in its generator, the card tool when it asks
    matplotlib for a grid of zero columns, the timeline tool when it divides
    the span by the number of events. *)
Theorem no_triple_record_pipeline raw :
  Forall (fun r => length (fields r) < 3) (records raw) ->
  BigNumbers.parse_metrics_data raw = []
  /\ Timeline.parse_timeline_data raw = []
  /\ (forall color title output, In color scheme_keys ->
      BigNumbers.main (BigNumbers.Args raw color title output)
      = Raise ValueError_subplots)
  /\ (forall color title output, In color scheme_keys ->
      Timeline.main (Timeline.Args raw color title output)
      = Raise ZeroDivisionError).
Proof.
  intros Hshort.
  assert (Hm : BigNumbers.parse_metrics_data raw = []).
  { unfold BigNumbers.parse_metrics_data. fold (records raw).
    by rewrite parse_metrics_items_filter, no_triple_record. }
  assert (Ht : Timeline.parse_timeline_data raw = []).
  { unfold Timeline.parse_timeline_data. fold (records raw).
    by rewrite parse_timeline_items_filter, no_triple_record. }
  split; [exact Hm|]. split; [exact Ht|]. split.
  - intros color title output Hin.
    destruct (registry_key_name BigNumbers.COLOR_SCHEMES color)
      as (scheme & name & Hs & Hn).
    { revert color Hin. apply scheme_key_cases; vm_compute; reflexivity. }
    unfold BigNumbers.main, getscheme. cbn [BigNumbers.arg_color
      BigNumbers.arg_data]. rewrite Hs, bind_Ok, (getitem_Ok _ _ _ Hn), bind_Ok.
    rewrite Hm. reflexivity.
  - intros color title output Hin.
    destruct (registry_key_name Timeline.COLOR_SCHEMES color)
      as (scheme & name & Hs & Hn).
    { revert color Hin. apply scheme_key_cases; vm_compute; reflexivity. }
    destruct (timeline_scheme_fields color scheme Hs)
      as (colors & text & Hc & _ & Htext).
    unfold Timeline.main, getscheme. cbn [Timeline.arg_color
      Timeline.arg_data]. rewrite Hs, bind_Ok, (getitem_Ok _ _ _ Hn), bind_Ok.
    rewrite Ht. unfold Timeline.generate_horizontal_timeline.
    rewrite (getitem_Ok _ _ _ Htext), bind_Ok, (getitem_Ok _ _ _ Hc), bind_Ok.
    reflexivity.
Qed.

Lemma no_triple_record_pipeline_witness :
  Timeline.main (Timeline.Args "Q1:85,Q2:92" "blue" "" "")
  = Raise ZeroDivisionError.
Proof.
  refine (proj2 (proj2 (proj2 (no_triple_record_pipeline "Q1:85,Q2:92" _)))
            "blue" "" "" _).
  - repeat constructor.
  - by left.
Defined.

(** * Further properties of the waterfall *)

Local Open Scope Q_scope.

Lemma is_last_index_spec {A : Type} i (xs : list A) :
  Chart.is_last_index i xs = true <-> (S i = length xs)%nat.
Proof. unfold Chart.is_last_index. rewrite Z.eqb_eq. lia. Qed.

Lemma py_sum_take_S values i v :
  values !! i = Some v ->
  py_sum (take (S i) values) = py_sum (take i values) + v.
Proof.
  intros Hv. rewrite (take_S_r _ _ _ Hv). unfold py_sum.
  by rewrite fold_left_app.
Qed.

(** The bar, the data label and the connectors the generator draws, read off
    its result. *)
Lemma waterfall_drawing_lookup categories values scheme
    primary accent text text_light d :
  length categories = length values ->
  scheme !! "primary" = Some primary -> scheme !! "accent" = Some accent ->
  scheme !! "text" = Some text -> scheme !! "text_light" = Some text_light ->
  Chart.generate_waterfall_chart categories values scheme = Ok d ->
  (forall i v, values !! i = Some v ->
     let last := Chart.is_last_index i values in
     let bottom := if last then 0 else py_sum (take i values) in
     Chart.waterfall_bars d !! i
     = Some {| Chart.bar_x := Qnat i; Chart.bar_height := v;
               Chart.bar_bottom := bottom;
               Chart.bar_color :=
                 if (i =? 0)%nat || last then primary
                 else if Qle_bool 0 v then accent else Str "#FF6B6B";
               Chart.bar_width := 6 # 10 |}
     /\ Chart.waterfall_labels d !! i
        = Some {| Chart.label_x := Qnat i;
                  Chart.label_y :=
                    if last then v / 2 else py_sum (take i values) + v / 2;
                  Chart.label_val := v;
                  Chart.label_fmt :=
                    if (0 <? i)%nat && negb last then Chart.Signed
                    else Chart.Plain |})
  /\ (forall i, (i < length values - 2)%nat ->
      Chart.waterfall_connectors d !! i
      = Some {| Chart.seg_x1 := Qnat i + (3 # 10);
                Chart.seg_x2 := Qnat i + (7 # 10);
                Chart.seg_y1 := py_sum (take (S i) values);
                Chart.seg_y2 := py_sum (take (S i) values) |})
  /\ length (Chart.waterfall_connectors d) = (length values - 2)%nat.
Proof.
  intros Hlen Hp Ha Ht Htl Hd.
  rewrite (generate_waterfall_chart_Ok categories values scheme
             primary accent text text_light Hlen Hp Ha Ht Htl) in Hd.
  injection Hd as <-.
  cbn [Chart.waterfall_bars Chart.waterfall_labels Chart.waterfall_connectors].
  split; [|split].
  - intros i v Hv. set (last := Chart.is_last_index i values).
    pose proof (lookup_lt_Some _ _ _ Hv) as Hi.
    destruct (lookup_lt_is_Some_2 categories i) as [cat Hcat]; [lia|].
    assert (Hrow : enumerate (zip3 categories values
                                   (Chart.cumulative_of values)) !! i
                   = Some (i, (cat, v, py_sum (take i values)))).
    { apply enumerate_lookup, zip3_lookup; [exact Hcat | exact Hv|].
      by apply cumulative_of_lookup. }
    assert (Hlast : Chart.is_last_index i categories = last).
    { unfold last, Chart.is_last_index. by rewrite Hlen. }
    rewrite !list_lookup_fmap, Hrow. cbn [fmap option_fmap option_map].
    rewrite Hlast. cbn [fst snd]. split; [reflexivity|].
    do 2 f_equal. unfold last, Chart.is_last_index. rewrite Hlen.
    destruct (Z.eqb_spec (Z.of_nat i) (Z.of_nat (length values) - 1));
      destruct (Z.ltb_spec (Z.of_nat i) (Z.of_nat (length values) - 1));
      try lia; by rewrite ?andb_true_r, ?andb_false_r.
  - intros i Hi. rewrite list_lookup_fmap, lookup_seq_lt by exact Hi.
    cbn [fmap option_fmap option_map]. by rewrite Nat.add_1_r.
  - by rewrite length_map, length_seq.
Qed.

(** Each connector joins two neighbouring bars: connector i runs from the
    right edge of bar i to the left edge of bar i+1, at the level where bar
    i ends, which is where bar i+1 starts; there are n-2 of them. *)
Theorem waterfall_connectors_join_bars key scheme categories values d :
  Chart.COLOR_SCHEMES !! key = Some scheme ->
  length categories = length values ->
  Chart.generate_waterfall_chart categories values scheme = Ok d ->
  length (Chart.waterfall_connectors d) = (length values - 2)%nat
  /\ forall i, (i < length values - 2)%nat ->
     exists b b' c,
       Chart.waterfall_bars d !! i = Some b
       /\ Chart.waterfall_bars d !! S i = Some b'
       /\ Chart.waterfall_connectors d !! i = Some c
       /\ Chart.seg_y1 c = Chart.bar_bottom b + Chart.bar_height b
       /\ Chart.seg_y1 c = Chart.bar_bottom b'
       /\ Chart.seg_y2 c = Chart.seg_y1 c
       /\ Chart.seg_x1 c == Chart.bar_x b + Chart.bar_width b / 2
       /\ Chart.seg_x2 c == Chart.bar_x b' - Chart.bar_width b' / 2.
Proof.
  intros Hscheme Hlen Hd.
  destruct (chart_scheme_fields key scheme Hscheme)
    as (gradient & primary & accent & text & text_light
        & _ & _ & Hp & Ha & Ht & Htl).
  destruct (waterfall_drawing_lookup categories values scheme primary accent
              text text_light d Hlen Hp Ha Ht Htl Hd)
    as (Hbars & Hconn & Hcount).
  split; [exact Hcount|]. intros i Hi.
  destruct (lookup_lt_is_Some_2 values i) as [v Hv]; [lia|].
  destruct (lookup_lt_is_Some_2 values (S i)) as [v' Hv']; [lia|].
  destruct (Hbars i v Hv) as [Hb _]. destruct (Hbars (S i) v' Hv') as [Hb' _].
  assert (Hnl : Chart.is_last_index i values = false).
  { apply not_true_iff_false. rewrite is_last_index_spec. lia. }
  assert (Hnl' : Chart.is_last_index (S i) values = false).
  { apply not_true_iff_false. rewrite is_last_index_spec. lia. }
  rewrite Hnl in Hb. rewrite Hnl' in Hb'.
  eexists _, _, _. split; [exact Hb|]. split; [exact Hb'|].
  split; [exact (Hconn i Hi)|].
  cbn [Chart.seg_y1 Chart.seg_y2 Chart.seg_x1 Chart.seg_x2 Chart.bar_x
       Chart.bar_bottom Chart.bar_height Chart.bar_width].
  split; [by apply py_sum_take_S|]. split; [done|]. split; [done|].
  unfold Qnat. rewrite Nat2Z.inj_succ, <- Z.add_1_r, inject_Z_plus.
  split; field.
Qed.

Lemma waterfall_connectors_join_bars_witness :
  exists d,
    Chart.generate_waterfall_chart ["a"; "b"; "c"; "d"] [100; 35; -8; 127]
      (chart_scheme "blue") = Ok d
    /\ length (Chart.waterfall_connectors d) = 2%nat.
Proof.
  destruct (Chart.generate_waterfall_chart ["a"; "b"; "c"; "d"]
              [100; 35; -8; 127] (chart_scheme "blue")) as [d|e] eqn:Hd;
    [|vm_compute in Hd; discriminate].
  exists d. split; [reflexivity|].
  refine (proj1 (waterfall_connectors_join_bars "blue" (chart_scheme "blue")
                   ["a"; "b"; "c"; "d"] [100; 35; -8; 127] d _ _ Hd)).
  - apply chart_scheme_lookup. vm_compute. reflexivity.
  - reflexivity.
Defined.

(** The first and the last bar take the primary colour and a plain label;
    a bar in between takes the accent colour when its value is zero or more
    and red (#FF6B6B) when it is negative, with a signed label; every label
    sits at the middle of its bar. *)
Theorem waterfall_colours_and_labels key scheme categories values d :
  Chart.COLOR_SCHEMES !! key = Some scheme ->
  length categories = length values ->
  Chart.generate_waterfall_chart categories values scheme = Ok d ->
  exists primary accent,
    scheme !! "primary" = Some primary /\ scheme !! "accent" = Some accent
    /\ forall i v, values !! i = Some v ->
       exists b l,
         Chart.waterfall_bars d !! i = Some b
         /\ Chart.waterfall_labels d !! i = Some l
         /\ Chart.label_x l = Chart.bar_x b /\ Chart.label_val l = v
         /\ Chart.label_y l == Chart.bar_bottom b + Chart.bar_height b / 2
         /\ (i = 0%nat \/ S i = length values ->
             Chart.bar_color b = primary /\ Chart.label_fmt l = Chart.Plain)
         /\ ((0 < i)%nat /\ (S i < length values)%nat ->
             Chart.label_fmt l = Chart.Signed
             /\ (0 <= v -> Chart.bar_color b = accent)
             /\ (v < 0 -> Chart.bar_color b = Str "#FF6B6B")).
Proof.
  intros Hscheme Hlen Hd.
  destruct (chart_scheme_fields key scheme Hscheme)
    as (gradient & primary & accent & text & text_light
        & _ & _ & Hp & Ha & Ht & Htl).
  destruct (waterfall_drawing_lookup categories values scheme primary accent
              text text_light d Hlen Hp Ha Ht Htl Hd) as (Hbars & _ & _).
  exists primary, accent. split; [exact Hp|]. split; [exact Ha|].
  intros i v Hv. destruct (Hbars i v Hv) as [Hb Hl].
  eexists _, _. split; [exact Hb|]. split; [exact Hl|].
  cbn [Chart.label_x Chart.label_val Chart.label_y Chart.label_fmt
       Chart.bar_x Chart.bar_bottom Chart.bar_height Chart.bar_color].
  split; [done|]. split; [done|].
  pose proof (is_last_index_spec i values) as Hlast.
  destruct (Chart.is_last_index i values).
  - assert (Hend : S i = length values) by by apply Hlast.
    split; [field|]. rewrite orb_true_r, andb_false_r.
    split; [done|]. intros [_ Hlt]. lia.
  - assert (Hmid : S i <> length values).
    { intros Heq. by apply Hlast in Heq. }
    split; [reflexivity|]. rewrite orb_false_r, andb_true_r.
    destruct i as [|i]; cbn [Nat.eqb Nat.ltb Nat.leb].
    + split; [done|]. intros [Hpos _]. lia.
    + split; [intros [?|?]; [done | lia]|]. intros _. split; [done|].
      split; intros Hsign.
      * apply Qle_bool_iff in Hsign. by rewrite Hsign.
      * apply Qlt_not_le in Hsign. rewrite <- Qle_bool_iff in Hsign.
        by destruct (Qle_bool 0 v).
Qed.

Lemma waterfall_colours_and_labels_witness :
  exists d,
    Chart.generate_waterfall_chart ["a"; "b"; "c"; "d"] [100; 35; -8; 127]
      (chart_scheme "blue") = Ok d
    /\ exists b, Chart.waterfall_bars d !! 2%nat = Some b
                 /\ Chart.bar_color b = Str "#FF6B6B".
Proof.
  destruct (Chart.generate_waterfall_chart ["a"; "b"; "c"; "d"]
              [100; 35; -8; 127] (chart_scheme "blue")) as [d|e] eqn:Hd;
    [|vm_compute in Hd; discriminate].
  exists d. split; [reflexivity|].
  destruct (waterfall_colours_and_labels "blue" (chart_scheme "blue")
              ["a"; "b"; "c"; "d"] [100; 35; -8; 127] d)
    as (primary & accent & _ & _ & Hall).
  - apply chart_scheme_lookup. vm_compute. reflexivity.
  - reflexivity.
  - exact Hd.
  - destruct (Hall 2%nat (-8) eq_refl)
      as (b & l & Hb & _ & _ & _ & _ & _ & Hmid).
    exists b. split; [exact Hb|]. apply Hmid; [simpl; lia|]. reflexivity.
Defined.

(** * Further properties of pie and donut *)

Lemma pie_wedges_colors colors i theta rows ws :
  pie_wedges colors i theta rows = Ok ws ->
  forall j w, ws !! j = Some w ->
    colors !! ((i + j) mod length colors)%nat = Some (wedge_color w).
Proof.
  revert i theta ws.
  induction rows as [|[[frac label] expl] rows IH]; intros i theta ws; simpl.
  - intros [= <-] j w. by rewrite lookup_nil.
  - intros H. apply bind_inv_Ok in H as (c & Hc & H).
    apply bind_inv_Ok in H as (ws' & Hws & [= <-]).
    intros [|j] w Hw.
    + injection Hw as <-. simpl. rewrite Nat.add_0_r.
      unfold cycle_color in Hc.
      destruct (colors !! (i mod length colors)%nat); [|discriminate].
      by injection Hc as ->.
    + simpl in Hw. rewrite <- Nat.add_succ_comm. by eapply IH.
Qed.

Lemma Axes_pie_colors x labels colors startangle explode ws :
  Axes_pie x labels colors startangle explode = Ok ws ->
  forall j w, ws !! j = Some w ->
    colors !! (j mod length colors)%nat = Some (wedge_color w).
Proof.
  unfold Axes_pie. intros H.
  destruct (existsb _ x); [discriminate|].
  destruct (Qeq_bool (py_sum x) 0 && negb (length x =? 0)%nat); [discriminate|].
  destruct (negb (length (map _ x) =? length labels)%nat); [discriminate|].
  destruct (negb (length (map _ x) =? length explode)%nat); [discriminate|].
  intros j w Hw. by apply (pie_wedges_colors _ _ _ _ _ H j w).
Qed.

Lemma explode_of_length values explode :
  Chart.explode_of values = Ok explode -> length explode = length values.
Proof. apply comprehension_length. Qed.

Lemma Qmin_strict x y : x < y -> Qmin x y = x.
Proof.
  intros H. unfold Qmin, GenericMinMax.gmin.
  by rewrite (proj1 (Qlt_alt x y) H).
Qed.

Lemma Qmax_strict x y : x < y -> Qmax x y = y.
Proof.
  intros H. unfold Qmax, GenericMinMax.gmax.
  by rewrite (proj1 (Qlt_alt x y) H).
Qed.

(** With positive fractions the first wedge starts at the start angle and
    every wedge ends at the very angle at which the next one starts. *)
Lemma pie_wedges_chain colors i theta rows ws :
  Forall (fun row : Q * string * Q => 0 < row.1.1) rows ->
  pie_wedges colors i theta rows = Ok ws ->
  (forall w, ws !! 0%nat = Some w -> wedge_theta1 w = 360 * theta)
  /\ (forall j w w', ws !! j = Some w -> ws !! S j = Some w' ->
        wedge_theta2 w = wedge_theta1 w').
Proof.
  intros Hpos. revert i theta ws.
  induction Hpos as [|[[frac label] expl] rows Hfrac _ IH]; intros i theta ws.
  - intros [= <-]. split; intros; by rewrite lookup_nil in *.
  - cbn [pie_wedges]. intros H.
    apply bind_inv_Ok in H as (c & _ & H).
    apply bind_inv_Ok in H as (ws' & Hws & [= <-]).
    destruct (IH _ _ _ Hws) as [Hfirst Hnext].
    simpl in Hfrac.
    assert (Hlt : theta < theta + frac) by lra.
    split.
    + intros w [= <-]. cbn [wedge_theta1]. by rewrite (Qmin_strict _ _ Hlt).
    + intros [|j] w w' Hw Hw'.
      * injection Hw as <-. cbn [wedge_theta2].
        rewrite (Qmax_strict _ _ Hlt). symmetry. by apply Hfirst.
      * by apply (Hnext j).
Qed.

(** The wedges of a pie or donut follow the records: there is one wedge per
    record, in dataset order, wedge j carrying the label of record j; the
    first wedge starts at 90 degrees and every wedge ends at the very angle
    at which the next one starts; wedge j is coloured with the gradient
    entry j mod min(n, length of the gradient), so a gradient shorter than
    the dataset is reused from its start. *)
Theorem pie_wedges_contiguous key scheme categories values pie :
  Chart.COLOR_SCHEMES !! key = Some scheme ->
  values <> [] ->
  Forall (fun v => 0 < v) values ->
  length categories = length values ->
  Chart.generate_pie_chart categories values scheme = Ok pie
  \/ Chart.generate_donut_chart categories values scheme = Ok pie ->
  length (Chart.pie_wedges_drawn pie) = length values
  /\ (forall j c, categories !! j = Some c ->
        exists w, Chart.pie_wedges_drawn pie !! j = Some w
                  /\ wedge_label w = c)
  /\ (exists w, Chart.pie_wedges_drawn pie !! 0%nat = Some w
                /\ wedge_theta1 w == 90)
  /\ (forall j w w', Chart.pie_wedges_drawn pie !! j = Some w ->
        Chart.pie_wedges_drawn pie !! S j = Some w' ->
        wedge_theta2 w = wedge_theta1 w')
  /\ exists gradient,
       scheme !! "gradient" = Some (StrList gradient)
       /\ forall j w, Chart.pie_wedges_drawn pie !! j = Some w ->
            gradient !! (j mod Nat.min (length values) (length gradient))%nat
            = Some (wedge_color w).
Proof.
  intros Hscheme Hne Hpos Hlen Hpie.
  apply pie_chart_inv in Hpie as (gradient & explode & Hg & Hex & Hws).
  destruct (chart_scheme_fields key scheme Hscheme)
    as (gradient' & _ & _ & _ & _ & Hg' & Hgne & _).
  rewrite Hg in Hg'. injection Hg' as <-.
  assert (Hcolors : take (length categories) gradient <> []).
  { destruct gradient; [done|]. destruct categories; [|done].
    destruct values; [done | discriminate Hlen]. }
  pose proof (explode_of_length _ _ Hex) as Hexplode.
  destruct (Axes_pie_spec values categories (take (length categories) gradient)
              90 explode Hne Hpos Hcolors)
    as (ws & Hws' & Hcount & _ & Hwedge); [by symmetry | by symmetry |].
  rewrite Hws in Hws'. injection Hws' as Hws'. rewrite Hws' in *. clear Hws'.
  pose proof (py_sum_positive values Hne Hpos) as Hsum.
  split; [exact Hcount|]. split; [|split; [|split]].
  - intros j c Hc.
    destruct (lookup_lt_is_Some_2 values j) as [v Hv].
    { rewrite <- Hlen. by eapply lookup_lt_Some. }
    destruct (Hwedge j v Hv) as (w & Hw & _ & _ & Hl).
    exists w. split; [exact Hw|]. rewrite Hc in Hl. by injection Hl.
  - destruct values as [|v0 values']; [done|].
    destruct (Hwedge 0%nat v0 eq_refl) as (w & Hw & Hs & _).
    exists w. split; [exact Hw|]. rewrite Hs. unfold py_sum at 1. simpl.
    assert (Hnz : ~ py_sum (v0 :: values') == 0).
    { intros H. rewrite H in Hsum. by apply Qlt_irrefl in Hsum. }
    by field.
  - unfold Axes_pie in Hws.
    destruct (existsb _ values); [discriminate|].
    destruct (Qeq_bool (py_sum values) 0 && negb (length values =? 0)%nat);
      [discriminate|].
    destruct (negb (length (map _ values) =? length categories)%nat);
      [discriminate|].
    destruct (negb (length (map _ values) =? length explode)%nat);
      [discriminate|].
    refine (proj2 (pie_wedges_chain _ _ _ _ _ _ Hws)).
    rewrite List.Forall_forall. intros [[frac label] expl] Hin.
    apply (List.in_map (fun row : Q * string * Q => row.1.1)) in Hin.
    rewrite zip3_fractions in Hin
      by (rewrite length_map; symmetry; assumption).
    apply List.in_map_iff in Hin as (v & <- & Hv).
    rewrite List.Forall_forall in Hpos. specialize (Hpos v Hv). simpl.
    apply Qlt_shift_div_l; [exact Hsum|]. by rewrite Qmult_0_l.
  - exists gradient. split; [exact Hg|]. intros j w Hw.
    pose proof (Axes_pie_colors _ _ _ _ _ _ Hws j w Hw) as Hc.
    rewrite length_take, Hlen in Hc.
    rewrite lookup_take_lt in Hc; [exact Hc|].
    rewrite <- Hlen.
    assert (Nat.min (length categories) (length gradient) <> 0%nat).
    { rewrite <- length_take. by destruct (take (length categories) gradient). }
    pose proof (Nat.mod_upper_bound j
                  (Nat.min (length categories) (length gradient))). lia.
Qed.

Lemma pie_wedges_contiguous_witness :
  exists pie,
    Chart.generate_pie_chart ["A"; "B"; "C"; "D"] [30; 25; 20; 25]
      (chart_scheme "gold_blue") = Ok pie
    /\ length (Chart.pie_wedges_drawn pie) = 4%nat.
Proof.
  destruct (Chart.generate_pie_chart ["A"; "B"; "C"; "D"] [30; 25; 20; 25]
              (chart_scheme "gold_blue")) as [pie|e] eqn:Hpie;
    [|vm_compute in Hpie; discriminate].
  exists pie. split; [reflexivity|].
  refine (proj1 (pie_wedges_contiguous "gold_blue"
            (chart_scheme "gold_blue") ["A"; "B"; "C"; "D"] [30; 25; 20; 25]
            pie _ _ _ _ (or_introl Hpie))).
  - apply chart_scheme_lookup. vm_compute. reflexivity.
  - discriminate.
  - repeat constructor.
  - reflexivity.
Defined.

(** A negative value makes pie and donut fail: matplotlib refuses a negative
    wedge size, and no picture is produced. *)
Theorem pie_rejects_negative key scheme categories values :
  Chart.COLOR_SCHEMES !! key = Some scheme ->
  Exists (fun v => v < 0) values ->
  Chart.generate_pie_chart categories values scheme
  = Raise ValueError_matplotlib
  /\ Chart.generate_donut_chart categories values scheme
     = Raise ValueError_matplotlib.
Proof.
  intros Hscheme Hneg.
  destruct (chart_scheme_fields key scheme Hscheme)
    as (gradient & _ & _ & text & _ & Hg & _ & _ & _ & Ht & _).
  assert (Hne : values <> []) by (intros ->; inversion Hneg).
  destruct (py_max_spec values Hne) as (m & Hm & _).
  assert (Hpie : forall colors explode,
            Axes_pie values categories colors 90 explode
            = Raise ValueError_matplotlib).
  { intros colors explode. unfold Axes_pie.
    replace (existsb (fun v => Qlt_bool v 0) values) with true; [done|].
    symmetry. apply existsb_exists. apply Exists_exists in Hneg as (v & Hin & Hv).
    exists v. split; [by apply list_elem_of_In|].
    apply not_false_iff_true. intros Hf. apply Qlt_bool_false in Hf.
    by apply Qlt_not_le in Hv. }
  unfold Chart.generate_pie_chart, Chart.generate_donut_chart.
  rewrite (getitem_Ok _ _ _ Hg), !bind_Ok. cbn [slice_to]. rewrite !bind_Ok.
  rewrite (explode_of_spec values m Hm), !bind_Ok.
  rewrite (getitem_Ok _ _ _ Ht), !bind_Ok, Hpie. by split.
Qed.

Lemma pie_rejects_negative_witness :
  Chart.generate_pie_chart ["a"; "b"] [30; -8] (chart_scheme "blue")
  = Raise ValueError_matplotlib.
Proof.
  refine (proj1 (pie_rejects_negative "blue" (chart_scheme "blue")
                   ["a"; "b"] [30; -8] _ _)).
  - apply chart_scheme_lookup. vm_compute. reflexivity.
  - apply Exists_cons_tl, Exists_cons_hd. reflexivity.
Defined.

(** * Further properties of the radar *)

Lemma Qnat_lt i j : (i < j)%nat -> Qnat i < Qnat j.
Proof. intros H. unfold Qnat, Qlt. simpl. lia. Qed.

Lemma Qnat_nonneg i : 0 <= Qnat i.
Proof. unfold Qnat, Qle. simpl. lia. Qed.

Lemma getindex_inv {A : Type} (xs : list A) i x :
  getindex xs i = Ok x -> xs !! i = Some x.
Proof. unfold getindex. by destruct (xs !! i); intros [= ->]. Qed.

(** What a successful run of the radar generator has drawn. *)
Lemma radar_chart_inv categories values scheme d :
  Chart.generate_radar_chart categories values scheme = Ok d ->
  let angles := linspace 0 (2 * np_pi) (length categories) false in
  length values = length categories
  /\ (1 <= length categories)%nat
  /\ Chart.radar_xticks d = angles
  /\ (exists a0 v0, angles !! 0%nat = Some a0 /\ values !! 0%nat = Some v0
        /\ Chart.radar_theta d = angles ++ [a0]
        /\ Chart.radar_r d = values ++ [v0])
  /\ Chart.radar_labels d
     = map (fun row : Q * Q * string => (row.1.1, row.1.2 + 5))
           (zip3 angles values categories).
Proof.
  intros H angles. unfold Chart.generate_radar_chart in H. fold angles in H.
  apply bind_inv_Ok in H as (v0 & Hv0 & H). apply getindex_inv in Hv0.
  apply bind_inv_Ok in H as (? & _ & H).
  destruct (length (angles ++ take 1 angles) =? length (values ++ [v0]))%nat
    eqn:Hcheck; [|discriminate]. cbn [negb] in H.
  apply Nat.eqb_eq in Hcheck.
  rewrite !length_app, length_take in Hcheck. unfold angles in Hcheck.
  rewrite linspace_length in Hcheck. cbn [length] in Hcheck.
  assert (Hn : (1 <= length categories)%nat) by lia.
  assert (Hlen : length values = length categories) by lia.
  destruct (linspace_open_lookup 0 (2 * np_pi) (length categories) 0 Hn)
    as (a0 & Ha0 & _). fold angles in Ha0.
  assert (Htake : take 1 angles = [a0]).
  { destruct angles; [discriminate|]. by injection Ha0 as ->. }
  rewrite Htake, removelast_last in H.
  apply bind_inv_Ok in H as (? & _ & H). apply bind_inv_Ok in H as (? & _ & H).
  apply bind_inv_Ok in H as (labels & Hlabels & H).
  apply bind_inv_Ok in H as (? & _ & [= <-]).
  cbn [Chart.radar_xticks Chart.radar_theta Chart.radar_r Chart.radar_labels].
  split; [exact Hlen|]. split; [exact Hn|]. split; [done|].
  split; [by exists a0, v0|].
  apply comprehension_Ok in Hlabels.
  apply list_eq_Forall2, Forall2_fmap_r, Forall2_flip.
  eapply Forall2_impl; [exact Hlabels|].
  intros [[angle v] category] l Hl.
  apply bind_inv_Ok in Hl as (? & _ & [= <-]). reflexivity.
Qed.

(** A radar that is drawn has one spoke per category: as many values as
    categories; the tick angles are the n angles without the closing
    duplicate, all in [0, 2*pi) and increasing with the index; value i is
    plotted as it is, not clamped to the 0..100 scale, and its label sits on
    the same spoke five units further out. *)
Theorem radar_geometry categories values scheme d :
  Chart.generate_radar_chart categories values scheme = Ok d ->
  length values = length categories
  /\ Chart.radar_xticks d = take (length categories) (Chart.radar_theta d)
  /\ (forall i v, values !! i = Some v ->
      exists a, Chart.radar_theta d !! i = Some a
                /\ Chart.radar_r d !! i = Some v
                /\ Chart.radar_labels d !! i = Some (a, v + 5)
                /\ 0 <= a /\ a < 2 * np_pi)
  /\ (forall i j a b, (i < j < length categories)%nat ->
      Chart.radar_theta d !! i = Some a -> Chart.radar_theta d !! j = Some b ->
      a < b).
Proof.
  intros Hd. apply radar_chart_inv in Hd. cbv zeta in Hd.
  set (n := length categories) in *.
  set (angles := linspace 0 (2 * np_pi) n false) in *.
  destruct Hd as (Hlen & Hn & Hticks & (a0 & v0 & Ha0 & Hv0 & Htheta & Hr)
                  & Hlabels).
  assert (Hangles : length angles = n) by apply linspace_length.
  assert (Hstep : 0 < (2 * np_pi - 0) / Qnat n).
  { apply Qlt_shift_div_l; [by apply (Qnat_lt 0 n)|]. reflexivity. }
  assert (Hangle : forall i, (i < n)%nat ->
            exists a, angles !! i = Some a
                      /\ a == Qnat i * ((2 * np_pi - 0) / Qnat n)).
  { intros i Hi.
    destruct (linspace_open_lookup 0 (2 * np_pi) n i Hi) as (a & Ha & Heq).
    exists a. split; [exact Ha|]. rewrite Heq. ring. }
  split; [exact Hlen|]. split; [|split].
  - rewrite Htheta, Hticks, take_app_length'; [done | by symmetry].
  - intros i v Hv. pose proof (lookup_lt_Some _ _ _ Hv) as Hi.
    rewrite Hlen in Hi. destruct (Hangle i Hi) as (a & Ha & Heq).
    destruct (lookup_lt_is_Some_2 categories i) as [cat Hcat]; [exact Hi|].
    exists a. split; [|split; [|split; [|split]]].
    + rewrite Htheta, lookup_app_l by (rewrite Hangles; exact Hi). exact Ha.
    + rewrite Hr, lookup_app_l by (rewrite Hlen; exact Hi). exact Hv.
    + rewrite Hlabels, list_lookup_fmap.
      by rewrite (zip3_lookup _ _ _ _ _ _ _ Ha Hv Hcat).
    + rewrite Heq. apply Qmult_le_0_compat;
        [apply Qnat_nonneg | by apply Qlt_le_weak].
    + rewrite Heq.
      apply Qlt_le_trans with (Qnat n * ((2 * np_pi - 0) / Qnat n)).
      * apply Qmult_lt_r; [exact Hstep | by apply Qnat_lt].
      * apply Qle_lteq. right. field. by apply Qnat_nonzero.
  - intros i j a b [Hij Hj] Ha Hb.
    destruct (Hangle i) as (a' & Ha' & Heqa); [lia|].
    destruct (Hangle j) as (b' & Hb' & Heqb); [lia|].
    rewrite Htheta, lookup_app_l in Ha by (rewrite Hangles; lia).
    rewrite Htheta, lookup_app_l in Hb by (rewrite Hangles; lia).
    rewrite Ha' in Ha. rewrite Hb' in Hb. injection Ha as <-. injection Hb as <-.
    rewrite Heqa, Heqb. apply Qmult_lt_r; [exact Hstep | by apply Qnat_lt].
Qed.

Lemma radar_geometry_witness :
  exists d,
    Chart.generate_radar_chart ["a"; "b"; "c"] [85; 150; 78]
      (chart_scheme "multilayer") = Ok d
    /\ exists a, Chart.radar_r d !! 1%nat = Some 150
                 /\ Chart.radar_labels d !! 1%nat = Some (a, 150 + 5).
Proof.
  destruct (Chart.generate_radar_chart ["a"; "b"; "c"] [85; 150; 78]
              (chart_scheme "multilayer")) as [d|e] eqn:Hd;
    [|vm_compute in Hd; discriminate].
  exists d. split; [reflexivity|].
  destruct (proj1 (proj2 (proj2 (radar_geometry ["a"; "b"; "c"] [85; 150; 78]
                                   (chart_scheme "multilayer") d Hd)))
              1%nat 150 eq_refl) as (a & _ & Hr & Hl & _).
  exists a. by split.
Defined.

(** * Further properties of the big-number cards *)

Local Close Scope Q_scope.

Lemma getitem_inv (d : gmap string value) k v :
  getitem d k = Ok v -> d !! k = Some v.
Proof. unfold getitem. by destruct (d !! k); intros [= ->]. Qed.

(** A figure of cards that is drawn has at least one card; its grid has
    room for all the cards and no row without a card (fewer cells are left
    over than a row has columns); every cell has its axis turned off, and a
    cell carries a card exactly when its flat index is below the number of
    metrics. *)
Theorem big_number_grid_filled metrics scheme fig :
  BigNumbers.generate_big_number_cards metrics scheme = Ok fig ->
  let n := length metrics in
  let rows := BigNumbers.fig_rows fig in
  let cols := BigNumbers.fig_cols fig in
  1 <= n
  /\ length (BigNumbers.fig_axes fig) = rows * cols
  /\ n <= rows * cols < n + cols
  /\ (forall i ax, BigNumbers.fig_axes fig !! i = Some ax ->
      BigNumbers.axis_on ax = false
      /\ (is_Some (BigNumbers.axes_card ax) <-> i < n)).
Proof.
  intros Hfig. pose proof Hfig as Hrun.
  unfold BigNumbers.generate_big_number_cards in Hrun.
  assert (Hn : 1 <= length metrics).
  { destruct metrics; [|simpl; lia]. simpl in Hrun. discriminate. }
  pose proof (grid_covers (length metrics) Hn) as Hcover.
  assert (Hrow : let '(cols, rows, _) := BigNumbers.grid (length metrics) in
            rows * cols < length metrics + cols).
  { unfold BigNumbers.grid.
    destruct (Nat.leb_spec (length metrics) 2); [lia|].
    destruct (Nat.leb_spec (length metrics) 4); [lia|].
    pose proof (Nat.div_mod_eq (length metrics + 2) 3).
    pose proof (Nat.mod_upper_bound (length metrics + 2) 3). lia. }
  destruct (BigNumbers.grid (length metrics)) as [[cols rows] figsize] eqn:Hg.
  apply bind_inv_Ok in Hrun as (axes & _ & Hrun).
  apply bind_inv_Ok in Hrun as (text & Ht & Hrun).
  apply bind_inv_Ok in Hrun as (primary & Hp & Hrun).
  apply bind_inv_Ok in Hrun as (accent & Ha & _).
  apply getitem_inv in Ht, Hp, Ha.
  pose proof (generate_big_number_cards_Ok metrics scheme primary accent text
                Hp Ha Ht Hn) as Hok.
  rewrite Hg, Hfig in Hok. injection Hok as ->.
  cbn [BigNumbers.fig_rows BigNumbers.fig_cols BigNumbers.fig_axes].
  destruct Hcover as (_ & _ & Hfit).
  split; [exact Hn|]. split; [|split; [lia|]].
  - rewrite length_app, length_imap, length_replicate. lia.
  - intros i ax Hax. apply lookup_app_Some in Hax as [Hax | [Hge Hax]].
    + rewrite list_lookup_imap in Hax.
      destruct (metrics !! i) as [metric|] eqn:Hm; [|discriminate].
      injection Hax as <-. apply lookup_lt_Some in Hm.
      cbn [BigNumbers.axis_on BigNumbers.axes_card]. by split.
    + rewrite length_imap in Hge, Hax.
      apply lookup_replicate in Hax as [-> _].
      cbn [BigNumbers.axis_on BigNumbers.axes_card]. split; [done|].
      split; [by intros [? ?] | lia].
Qed.

Lemma big_number_grid_filled_witness :
  exists fig,
    BigNumbers.generate_big_number_cards
      (BigNumbers.parse_metrics_data "1:a:b,2:c:d,3:e:f,4:g:h,5:i:j,6:k:l,7:m:n")
      (big_numbers_scheme "orange") = Ok fig
    /\ length (BigNumbers.fig_axes fig)
       = BigNumbers.fig_rows fig * BigNumbers.fig_cols fig.
Proof.
  destruct (BigNumbers.generate_big_number_cards
              (BigNumbers.parse_metrics_data
                 "1:a:b,2:c:d,3:e:f,4:g:h,5:i:j,6:k:l,7:m:n")
              (big_numbers_scheme "orange")) as [fig|e] eqn:Hfig;
    [|vm_compute in Hfig; discriminate].
  exists fig. split; [reflexivity|].
  exact (proj1 (proj2 (big_number_grid_filled _ _ fig Hfig))).
Defined.

(** * Further properties of the timeline *)

Local Open Scope Q_scope.

Lemma Qnat_S n : Qnat (S n) == Qnat n + 1.
Proof.
  unfold Qnat. by rewrite Nat2Z.inj_succ, <- Z.add_1_r, inject_Z_plus.
Qed.

Lemma Qnat_le i j : (i <= j)%nat -> Qnat i <= Qnat j.
Proof. intros H. unfold Qnat, Qle. simpl. lia. Qed.

(** With the end point the samples stay between the two ends. *)
Lemma linspace_closed_bounds start stop num i y :
  start <= stop ->
  linspace start stop num true !! i = Some y ->
  start <= y <= stop.
Proof.
  intros Hle Hy. pose proof (lookup_lt_Some _ _ _ Hy) as Hi.
  rewrite linspace_length in Hi.
  destruct (decide (num = 1%nat)) as [-> | Hne].
  - destruct (linspace_single start stop) as (y0 & Hl & Hy0).
    rewrite Hl in Hy. destruct i; [|simpl in Hi; lia].
    injection Hy as <-. rewrite Hy0. split; [apply Qle_refl | exact Hle].
  - destruct (linspace_closed_lookup start stop num i) as (y' & Hy' & Heq & _);
      [lia | exact Hi |].
    rewrite Hy in Hy'. injection Hy' as <-.
    assert (Hk : 0 < Qnat (num - 1)) by (apply (Qnat_lt 0); lia).
    assert (Hstep : 0 <= (stop - start) / Qnat (num - 1)).
    { apply Qle_shift_div_l; [exact Hk | lra]. }
    assert (Hlow : 0 <= Qnat i * ((stop - start) / Qnat (num - 1))).
    { apply Qmult_le_0_compat; [apply Qnat_nonneg | exact Hstep]. }
    assert (Hup : Qnat i * ((stop - start) / Qnat (num - 1)) <= stop - start).
    { apply Qle_trans
        with (Qnat (num - 1) * ((stop - start) / Qnat (num - 1))).
      - apply Qmult_le_compat_r; [apply Qnat_le; lia | exact Hstep].
      - apply Qle_lteq. right. field. intros H. rewrite H in Hk.
        by apply Qlt_irrefl in Hk. }
    set (p := Qnat i * ((stop - start) / Qnat (num - 1))) in *.
    split; lra.
Qed.

(** Neighbouring samples are one step apart. *)
Lemma linspace_closed_step start stop num i y y' :
  linspace start stop num true !! i = Some y ->
  linspace start stop num true !! S i = Some y' ->
  y' - y == (stop - start) / Qnat (num - 1).
Proof.
  intros Hy Hy'. pose proof (lookup_lt_Some _ _ _ Hy') as Hi.
  rewrite linspace_length in Hi.
  destruct (linspace_closed_lookup start stop num i) as (z & Hz & Heq & _);
    [lia | lia |].
  destruct (linspace_closed_lookup start stop num (S i))
    as (z' & Hz' & Heq' & _); [lia | lia |].
  rewrite Hy in Hz. rewrite Hy' in Hz'. injection Hz as <-. injection Hz' as <-.
  rewrite Heq, Heq', Qnat_S. field. apply Qnat_nonzero. lia.
Qed.

(** What a successful run of the timeline generator has drawn: node and card
    [i], for each [i] below the number of drawn nodes. *)
Lemma timeline_drawn_lookup key scheme timeline d :
  Timeline.COLOR_SCHEMES !! key = Some scheme ->
  Timeline.generate_horizontal_timeline timeline scheme = Ok d ->
  let n := length timeline in
  let width := ((85 # 10) - (15 # 10)) / Qnat n - (2 # 10) in
  (1 <= n)%nat
  /\ length (Timeline.drawn_cards d) = length (Timeline.drawn_nodes d)
  /\ (length (Timeline.drawn_nodes d) <= n)%nat
  /\ forall i, (i < length (Timeline.drawn_nodes d))%nat ->
       exists x item color,
         linspace (15 # 10) (85 # 10) n true !! i = Some x
         /\ timeline !! i = Some item
         /\ Timeline.drawn_nodes d !! i
            = Some {| Timeline.node_x := x; Timeline.node_y := 65 # 10;
                      Timeline.node_color := color;
                      Timeline.node_time := Timeline.time item;
                      Timeline.node_title := Timeline.title item |}
         /\ Timeline.drawn_cards d !! i
            = Some {| Timeline.card_x := x - width / 2;
                      Timeline.card_y := 4 - (25 # 10);
                      Timeline.card_width := width;
                      Timeline.card_height := 25 # 10;
                      Timeline.card_color := color;
                      Timeline.card_text := Timeline.description item |}.
Proof.
  intros Hscheme Hd n width.
  assert (Hn : (1 <= n)%nat).
  { destruct (timeline_scheme_fields key scheme Hscheme)
      as (colors & text & Hc & _ & Ht).
    unfold n. destruct timeline; [|simpl; lia].
    unfold Timeline.generate_horizontal_timeline in Hd.
    rewrite (getitem_Ok _ _ _ Ht), bind_Ok, (getitem_Ok _ _ _ Hc) in Hd.
    discriminate Hd. }
  destruct (timeline_layout key scheme timeline Hscheme Hn)
    as (d' & colors & Hc & Hd' & Hnodes & Hcards & Hat).
  rewrite Hd in Hd'. injection Hd' as <-.
  split; [exact Hn|]. split; [by rewrite Hnodes, Hcards|].
  split; [rewrite Hnodes; fold n; lia|].
  intros i Hi. rewrite Hnodes in Hi. fold n in Hi.
  destruct (lookup_lt_is_Some_2 timeline i) as [item Hitem]; [fold n; lia|].
  destruct (lookup_lt_is_Some_2 colors i) as [color Hcolor]; [lia|].
  destruct (Hat i item color Hitem Hcolor) as (x & Hx & _ & Hnode & Hcard).
  by exists x, item, color.
Qed.

(** Comparing a quotient [k / den] with a bound, without dividing. *)
Lemma quotient_gt k den c :
  0 < den -> (c < k / den <-> c * den < k).
Proof.
  intros Hden. rewrite <- (Qmult_lt_r _ _ den Hden).
  assert (Hq : k / den * den == k).
  { field. intros H. rewrite H in Hden. by apply Qlt_irrefl in Hden. }
  by rewrite Hq.
Qed.

Lemma quotient_le k den c :
  0 < den -> (k / den <= c <-> k <= c * den).
Proof.
  intros Hden. rewrite <- (Qmult_le_r _ _ den Hden).
  assert (Hq : k / den * den == k).
  { field. intros H. rewrite H in Hden. by apply Qlt_irrefl in Hden. }
  by rewrite Hq.
Qed.

Lemma linspace_closed_first start stop num y :
  linspace start stop num true !! 0%nat = Some y -> y == start.
Proof.
  intros Hy. pose proof (lookup_lt_Some _ _ _ Hy) as Hn.
  rewrite linspace_length in Hn.
  destruct (decide (num = 1%nat)) as [-> | Hne].
  - destruct (linspace_single start stop) as (y0 & Hl & Hy0).
    rewrite Hl in Hy. by injection Hy as <-.
  - destruct (linspace_closed_lookup start stop num 0) as (y' & Hy' & Heq & _);
      [lia | lia |].
    rewrite Hy in Hy'. injection Hy' as <-. rewrite Heq.
    unfold Qnat. simpl. ring.
Qed.

(** The drawn nodes sit on the line between x = 1.5 and x = 8.5, from left
    to right in the order of the events; each card is centred under its
    node and has its colour; and neighbouring cards never overlap: a card
    ends before the next one starts. *)
Theorem timeline_nodes_and_cards key scheme timeline d :
  Timeline.COLOR_SCHEMES !! key = Some scheme ->
  Timeline.generate_horizontal_timeline timeline scheme = Ok d ->
  (forall i nd, Timeline.drawn_nodes d !! i = Some nd ->
     (15 # 10) <= Timeline.node_x nd <= (85 # 10)
     /\ Timeline.node_y nd = 65 # 10)
  /\ (forall i nd nd', Timeline.drawn_nodes d !! i = Some nd ->
        Timeline.drawn_nodes d !! S i = Some nd' ->
        Timeline.node_x nd < Timeline.node_x nd')
  /\ (forall i nd c, Timeline.drawn_nodes d !! i = Some nd ->
        Timeline.drawn_cards d !! i = Some c ->
        Timeline.card_x c + Timeline.card_width c / 2 == Timeline.node_x nd
        /\ Timeline.card_color c = Timeline.node_color nd)
  /\ (forall i c c', Timeline.drawn_cards d !! i = Some c ->
        Timeline.drawn_cards d !! S i = Some c' ->
        Timeline.card_x c + Timeline.card_width c < Timeline.card_x c').
Proof.
  intros Hscheme Hd.
  destruct (timeline_drawn_lookup key scheme timeline d Hscheme Hd)
    as (Hn & Hcount & Hfew & Hat).
  set (n := length timeline) in *.
  set (xs := linspace (15 # 10) (85 # 10) n true) in *.
  set (r := ((85 # 10) - (15 # 10)) / Qnat n) in *.
  assert (HN : 0 < Qnat n) by (apply (Qnat_lt 0); lia).
  assert (Hr : 0 < r) by (apply quotient_gt; [exact HN | lra]).
  assert (Hstep : forall i, (S i < length (Timeline.drawn_nodes d))%nat ->
            forall x x', xs !! i = Some x -> xs !! S i = Some x' ->
            r < x' - x).
  { intros i Hi x x' Hx Hx'.
    rewrite (linspace_closed_step _ _ _ _ _ _ Hx Hx').
    assert (HM : 0 < Qnat (n - 1)) by (apply (Qnat_lt 0); lia).
    apply quotient_gt; [exact HM|].
    assert (HMN : Qnat (n - 1) == Qnat n - 1).
    { assert (Hs : n = S (n - 1)) by lia. rewrite Hs at 2.
      rewrite Qnat_S. ring. }
    rewrite HMN.
    assert (Hq : r * Qnat n == (85 # 10) - (15 # 10)).
    { unfold r. field. intros H. rewrite H in HN. by apply Qlt_irrefl in HN. }
    lra. }
  split; [|split; [|split]].
  - intros i nd Hnd. pose proof (lookup_lt_Some _ _ _ Hnd) as Hi.
    destruct (Hat i Hi) as (x & item & color & Hx & _ & Hnode & _).
    rewrite Hnd in Hnode. injection Hnode as ->. simpl. split; [|done].
    apply (linspace_closed_bounds _ _ n i x); [lra | exact Hx].
  - intros i nd nd' Hnd Hnd'.
    pose proof (lookup_lt_Some _ _ _ Hnd) as Hi.
    pose proof (lookup_lt_Some _ _ _ Hnd') as Hi'.
    destruct (Hat i Hi) as (x & ? & ? & Hx & _ & Hnode & _).
    destruct (Hat (S i) Hi') as (x' & ? & ? & Hx' & _ & Hnode' & _).
    rewrite Hnd in Hnode. rewrite Hnd' in Hnode'.
    injection Hnode as ->. injection Hnode' as ->. simpl.
    pose proof (Hstep i Hi' x x' Hx Hx'). lra.
  - intros i nd c Hnd Hc. pose proof (lookup_lt_Some _ _ _ Hnd) as Hi.
    destruct (Hat i Hi) as (x & ? & ? & _ & _ & Hnode & Hcard).
    rewrite Hnd in Hnode. rewrite Hc in Hcard.
    injection Hnode as ->. injection Hcard as ->. simpl. split; [field | done].
  - intros i c c' Hc Hc'.
    pose proof (lookup_lt_Some _ _ _ Hc) as Hi.
    pose proof (lookup_lt_Some _ _ _ Hc') as Hi'. rewrite Hcount in Hi, Hi'.
    destruct (Hat i Hi) as (x & ? & ? & Hx & _ & _ & Hcard).
    destruct (Hat (S i) Hi') as (x' & ? & ? & Hx' & _ & _ & Hcard').
    rewrite Hc in Hcard. rewrite Hc' in Hcard'.
    injection Hcard as ->. injection Hcard' as ->. simpl. fold r.
    pose proof (Hstep i Hi' x x' Hx Hx'). lra.
Qed.

Lemma timeline_nodes_and_cards_witness :
  exists d,
    Timeline.generate_horizontal_timeline
      (Timeline.parse_timeline_data "Q1:a:b,Q2:c:d,Q3:e:f")
      (timeline_scheme "green") = Ok d
    /\ forall i nd, Timeline.drawn_nodes d !! i = Some nd ->
         (15 # 10) <= Timeline.node_x nd <= (85 # 10)
         /\ Timeline.node_y nd = 65 # 10.
Proof.
  destruct (Timeline.generate_horizontal_timeline
              (Timeline.parse_timeline_data "Q1:a:b,Q2:c:d,Q3:e:f")
              (timeline_scheme "green")) as [d|e] eqn:Hd;
    [|vm_compute in Hd; discriminate].
  exists d. split; [reflexivity|].
  refine (proj1 (timeline_nodes_and_cards "green" (timeline_scheme "green")
                   _ d _ Hd)).
  apply timeline_scheme_lookup. vm_compute. reflexivity.
Defined.

(** The cards have a positive width exactly when there are fewer than 35
    events. From three events on, every drawn card lies within the canvas
    0..10; with one or two events the first card starts left of 0. *)
Theorem timeline_cards_on_canvas key scheme timeline d :
  Timeline.COLOR_SCHEMES !! key = Some scheme ->
  Timeline.generate_horizontal_timeline timeline scheme = Ok d ->
  (forall i c, Timeline.drawn_cards d !! i = Some c ->
     (0 < Timeline.card_width c <-> (length timeline < 35)%nat))
  /\ ((3 <= length timeline)%nat ->
      forall i c, Timeline.drawn_cards d !! i = Some c ->
        0 <= Timeline.card_x c
        /\ Timeline.card_x c + Timeline.card_width c <= 10)
  /\ ((length timeline <= 2)%nat ->
      exists c, Timeline.drawn_cards d !! 0%nat = Some c
                /\ Timeline.card_x c < 0).
Proof.
  intros Hscheme Hd.
  destruct (timeline_drawn_lookup key scheme timeline d Hscheme Hd)
    as (Hn & Hcount & Hfew & Hat).
  set (n := length timeline) in *.
  set (r := ((85 # 10) - (15 # 10)) / Qnat n) in *.
  assert (HN : 0 < Qnat n) by (apply (Qnat_lt 0); lia).
  split; [|split].
  - intros i c Hc. pose proof (lookup_lt_Some _ _ _ Hc) as Hi.
    rewrite Hcount in Hi.
    destruct (Hat i Hi) as (x & ? & ? & _ & _ & _ & Hcard).
    rewrite Hc in Hcard. injection Hcard as ->. simpl. fold r.
    pose proof (quotient_gt ((85 # 10) - (15 # 10)) (Qnat n) (2 # 10) HN)
      as Hq. fold r in Hq.
    split.
    + intros Hw. assert (Hlt : Qnat n < Qnat 35).
      { assert ((2 # 10) < r) as Hgt%Hq by lra.
        change (Qnat 35) with 35. lra. }
      unfold Qnat, Qlt in Hlt. simpl in Hlt. lia.
    + intros Hlt%Qnat_lt. change (Qnat 35) with 35 in Hlt.
      assert ((2 # 10) < r) by (apply Hq; lra). lra.
  - intros Hthree i c Hc. pose proof (lookup_lt_Some _ _ _ Hc) as Hi.
    rewrite Hcount in Hi.
    destruct (Hat i Hi) as (x & ? & ? & Hx & _ & _ & Hcard).
    rewrite Hc in Hcard. injection Hcard as ->. simpl. fold r.
    apply linspace_closed_bounds in Hx; [|lra].
    assert (Hr : r <= 7 # 3).
    { apply quotient_le; [exact HN|].
      apply (Qnat_le 3) in Hthree. change (Qnat 3) with 3 in Hthree. lra. }
    assert (Hhalf : (r - (2 # 10)) / 2 == (1 # 2) * (r - (2 # 10))) by field.
    rewrite Hhalf. split; lra.
  - intros Htwo.
    destruct (timeline_layout key scheme timeline Hscheme Hn)
      as (d' & colors & Hc & Hd' & Hnodes & _).
    rewrite Hd in Hd'. injection Hd' as <-.
    destruct (timeline_scheme_fields key scheme Hscheme)
      as (colors' & _ & Hc' & Hfour & _).
    rewrite Hc in Hc'. injection Hc' as <-.
    destruct (Hat 0%nat) as (x & ? & ? & Hx & _ & _ & Hcard).
    { rewrite Hnodes, Hfour. fold n. lia. }
    eexists. split; [exact Hcard|]. simpl. fold r.
    apply linspace_closed_first in Hx.
    assert (Hr : (32 # 10) < r).
    { apply quotient_gt; [exact HN|].
      apply (Qnat_le n 2) in Htwo. change (Qnat 2) with 2 in Htwo. lra. }
    assert (Hhalf : (r - (2 # 10)) / 2 == (1 # 2) * (r - (2 # 10))) by field.
    rewrite Hhalf. lra.
Qed.

Lemma timeline_cards_on_canvas_witness :
  exists d,
    Timeline.generate_horizontal_timeline
      (Timeline.parse_timeline_data "Q1:a:b,Q2:c:d")
      (timeline_scheme "green") = Ok d
    /\ exists c, Timeline.drawn_cards d !! 0%nat = Some c
                 /\ Timeline.card_x c < 0.
Proof.
  destruct (Timeline.generate_horizontal_timeline
              (Timeline.parse_timeline_data "Q1:a:b,Q2:c:d")
              (timeline_scheme "green")) as [d|e] eqn:Hd;
    [|vm_compute in Hd; discriminate].
  exists d. split; [reflexivity|].
  refine (proj2 (proj2 (timeline_cards_on_canvas "green"
                          (timeline_scheme "green") _ d _ Hd)) _).
  - apply timeline_scheme_lookup. vm_compute. reflexivity.
  - vm_compute. lia.
Defined.

(** * Bar and line charts *)

Lemma py_max_inv values m :
  py_max values = Ok m -> In m values /\ Forall (fun v => v <= m) values.
Proof.
  intros Hm. assert (Hne : values <> []) by (intros ->; discriminate).
  destruct (py_max_spec values Hne) as (m' & Hm' & Hin & Hall).
  rewrite Hm in Hm'. by injection Hm' as <-.
Qed.

Lemma broadcast2_heights {A B : Type} (xs : list A) (ys : list B) rows :
  broadcast2 xs ys = Ok rows -> Forall (fun row => In row.2 ys) rows.
Proof.
  unfold broadcast2. destruct (length xs =? length ys)%nat.
  - intros [= <-]. apply Forall_forall. intros [x y] Hin.
    apply list_elem_of_In, in_combine_r in Hin. exact Hin.
  - assert (Hl : forall x, Forall (fun row : A * B => In row.2 ys)
                             (map (fun y => (x, y)) ys)).
    { intros x. apply Forall_forall. intros row Hin.
      apply list_elem_of_In, List.in_map_iff in Hin as (y & <- & Hy). exact Hy. }
    assert (Hr : forall y, ys = [y] ->
              Forall (fun row : A * B => In row.2 ys)
                     (map (fun x => (x, y)) xs)).
    { intros y ->. apply Forall_forall. intros row Hin.
      apply list_elem_of_In, List.in_map_iff in Hin as (x & <- & _). by left. }
    destruct xs as [|x [|x' xs']]; destruct ys as [|y [|y' ys']];
      intros [= <-]; try apply Hl; try (by apply (Hr y)); constructor.
Qed.

(** What a successful run of the bar generator has drawn when there are as
    many categories as values. *)
Lemma bar_chart_inv categories values scheme d :
  Chart.generate_bar_chart categories values scheme = Ok d ->
  length categories = length values ->
  exists m gradient,
    py_max values = Ok m
    /\ scheme !! "gradient" = Some (StrList gradient)
    /\ Chart.bar_set_ylim d = (0, m * (115 # 100))
    /\ Chart.drawn_bars d
       = imap (fun i (row : string * Q) =>
                 {| cbar_category := row.1; cbar_height := row.2;
                    cbar_width := 6 # 10;
                    cbar_color :=
                      bar_color (take (length categories) gradient) i |})
              (zip categories values)
    /\ Chart.drawn_bar_labels d
       = imap (fun i b => {| Chart.over_bar := i;
                             Chart.bar_label_y := cbar_height b;
                             Chart.bar_label_val := cbar_height b |})
              (Chart.drawn_bars d).
Proof.
  intros H Hlen. unfold Chart.generate_bar_chart in H.
  apply bind_inv_Ok in H as (g & Hg & H).
  apply bind_inv_Ok in H as (colors & Hcolors & H).
  apply bind_inv_Ok in H as (bars & Hbars & H).
  apply bind_inv_Ok in H as (labels & Hlabels & H).
  apply bind_inv_Ok in H as (m & Hm & H).
  apply bind_inv_Ok in H as (? & _ & H).
  apply bind_inv_Ok in H as (? & _ & [= <-]).
  apply getitem_inv in Hg.
  destruct g as [|gradient]; [discriminate|]. injection Hcolors as <-.
  exists m, gradient.
  cbn [Chart.bar_set_ylim Chart.drawn_bars Chart.drawn_bar_labels].
  split; [exact Hm|]. split; [exact Hg|]. split; [reflexivity|]. split.
  - unfold Axes_bar, broadcast2 in Hbars.
    rewrite Hlen, Nat.eqb_refl, bind_Ok in Hbars. injection Hbars as <-.
    by rewrite Hlen.
  - apply comprehension_Ok in Hlabels. apply list_eq. intros i.
    rewrite list_lookup_imap.
    destruct (bars !! i) as [b|] eqn:Hb.
    + apply enumerate_lookup in Hb.
      destruct (Forall2_lookup_l _ _ _ _ _ Hlabels Hb) as (l & Hl & Hf).
      apply bind_inv_Ok in Hf as (? & _ & [= <-]). exact Hl.
    + apply lookup_ge_None in Hb. apply lookup_ge_None.
      apply Forall2_length in Hlabels. rewrite enumerate_length in Hlabels.
      lia.
Qed.

(** A colour list cut to the number of bars and then used in a cycle gives
    bar i the entry i mod (length of the list) of the uncut list. *)
Lemma bar_color_cycle (gradient : list string) n i :
  gradient <> [] -> (i < n)%nat ->
  gradient !! (i mod length gradient)%nat
  = Some (bar_color (take n gradient) i).
Proof.
  intros Hne Hi. unfold bar_color. rewrite length_take.
  assert (Hlen : (0 < length gradient)%nat)
    by (destruct gradient; [done | simpl; lia]).
  destruct (Nat.le_gt_cases n (length gradient)) as [Hle|Hgt].
  - rewrite Nat.min_l by exact Hle.
    rewrite (Nat.mod_small i n) by exact Hi.
    rewrite (Nat.mod_small i (length gradient)) by lia.
    rewrite lookup_take_lt by exact Hi.
    destruct (lookup_lt_is_Some_2 gradient i) as [c Hc]; [lia|].
    by rewrite Hc.
  - rewrite Nat.min_r by lia. rewrite take_ge by lia.
    destruct (lookup_lt_is_Some_2 gradient (i mod length gradient)) as [c Hc].
    { apply Nat.mod_upper_bound. lia. }
    by rewrite Hc.
Qed.

(** When a bar chart is drawn for as many categories as values, bar i
    stands over category i with value i as its height, in the gradient
    colour i mod (length of the gradient), and carries its label at the
    height of its value; no bar is higher than the greatest value. For a
    positive greatest value the y-limits handed to the axis are 0 and 1.15
    times that value, so every label lies strictly below the upper
    limit. *)
Theorem bar_chart_headroom categories values scheme d :
  Chart.generate_bar_chart categories values scheme = Ok d ->
  length categories = length values ->
  exists m gradient,
    py_max values = Ok m
    /\ scheme !! "gradient" = Some (StrList gradient)
    /\ length (Chart.drawn_bars d) = length values
    /\ (forall i c v, categories !! i = Some c -> values !! i = Some v ->
        exists b l,
          Chart.drawn_bars d !! i = Some b
          /\ cbar_category b = c /\ cbar_height b = v /\ v <= m
          /\ (gradient <> [] ->
              gradient !! (i mod length gradient)%nat = Some (cbar_color b))
          /\ Chart.drawn_bar_labels d !! i = Some l
          /\ Chart.over_bar l = i /\ Chart.bar_label_y l = v
          /\ (0 < m -> Chart.bar_label_y l < m * (115 # 100)))
    /\ (0 < m -> Chart.bar_set_ylim d = (0, m * (115 # 100))).
Proof.
  intros Hd Hlen.
  destruct (bar_chart_inv _ _ _ _ Hd Hlen)
    as (m & gradient & Hm & Hg & Hylim & Hbars & Hlabels).
  exists m, gradient. split; [exact Hm|]. split; [exact Hg|].
  split; [|split; [|by intros _]].
  { rewrite Hbars, length_imap, length_zip_with. lia. }
  apply py_max_inv in Hm as [_ Hmax].
  intros i c v Hc Hv.
  assert (Hle : v <= m).
  { rewrite List.Forall_forall in Hmax. apply Hmax.
    apply list_elem_of_In. by eapply list_elem_of_lookup_2. }
  assert (Hrow : zip categories values !! i = Some (c, v)).
  { apply lookup_zip_with_Some. by exists c, v. }
  assert (Hb : Chart.drawn_bars d !! i
               = Some {| cbar_category := c; cbar_height := v;
                         cbar_width := 6 # 10;
                         cbar_color :=
                           bar_color (take (length categories) gradient) i |}).
  { by rewrite Hbars, list_lookup_imap, Hrow. }
  eexists _, _. split; [exact Hb|].
  cbn [cbar_category cbar_height cbar_color].
  split; [reflexivity|]. split; [reflexivity|]. split; [exact Hle|].
  split.
  { intros Hne. apply bar_color_cycle; [exact Hne|].
    by eapply lookup_lt_Some. }
  split; [by rewrite Hlabels, list_lookup_imap, Hb|].
  cbn [Chart.over_bar Chart.bar_label_y cbar_height].
  split; [reflexivity|]. split; [reflexivity|]. intros Hpos. lra.
Qed.

Lemma bar_chart_headroom_witness :
  exists d m,
    Chart.generate_bar_chart ["Q1"; "Q2"; "Q3"; "Q4"] [85; 92; 88; 95]
      (chart_scheme "blue") = Ok d
    /\ py_max [85; 92; 88; 95] = Ok m
    /\ length (Chart.drawn_bars d) = 4%nat.
Proof.
  destruct (Chart.generate_bar_chart ["Q1"; "Q2"; "Q3"; "Q4"] [85; 92; 88; 95]
              (chart_scheme "blue")) as [d|e] eqn:Hd;
    [|vm_compute in Hd; discriminate].
  destruct (bar_chart_headroom _ _ _ d Hd eq_refl)
    as (m & gradient & Hm & _ & Hcount & _).
  exists d, m. by split.
Defined.

(** A line chart is drawn only when there are as many values as
    categories; point i is (i, values[i]), labelled with the i-th category
    on the x-axis, and its data label floats 3% of the maximum above it;
    with a positive maximum every label anchor lies strictly below the upper
    y-limit, 1.15 times the maximum. *)
Theorem line_chart_layout categories values scheme d :
  Chart.generate_line_chart categories values scheme = Ok d ->
  length values = length categories
  /\ Chart.line_xticklabels d = categories
  /\ exists m,
       py_max values = Ok m
       /\ Chart.line_ylim d = (0, m * (115 # 100))
       /\ forall i v, values !! i = Some v ->
            v <= m
            /\ Chart.line_points d !! i = Some (Qnat i, v)
            /\ Chart.line_labels d !! i
               = Some {| Chart.label_x := Qnat i;
                         Chart.label_y := v + m * (3 # 100);
                         Chart.label_val := v;
                         Chart.label_fmt := Chart.Plain |}
            /\ (0 < m -> v + m * (3 # 100) < m * (115 # 100)).
Proof.
  intros H. unfold Chart.generate_line_chart in H.
  apply bind_inv_Ok in H as (? & _ & H).
  apply bind_inv_Ok in H as (points & Hpoints & H).
  apply bind_inv_Ok in H as (? & _ & H).
  apply bind_inv_Ok in H as (labels & Hlabels & H).
  apply bind_inv_Ok in H as (m & Hm & H).
  apply bind_inv_Ok in H as (? & _ & H).
  apply bind_inv_Ok in H as (? & _ & [= <-]).
  cbn [Chart.line_points Chart.line_labels Chart.line_xticklabels
       Chart.line_ylim].
  unfold Axes_plot in Hpoints.
  destruct (Nat.eqb_spec (length (map Qnat (seq 0 (length categories))))
                         (length values)) as [Hlen|]; [|discriminate].
  injection Hpoints as <-. rewrite length_map, length_seq in Hlen.
  split; [done|]. split; [done|].
  exists m. split; [exact Hm|]. split; [done|].
  pose proof (py_max_inv values m Hm) as [_ Hmax].
  apply comprehension_Ok in Hlabels.
  intros i v Hv. pose proof (lookup_lt_Some _ _ _ Hv) as Hi.
  assert (Hle : v <= m).
  { rewrite List.Forall_forall in Hmax. apply Hmax.
    apply list_elem_of_In, list_elem_of_lookup. eauto. }
  split; [exact Hle|]. split; [|split].
  - apply lookup_zip_with_Some. exists (Qnat i), v. split; [done|].
    split; [|exact Hv]. rewrite list_lookup_fmap, lookup_seq_lt by lia. done.
  - destruct (Forall2_lookup_l _ _ _ _ _ Hlabels (enumerate_lookup _ _ _ Hv))
      as (l & Hl & Hf).
    rewrite Hm, bind_Ok in Hf.
    apply bind_inv_Ok in Hf as (? & _ & [= <-]). exact Hl.
  - intros Hpos. lra.
Qed.

Lemma line_chart_layout_witness :
  exists d,
    Chart.generate_line_chart ["Q1"; "Q2"; "Q3"] [100; 120; 115]
      (chart_scheme "orange") = Ok d
    /\ Chart.line_xticklabels d = ["Q1"; "Q2"; "Q3"].
Proof.
  destruct (Chart.generate_line_chart ["Q1"; "Q2"; "Q3"] [100; 120; 115]
              (chart_scheme "orange")) as [d|e] eqn:Hd;
    [|vm_compute in Hd; discriminate].
  exists d. split; [reflexivity|].
  exact (proj1 (proj2 (line_chart_layout _ _ _ d Hd))).
Defined.

(** * The command lines *)

Local Close Scope Q_scope.

Lemma string_length_app (s t : string) :
  String.length (s +:+ t) = String.length s + String.length t.
Proof. induction s as [|a s IH]; simpl; [done | by rewrite IH]. Qed.

Lemma string_app_inv_tail (s1 s2 t : string) :
  s1 +:+ t = s2 +:+ t -> s1 = s2.
Proof.
  revert s2. induction s1 as [|a s1 IH]; intros [|b s2] H; simpl in H.
  - done.
  - apply (f_equal String.length) in H. simpl in H.
    rewrite !string_length_app in H. simpl in H. lia.
  - apply (f_equal String.length) in H. simpl in H.
    rewrite !string_length_app in H. simpl in H. lia.
  - injection H as -> H. by rewrite (IH s2 H).
Qed.

(** No two runs share a default output file unless they agree on the tool,
    the chart type and the colour: the default name determines the chart
    type and the colour, and the names of the three tools are apart. *)
Theorem default_outputs_distinct :
  (forall t1 t2 c1 c2,
     Chart.default_output t1 c1 = Chart.default_output t2 c2 ->
     t1 = t2 /\ c1 = c2)
  /\ (forall c1 c2,
        BigNumbers.default_output c1 = BigNumbers.default_output c2 -> c1 = c2)
  /\ (forall c1 c2,
        Timeline.default_output c1 = Timeline.default_output c2 -> c1 = c2)
  /\ (forall t c c' c'',
        Chart.default_output t c <> BigNumbers.default_output c'
        /\ Chart.default_output t c <> Timeline.default_output c''
        /\ BigNumbers.default_output c' <> Timeline.default_output c'').
Proof.
  split; [|split; [|split]].
  - intros t1 t2 c1 c2 H. unfold Chart.default_output in H.
    destruct t1, t2; simpl in H; try discriminate H.
    all: split; [reflexivity|].
    all: injection H as H; exact (string_app_inv_tail c1 c2 ".png" H).
  - intros c1 c2 H. unfold BigNumbers.default_output in H. simpl in H.
    injection H as H. exact (string_app_inv_tail c1 c2 ".png" H).
  - intros c1 c2 H. unfold Timeline.default_output in H. simpl in H.
    injection H as H. exact (string_app_inv_tail c1 c2 ".png" H).
  - intros t c c' c''. split; [|split]; discriminate.
Qed.

Lemma default_outputs_distinct_witness :
  Chart.default_output Chart.type_radar "green" = "chart_radar_green.png"
  /\ (Chart.type_radar = Chart.type_radar /\ "green" = "green").
Proof.
  split; [reflexivity|].
  exact (proj1 default_outputs_distinct Chart.type_radar Chart.type_radar
           "green" "green" eq_refl).
Defined.

Local Open Scope Q_scope.

Lemma chart_scheme_name key scheme :
  Chart.COLOR_SCHEMES !! key = Some scheme ->
  exists name, scheme !! "name" = Some (Str name).
Proof.
  intros H. entry_cases H. all: eexists; vm_compute; reflexivity.
Qed.

Lemma chart_key_scheme key :
  In key scheme_keys -> exists scheme, Chart.COLOR_SCHEMES !! key = Some scheme.
Proof.
  revert key.
  apply (scheme_key_cases (fun key => is_Some (Chart.COLOR_SCHEMES !! key))).
  all: apply (bool_decide_unpack _); vm_compute; exact I.
Qed.



(** * Labels and delimiters *)

Local Close Scope Q_scope.

Lemma contains_cons c a s :
  contains c s = true -> contains c (String a s) = true.
Proof. intros H. simpl. by destruct (Ascii.eqb a c). Qed.

(** Trimming keeps a part of the string. *)
Lemma drop_spaces_contains sp2 sp3 c s :
  contains c (drop_spaces sp2 sp3 s) = true -> contains c s = true.
Proof.
  remember (String.length s) as n eqn:Hn. revert s Hn.
  induction n as [n IH] using lt_wf_ind. intros s Hn H.
  destruct s as [|a r]; [done|]. cbn [drop_spaces] in H.
  destruct (is_space1 a).
  { apply contains_cons, (IH (String.length r)); [simpl in Hn; lia | done..]. }
  destruct r as [|b r']; [done|]. destruct (sp2 a b).
  { do 2 apply contains_cons.
    apply (IH (String.length r')); [simpl in Hn; lia | done..]. }
  destruct r' as [|d r'']; [done|]. destruct (sp3 a b d); [|done].
  do 3 apply contains_cons.
  apply (IH (String.length r'')); [simpl in Hn; lia | done..].
Qed.

Lemma contains_rev_app c s1 s2 :
  contains c (String.rev_app s1 s2) = contains c s1 || contains c s2.
Proof.
  revert s2. induction s1 as [|a s1 IH]; intros s2; simpl; [done|].
  rewrite IH. simpl. destruct (Ascii.eqb a c); [by rewrite orb_true_r | done].
Qed.

Lemma contains_rev c s : contains c (String.rev s) = contains c s.
Proof. unfold String.rev. by rewrite contains_rev_app, orb_false_r. Qed.

Lemma strip_contains c s : contains c (strip s) = true -> contains c s = true.
Proof.
  unfold strip, rstrip, lstrip. rewrite contains_rev. intros H.
  apply drop_spaces_contains in H. rewrite contains_rev in H.
  by apply drop_spaces_contains in H.
Qed.

(** The pieces of a split hold no separator, and nothing else that the
    whole string does not hold. *)
Lemma split_pieces_no_separator c s :
  Forall (fun piece => contains c piece = false) (split c s).
Proof.
  induction s as [|a s IH]; simpl; [by repeat constructor|].
  destruct (Ascii.eqb a c) eqn:E; [by constructor|].
  destruct (split c s) as [|piece pieces];
    [repeat constructor; simpl; by rewrite E|].
  inversion IH as [|? ? Hp Hps]; subst. constructor; [|done].
  simpl. by rewrite E.
Qed.

Lemma split_pieces_part c c' s :
  contains c' s = false ->
  Forall (fun piece => contains c' piece = false) (split c s).
Proof.
  induction s as [|a s IH]; simpl; [by repeat constructor|].
  destruct (Ascii.eqb a c') eqn:E'; [done|]. intros Hs.
  specialize (IH Hs). destruct (Ascii.eqb a c); [by constructor|].
  destruct (split c s) as [|piece pieces];
    [repeat constructor; simpl; by rewrite E'|].
  inversion IH as [|? ? Hp Hps]; subst. constructor; [|done].
  simpl. by rewrite E'.
Qed.

(** A label returned by the pair format holds neither a colon nor a comma:
    the input format has no way to put a delimiter inside a label. *)
Theorem parsed_labels_without_delimiters {F : Type}
    (py_float : string -> option F) raw categories values :
  contains ":" raw = true ->
  Chart.parse_data py_float raw = Ok (categories, values) ->
  Forall (fun label => contains ":" label = false
                       /\ contains "," label = false) categories.
Proof.
  intros Hcolon Hparse. unfold Chart.parse_data in Hparse.
  rewrite Hcolon in Hparse. fold (records raw) in Hparse.
  apply parse_items_Ok in Hparse as (parsed & Hall & [= -> _]).
  cbn [app]. pose proof (split_pieces_no_separator "," raw) as Hrec.
  fold (records raw) in Hrec.
  induction Hall as [|item [label v] items parsed (a & b & Hf & Hl & _) _ IH];
    [constructor|].
  inversion Hrec as [|? ? Hitem Hitems]; subst.
  cbn [fmap list_fmap fst]. constructor; [|by apply IH].
  simpl in Hl. subst label.
  pose proof (split_pieces_no_separator ":" item) as Hcol.
  pose proof (split_pieces_part ":" "," item Hitem) as Hcom.
  unfold fields in Hf. rewrite Hf in Hcol, Hcom.
  inversion Hcol as [|? ? Ha _]; inversion Hcom as [|? ? Ha' _]; subst.
  split; apply not_true_iff_false; intros H; apply strip_contains in H;
    congruence.
Qed.

Lemma parsed_labels_without_delimiters_witness :
  Forall (fun label => contains ":" label = false
                       /\ contains "," label = false) ["Q 1"; "Q2"].
Proof.
  apply (parsed_labels_without_delimiters float_literal " Q 1 :85,Q2: 92"
           ["Q 1"; "Q2"] [85%Q; 92%Q]).
  - reflexivity.
  - vm_compute. reflexivity.
Defined.

(** * The card and timeline tools, end to end *)

Lemma valid_records_metrics raw :
  BigNumbers.parse_metrics_data raw
  = map metric_of (List.filter has_three_fields (records raw)).
Proof.
  unfold BigNumbers.parse_metrics_data. fold (records raw).
  by rewrite parse_metrics_items_filter.
Qed.

Lemma valid_records_events raw :
  Timeline.parse_timeline_data raw
  = map event_of (List.filter has_three_fields (records raw)).
Proof.
  unfold Timeline.parse_timeline_data. fold (records raw).
  by rewrite parse_timeline_items_filter.
Qed.

(** Whenever the card tool gets as far as a figure, it has kept the title
    it was given and chosen the file it was given or else its default; the
    input has at least one record of three or more fields, and the figure
    shows exactly these records, in input order: cell i carries the trimmed
    first three fields of the i-th of them, and the cells after the last of
    them carry no card. Records of fewer fields are left out. *)
Theorem card_tool_shows_valid_records raw color title output
    fig title' output' :
  BigNumbers.main (BigNumbers.Args raw color title output)
  = Ok (fig, title', output') ->
  let valid := List.filter has_three_fields (records raw) in
  title' = title
  /\ output' = (if non_empty output then output
                else BigNumbers.default_output color)
  /\ 1 <= length valid <= length (BigNumbers.fig_axes fig)
  /\ (forall i r, valid !! i = Some r ->
        exists ax c,
          BigNumbers.fig_axes fig !! i = Some ax
          /\ BigNumbers.axes_card ax = Some c
          /\ BigNumbers.card_number c = strip (fields r !!! 0)
          /\ BigNumbers.card_title c = strip (fields r !!! 1)
          /\ BigNumbers.card_description c = strip (fields r !!! 2))
  /\ (forall i ax, BigNumbers.fig_axes fig !! i = Some ax ->
        length valid <= i -> BigNumbers.axes_card ax = None).
Proof.
  intros Hmain valid. unfold BigNumbers.main, getscheme in Hmain.
  cbn [BigNumbers.arg_color BigNumbers.arg_data BigNumbers.arg_output
       BigNumbers.arg_title] in Hmain.
  destruct (BigNumbers.COLOR_SCHEMES !! color) as [scheme|];
    [|discriminate Hmain].
  rewrite bind_Ok in Hmain.
  apply bind_inv_Ok in Hmain as (? & _ & Hmain).
  apply bind_inv_Ok in Hmain as (fig' & Hfig & Hmain).
  apply bind_inv_Ok in Hmain as (? & _ & [= <- <- <-]).
  rewrite valid_records_metrics in Hfig. fold valid in Hfig.
  pose proof Hfig as Hrun.
  unfold BigNumbers.generate_big_number_cards in Hrun.
  assert (Hn : 1 <= length (map metric_of valid)).
  { destruct valid; [|simpl; lia]. simpl in Hrun. discriminate. }
  pose proof (grid_covers _ Hn) as Hcover.
  destruct (BigNumbers.grid (length (map metric_of valid)))
    as [[cols rows] figsize] eqn:Hg.
  apply bind_inv_Ok in Hrun as (axes & _ & Hrun).
  apply bind_inv_Ok in Hrun as (text & Ht & Hrun).
  apply bind_inv_Ok in Hrun as (primary & Hp & Hrun).
  apply bind_inv_Ok in Hrun as (accent & Ha & _).
  apply getitem_inv in Ht, Hp, Ha.
  pose proof (generate_big_number_cards_Ok (map metric_of valid) scheme
                primary accent text Hp Ha Ht Hn) as Hok.
  rewrite Hg, Hfig in Hok. injection Hok as ->.
  cbn [BigNumbers.fig_axes]. rewrite length_map in Hn, Hcover.
  destruct Hcover as (_ & _ & Hfit).
  split; [reflexivity|]. split; [reflexivity|]. split; [|split].
  - rewrite length_app, length_imap, length_replicate, length_map. lia.
  - intros i r Hr. eexists _, _. split.
    { rewrite lookup_app_l.
      - by rewrite list_lookup_imap, list_lookup_fmap, Hr.
      - rewrite length_imap, length_map. by eapply lookup_lt_Some. }
    split; [reflexivity | by split].
  - intros i ax Hax Hi. apply lookup_app_Some in Hax as [Hax | [_ Hax]].
    + apply lookup_lt_Some in Hax. rewrite length_imap, length_map in Hax.
      lia.
    + by apply lookup_replicate in Hax as [-> _].
Qed.

Lemma card_tool_shows_valid_records_witness :
  exists fig,
    BigNumbers.main
      (BigNumbers.Args "9: a :b, bad ,42:partners:all" "blue" "Results" "")
    = Ok (fig, "Results", "big_numbers_blue.png")
    /\ length (BigNumbers.fig_axes fig) = 2.
Proof.
  destruct (BigNumbers.main
              (BigNumbers.Args "9: a :b, bad ,42:partners:all" "blue"
                               "Results" "")) as [[[fig t] o]|e] eqn:Hmain;
    [|vm_compute in Hmain; discriminate].
  destruct (card_tool_shows_valid_records _ _ _ _ fig t o Hmain)
    as (-> & -> & _).
  exists fig. split; [reflexivity|].
  vm_compute in Hmain. by injection Hmain as <-.
Defined.

(** Whenever the timeline tool gets as far as a drawing, it has kept the
    title it was given and chosen the file it was given or else its
    default; the input has at least one record of three or more fields, and
    of these records the drawing shows the first four, or all when there
    are fewer, in input order: node i shows the trimmed first and second
    field of the i-th of them and card i its third field. Records of fewer
    fields are left out, and so is every such record after the fourth. *)
Theorem timeline_tool_shows_valid_records raw color title output
    d title' output' :
  Timeline.main (Timeline.Args raw color title output)
  = Ok (d, title', output') ->
  let valid := List.filter has_three_fields (records raw) in
  title' = title
  /\ output' = (if non_empty output then output
                else Timeline.default_output color)
  /\ 1 <= length valid
  /\ length (Timeline.drawn_nodes d) = Nat.min (length valid) 4
  /\ length (Timeline.drawn_cards d) = Nat.min (length valid) 4
  /\ (forall i r, valid !! i = Some r -> i < 4 ->
        exists nd c,
          Timeline.drawn_nodes d !! i = Some nd
          /\ Timeline.drawn_cards d !! i = Some c
          /\ Timeline.node_time nd = strip (fields r !!! 0)
          /\ Timeline.node_title nd = strip (fields r !!! 1)
          /\ Timeline.card_text c = strip (fields r !!! 2)).
Proof.
  intros Hmain valid. unfold Timeline.main, getscheme in Hmain.
  cbn [Timeline.arg_color Timeline.arg_data Timeline.arg_output
       Timeline.arg_title] in Hmain.
  destruct (Timeline.COLOR_SCHEMES !! color) as [scheme|] eqn:Hs;
    [|discriminate Hmain].
  rewrite bind_Ok in Hmain.
  apply bind_inv_Ok in Hmain as (? & _ & Hmain).
  apply bind_inv_Ok in Hmain as (d' & Hd & Hmain).
  apply bind_inv_Ok in Hmain as (? & _ & [= <- <- <-]).
  rewrite valid_records_events in Hd. fold valid in Hd.
  destruct (timeline_drawn_lookup color scheme (map event_of valid) d' Hs Hd)
    as (Hn & _).
  destruct (timeline_layout color scheme (map event_of valid) Hs Hn)
    as (d'' & colors & Hc & Hd'' & Hnodes & Hcards & Hat).
  rewrite Hd in Hd''. injection Hd'' as <-.
  destruct (timeline_scheme_fields color scheme Hs)
    as (colors' & text & Hc' & Hfour & _).
  rewrite Hc in Hc'. injection Hc' as <-.
  rewrite length_map in Hn, Hnodes, Hcards. rewrite Hfour in Hnodes, Hcards.
  split; [reflexivity|]. split; [reflexivity|]. split; [exact Hn|].
  split; [exact Hnodes|]. split; [exact Hcards|].
  intros i r Hr Hi.
  destruct (lookup_lt_is_Some_2 colors i) as [col Hcol]; [lia|].
  destruct (Hat i (event_of r) col) as (pos & _ & _ & Hnode & Hcard);
    [by rewrite list_lookup_fmap, Hr | exact Hcol|].
  eexists _, _. split; [exact Hnode|]. split; [exact Hcard|]. by repeat split.
Qed.

Lemma timeline_tool_shows_valid_records_witness :
  exists d,
    Timeline.main (Timeline.Args "Q1:go:a,oops,Q2:growth:users"
                                 "orange" "Plan" "plan.png")
    = Ok (d, "Plan", "plan.png")
    /\ length (Timeline.drawn_nodes d) = 2.
Proof.
  destruct (Timeline.main (Timeline.Args "Q1:go:a,oops,Q2:growth:users"
                                         "orange" "Plan" "plan.png"))
    as [[[d t] o]|e] eqn:Hmain; [|vm_compute in Hmain; discriminate].
  destruct (timeline_tool_shows_valid_records _ _ _ _ d t o Hmain)
    as (-> & -> & _ & Hnodes & _).
  exists d. split; [reflexivity|]. rewrite Hnodes. vm_compute. reflexivity.
Defined.

(** * The comparison chart *)

Local Open Scope Q_scope.

Lemma chart_scheme_series_colors key scheme :
  Chart.COLOR_SCHEMES !! key = Some scheme ->
  exists primary accent,
    scheme !! "primary" = Some (Str primary)
    /\ scheme !! "accent" = Some (Str accent)
    /\ primary <> accent.
Proof.
  intros H. entry_cases H.
  all: eexists _, _; split_and!.
  all: try (vm_compute; reflexivity).
  all: discriminate.
Qed.

Lemma Axes_bar_at_aligned x height width color :
  length x = length height ->
  Chart.Axes_bar_at x height width color
  = Ok (imap (fun i row => {| Chart.bar_x := row.1; Chart.bar_height := row.2;
                              Chart.bar_bottom := 0;
                              Chart.bar_color := Chart.color_at color i;
                              Chart.bar_width := width |}) (zip x height)).
Proof.
  intros H. unfold Chart.Axes_bar_at, broadcast2.
  by rewrite H, Nat.eqb_refl, bind_Ok.
Qed.

Lemma Axes_bar_at_heights x height width color bars :
  Chart.Axes_bar_at x height width color = Ok bars ->
  Forall (fun b => In (Chart.bar_height b) height) bars.
Proof.
  intros H. unfold Chart.Axes_bar_at in H.
  apply bind_inv_Ok in H as (rows & Hrows & [= <-]).
  apply broadcast2_heights in Hrows.
  apply Forall_lookup. intros i b Hb. rewrite list_lookup_imap in Hb.
  destruct (rows !! i) as [row|] eqn:Hrow; [|discriminate].
  injection Hb as <-. simpl.
  by apply (proj1 (Forall_lookup _ _) Hrows i row).
Qed.

Lemma Axes_bar_at_mismatch x height width color :
  (1 < length x)%nat -> length height <> 1%nat ->
  length height <> length x ->
  Chart.Axes_bar_at x height width color = Raise ValueError_matplotlib.
Proof.
  intros Hx Hh Hne. unfold Chart.Axes_bar_at, broadcast2.
  destruct (Nat.eqb_spec (length x) (length height)) as [Heq|_]; [lia|].
  destruct x as [|x0 [|x1 x]]; [simpl in Hx; lia | simpl in Hx; lia|].
  destruct height as [|h0 [|h1 height]]; [reflexivity | done | reflexivity].
Qed.

Lemma py_max2_cases a b :
  (py_max2 a b = a /\ b <= a) \/ (py_max2 a b = b /\ a <= b).
Proof.
  unfold py_max2, Qgt_bool.
  destruct (Qle_bool b a) eqn:H; simpl.
  - left. split; [done|]. by apply Qle_bool_iff.
  - right. split; [done|].
    destruct (Qlt_le_dec a b) as [Hlt|Hle]; [by apply Qlt_le_weak|].
    apply Qle_bool_iff in Hle. congruence.
Qed.

Lemma comparison_bar_lookup (shift : Q -> Q) n values color i v :
  values !! i = Some v -> (i < n)%nat ->
  imap (fun i (row : Q * Q) =>
          {| Chart.bar_x := row.1; Chart.bar_height := row.2;
             Chart.bar_bottom := 0;
             Chart.bar_color := Chart.color_at color i;
             Chart.bar_width := 35 # 100 |})
       (zip (map shift (map Qnat (seq 0 n))) values) !! i
  = Some {| Chart.bar_x := shift (Qnat i); Chart.bar_height := v;
            Chart.bar_bottom := 0;
            Chart.bar_color := Chart.color_at color i;
            Chart.bar_width := 35 # 100 |}.
Proof.
  intros Hv Hi. rewrite list_lookup_imap.
  assert (Hrow : zip (map shift (map Qnat (seq 0 n))) values !! i
                 = Some (shift (Qnat i), v)).
  { apply lookup_zip_with_Some. exists (shift (Qnat i)), v.
    split; [done|]. split; [|exact Hv].
    by rewrite !list_lookup_fmap, lookup_seq_lt. }
  by rewrite Hrow.
Qed.

Lemma comparison_bars_length (shift : Q -> Q) n values color :
  length values = n ->
  length (imap (fun i (row : Q * Q) =>
                  {| Chart.bar_x := row.1; Chart.bar_height := row.2;
                     Chart.bar_bottom := 0;
                     Chart.bar_color := Chart.color_at color i;
                     Chart.bar_width := 35 # 100 |})
               (zip (map shift (map Qnat (seq 0 n))) values)) = n.
Proof.
  intros H. rewrite length_imap, length_zip_with, !length_map, length_seq. lia.
Qed.

Lemma Axes_bar_at_Ok x height width color :
  length height = length x \/ length height = 1%nat ->
  exists bars, Chart.Axes_bar_at x height width color = Ok bars.
Proof.
  intros H. unfold Chart.Axes_bar_at, broadcast2.
  destruct (Nat.eqb_spec (length x) (length height)) as [_|Hne].
  { rewrite bind_Ok. eauto. }
  destruct H as [H|H]; [by symmetry in H|].
  destruct height as [|h [|h' height]]; [done | | done].
  destruct x as [|x0 [|x1 x]]; rewrite bind_Ok; eauto.
Qed.

(** With a registered scheme and as many values in each series as there are
    categories, the comparison chart is laid out, and this is the drawing. *)
Lemma generate_comparison_chart_Ok key scheme categories values1 values2 :
  Chart.COLOR_SCHEMES !! key = Some scheme ->
  length values1 = length categories ->
  length values2 = length categories ->
  categories <> [] ->
  exists primary accent m1 m2 bars1 bars2,
    primary <> accent
    /\ length bars1 = length categories
    /\ length bars2 = length categories
    /\ (forall i v, values1 !! i = Some v ->
          bars1 !! i
          = Some {| Chart.bar_x := Qnat i - (35 # 100) / 2;
                    Chart.bar_height := v; Chart.bar_bottom := 0;
                    Chart.bar_color := Str primary;
                    Chart.bar_width := 35 # 100 |})
    /\ (forall i v, values2 !! i = Some v ->
          bars2 !! i
          = Some {| Chart.bar_x := Qnat i + (35 # 100) / 2;
                    Chart.bar_height := v; Chart.bar_bottom := 0;
                    Chart.bar_color := Str accent;
                    Chart.bar_width := 35 # 100 |})
    /\ Chart.generate_comparison_chart categories values1 values2 scheme
       = Ok {| Chart.bars1 := bars1; Chart.bars2 := bars2;
               Chart.comparison_labels :=
                 map (fun b =>
                        {| Chart.label_x :=
                             Chart.get_x b + Chart.bar_width b / 2;
                           Chart.label_y := Chart.bar_height b;
                           Chart.label_val := Chart.bar_height b;
                           Chart.label_fmt := Chart.Plain |})
                     (bars1 ++ bars2);
               Chart.comparison_xticklabels := categories;
               Chart.comparison_set_ylim :=
                 (0, py_max2 m1 m2 * (115 # 100)) |}.
Proof.
  intros Hscheme Hl1 Hl2 Hne.
  destruct (chart_scheme_series_colors key scheme Hscheme)
    as (primary & accent & Hp & Ha & Hpa).
  destruct (chart_scheme_fields key scheme Hscheme)
    as (_ & _ & _ & text & text_light & _ & _ & _ & _ & Ht & Htl).
  destruct (py_max_spec values1) as (m1 & Hm1 & _).
  { intros ->. by destruct categories. }
  destruct (py_max_spec values2) as (m2 & Hm2 & _).
  { intros ->. by destruct categories. }
  exists primary, accent, m1, m2. eexists _, _.
  split; [exact Hpa|].
  split; [|split; [|split; [|split]]]; cycle 4.
  - unfold Chart.generate_comparison_chart.
    rewrite (getitem_Ok _ _ _ Hp), bind_Ok.
    rewrite Axes_bar_at_aligned by by rewrite !length_map, length_seq.
    rewrite bind_Ok, (getitem_Ok _ _ _ Ha), bind_Ok.
    rewrite Axes_bar_at_aligned by by rewrite !length_map, length_seq.
    rewrite bind_Ok.
    rewrite (comprehension_map _
      (fun b =>
         {| Chart.label_x := Chart.get_x b + Chart.bar_width b / 2;
            Chart.label_y := Chart.bar_height b;
            Chart.label_val := Chart.bar_height b;
            Chart.label_fmt := Chart.Plain |})).
    + rewrite bind_Ok, Hm1, bind_Ok, Hm2, bind_Ok.
      rewrite (getitem_Ok _ _ _ Htl), bind_Ok.
      rewrite (getitem_Ok _ _ _ Ht), bind_Ok. reflexivity.
    + apply Forall_forall. intros b _. by rewrite (getitem_Ok _ _ _ Ht).
  - by apply comparison_bars_length.
  - by apply comparison_bars_length.
  - intros i v Hv.
    apply (comparison_bar_lookup (fun xi => xi - (35 # 100) / 2)
             (length categories) values1 (Str primary) i v Hv).
    rewrite <- Hl1. by eapply lookup_lt_Some.
  - intros i v Hv.
    apply (comparison_bar_lookup (fun xi => xi + (35 # 100) / 2)
             (length categories) values2 (Str accent) i v Hv).
    rewrite <- Hl2. by eapply lookup_lt_Some.
Qed.

(** A comparison chart is drawn only for two series that are not empty. *)
Lemma comparison_chart_nonempty categories values1 values2 scheme d :
  Chart.generate_comparison_chart categories values1 values2 scheme = Ok d ->
  values1 <> [] /\ values2 <> [].
Proof.
  intros H. unfold Chart.generate_comparison_chart in H.
  apply bind_inv_Ok in H as (? & _ & H).
  apply bind_inv_Ok in H as (? & _ & H).
  apply bind_inv_Ok in H as (? & _ & H).
  apply bind_inv_Ok in H as (? & _ & H).
  apply bind_inv_Ok in H as (? & _ & H).
  apply bind_inv_Ok in H as (m1 & Hm1 & H).
  apply bind_inv_Ok in H as (m2 & Hm2 & _).
  split; intros ->; discriminate.
Qed.

(** When the comparison chart is drawn for a registered scheme and two
    series of as many values as there are categories, every category has
    its pair of bars: for category i the bar of the first series is centred
    at i - 0.35/2 and the bar of the second series at i + 0.35/2, both 0.35
    wide, so the two sit side by side around i, and the pair lies strictly
    between i - 0.5 and i + 0.5, clear of the pairs of the neighbouring
    categories. Each bar stands on 0, has its value as height, and carries
    a label at the middle of its width, at the height of its value; the two
    series are drawn in different colours. The labels of the second series
    follow those of the first. *)
Theorem comparison_bars_side_by_side key scheme categories values1 values2 d :
  Chart.COLOR_SCHEMES !! key = Some scheme ->
  length values1 = length categories ->
  length values2 = length categories ->
  Chart.generate_comparison_chart categories values1 values2 scheme = Ok d ->
  Chart.comparison_xticklabels d = categories
  /\ length (Chart.bars1 d) = length categories
  /\ length (Chart.bars2 d) = length categories
  /\ forall i v1 v2,
       values1 !! i = Some v1 -> values2 !! i = Some v2 ->
       exists b1 b2 l1 l2,
         Chart.bars1 d !! i = Some b1 /\ Chart.bars2 d !! i = Some b2
         /\ Chart.bar_height b1 = v1 /\ Chart.bar_height b2 = v2
         /\ Chart.bar_bottom b1 = 0 /\ Chart.bar_bottom b2 = 0
         /\ Chart.bar_color b1 <> Chart.bar_color b2
         /\ Chart.bar_x b1 = Qnat i - (35 # 100) / 2
         /\ Chart.bar_x b2 = Qnat i + (35 # 100) / 2
         /\ Chart.bar_width b1 = 35 # 100 /\ Chart.bar_width b2 = 35 # 100
         /\ Qnat i - (1 # 2) < Chart.get_x b1
         /\ Chart.get_x b2 + Chart.bar_width b2 < Qnat i + (1 # 2)
         /\ Chart.comparison_labels d !! i = Some l1
         /\ Chart.comparison_labels d !! (length categories + i)%nat
            = Some l2
         /\ Chart.label_x l1 = Chart.get_x b1 + Chart.bar_width b1 / 2
         /\ Chart.label_y l1 = v1
         /\ Chart.label_x l2 = Chart.get_x b2 + Chart.bar_width b2 / 2
         /\ Chart.label_y l2 = v2.
Proof.
  intros Hscheme Hl1 Hl2 Hd.
  assert (Hne : categories <> []).
  { destruct (comparison_chart_nonempty _ _ _ _ _ Hd) as [Hv _].
    intros ->. by destruct values1. }
  destruct (generate_comparison_chart_Ok key scheme categories values1 values2
              Hscheme Hl1 Hl2 Hne)
    as (primary & accent & m1 & m2 & bars1 & bars2
        & Hpa & Hlen1 & Hlen2 & Hb1 & Hb2 & Hd').
  rewrite Hd in Hd'. injection Hd' as ->.
  cbn [Chart.comparison_xticklabels Chart.bars1 Chart.bars2
       Chart.comparison_labels].
  split; [reflexivity|]. split; [exact Hlen1|]. split; [exact Hlen2|].
  intros i v1 v2 Hv1 Hv2.
  specialize (Hb1 i v1 Hv1). specialize (Hb2 i v2 Hv2).
  pose proof (lookup_lt_Some _ _ _ Hb1) as Hi.
  assert (Hhalf : (35 # 100) / 2 == 175 # 1000) by reflexivity.
  eexists _, _, _, _.
  split; [exact Hb1|]. split; [exact Hb2|].
  cbn [Chart.bar_height Chart.bar_bottom Chart.bar_color Chart.bar_width
       Chart.bar_x].
  split; [reflexivity|]. split; [reflexivity|].
  split; [reflexivity|]. split; [reflexivity|].
  split; [congruence|].
  split; [reflexivity|]. split; [reflexivity|].
  split; [reflexivity|]. split; [reflexivity|].
  unfold Chart.get_x. cbn [Chart.bar_x Chart.bar_width].
  split; [rewrite Hhalf; lra|]. split; [rewrite Hhalf; lra|].
  split.
  { by rewrite list_lookup_fmap, lookup_app_l, Hb1. }
  split.
  { rewrite list_lookup_fmap, lookup_app_r by lia.
    replace (length categories + i - length bars1)%nat with i by lia.
    by rewrite Hb2. }
  cbn [Chart.label_x Chart.label_y Chart.bar_height].
  by repeat split.
Qed.

Lemma comparison_bars_side_by_side_witness :
  exists d,
    Chart.generate_comparison_chart ["Q1"; "Q2"; "Q3"] [85; 92; 88]
      [70; 95; 90] (chart_scheme "gold_blue") = Ok d
    /\ Chart.comparison_xticklabels d = ["Q1"; "Q2"; "Q3"]
    /\ length (Chart.bars1 d) = 3%nat.
Proof.
  destruct (Chart.generate_comparison_chart ["Q1"; "Q2"; "Q3"] [85; 92; 88]
              [70; 95; 90] (chart_scheme "gold_blue")) as [d|e] eqn:Hd;
    [|vm_compute in Hd; discriminate].
  destruct (comparison_bars_side_by_side "gold_blue"
              (chart_scheme "gold_blue") ["Q1"; "Q2"; "Q3"] [85; 92; 88]
              [70; 95; 90] d) as (Hticks & Hcount & _).
  - apply chart_scheme_lookup. vm_compute. reflexivity.
  - reflexivity.
  - reflexivity.
  - exact Hd.
  - exists d. by split.
Defined.

(** Whenever the comparison chart is drawn, no bar of either series is
    higher than the greatest value of the two series taken together. When
    that value is positive, the y-limits handed to the axis are 0 and 1.15
    times it, so every label, which sits at the height of its bar, stays
    strictly below the upper limit. *)
Theorem comparison_headroom categories values1 values2 scheme d :
  Chart.generate_comparison_chart categories values1 values2 scheme = Ok d ->
  exists m,
    In m (values1 ++ values2)
    /\ Forall (fun v => v <= m) (values1 ++ values2)
    /\ Forall (fun b => Chart.bar_height b <= m)
              (Chart.bars1 d ++ Chart.bars2 d)
    /\ (0 < m ->
        Chart.comparison_set_ylim d = (0, m * (115 # 100))
        /\ Forall (fun l => Chart.label_y l < m * (115 # 100))
                  (Chart.comparison_labels d)).
Proof.
  intros H. unfold Chart.generate_comparison_chart in H.
  apply bind_inv_Ok in H as (primary & _ & H).
  apply bind_inv_Ok in H as (bars1 & Hbars1 & H).
  apply bind_inv_Ok in H as (accent & _ & H).
  apply bind_inv_Ok in H as (bars2 & Hbars2 & H).
  apply bind_inv_Ok in H as (labels & Hlabels & H).
  apply bind_inv_Ok in H as (m1 & Hm1 & H).
  apply bind_inv_Ok in H as (m2 & Hm2 & H).
  apply bind_inv_Ok in H as (? & _ & H).
  apply bind_inv_Ok in H as (? & _ & [= <-]).
  cbn [Chart.comparison_set_ylim Chart.bars1 Chart.bars2
       Chart.comparison_labels].
  apply py_max_inv in Hm1 as [Hin1 Hmax1].
  apply py_max_inv in Hm2 as [Hin2 Hmax2].
  apply Axes_bar_at_heights in Hbars1, Hbars2.
  set (m := py_max2 m1 m2).
  assert (Hm : In m (values1 ++ values2) /\ m1 <= m /\ m2 <= m).
  { unfold m. destruct (py_max2_cases m1 m2) as [[-> Hle]|[-> Hle]].
    - split; [apply in_or_app; by left|]. split; [apply Qle_refl | exact Hle].
    - split; [apply in_or_app; by right|]. split; [exact Hle | apply Qle_refl]. }
  destruct Hm as (Hin & Hle1 & Hle2).
  assert (Hall : Forall (fun v => v <= m) (values1 ++ values2)).
  { apply Forall_app. split.
    - eapply Forall_impl; [exact Hmax1|]. intros v Hv. simpl in Hv.
      by apply Qle_trans with m1.
    - eapply Forall_impl; [exact Hmax2|]. intros v Hv. simpl in Hv.
      by apply Qle_trans with m2. }
  assert (Hbars : Forall (fun b => Chart.bar_height b <= m) (bars1 ++ bars2)).
  { rewrite List.Forall_forall in Hall.
    apply Forall_app. split.
    - eapply Forall_impl; [exact Hbars1|]. intros b Hb. simpl in Hb.
      apply Hall, in_or_app. by left.
    - eapply Forall_impl; [exact Hbars2|]. intros b Hb. simpl in Hb.
      apply Hall, in_or_app. by right. }
  exists m. split; [exact Hin|]. split; [exact Hall|].
  split; [exact Hbars|]. intros Hpos. split; [reflexivity|].
  apply comprehension_Ok in Hlabels.
  apply Forall_lookup. intros i l Hl.
  destruct (Forall2_lookup_r _ _ _ _ _ Hlabels Hl) as (b & Hb & Hf).
  apply bind_inv_Ok in Hf as (? & _ & [= <-]). cbn [Chart.label_y].
  pose proof (proj1 (Forall_lookup _ _) Hbars i b Hb) as Hle. simpl in Hle.
  lra.
Qed.

Lemma comparison_headroom_witness :
  exists d m,
    Chart.generate_comparison_chart ["Q1"; "Q2"; "Q3"] [85; 92; 88]
      [70; 95; 90] (chart_scheme "blue") = Ok d
    /\ In m ([85; 92; 88] ++ [70; 95; 90])
    /\ Forall (fun b => Chart.bar_height b <= m)
              (Chart.bars1 d ++ Chart.bars2 d).
Proof.
  destruct (Chart.generate_comparison_chart ["Q1"; "Q2"; "Q3"] [85; 92; 88]
              [70; 95; 90] (chart_scheme "blue")) as [d|e] eqn:Hd;
    [|vm_compute in Hd; discriminate].
  destruct (comparison_headroom _ _ _ _ d Hd) as (m & Hin & _ & Hbars & _).
  exists d, m. by split.
Defined.

(** A series is checked against the categories, not against the other
    series: with two or more categories, the comparison chart fails with
    matplotlib's ValueError as soon as one of the two series has a length
    that is neither the number of categories nor one, whatever the other
    series is, and so also when the two series are equally long. *)
Theorem comparison_rejects_series_length key scheme categories
    values1 values2 :
  Chart.COLOR_SCHEMES !! key = Some scheme ->
  (1 < length categories)%nat ->
  (length values1 <> length categories /\ length values1 <> 1%nat)
  \/ (length values2 <> length categories /\ length values2 <> 1%nat) ->
  Chart.generate_comparison_chart categories values1 values2 scheme
  = Raise ValueError_matplotlib.
Proof.
  intros Hscheme Hn Hbad.
  destruct (chart_scheme_fields key scheme Hscheme)
    as (_ & primary & accent & _ & _ & _ & _ & Hp & Ha & _).
  unfold Chart.generate_comparison_chart.
  rewrite (getitem_Ok _ _ _ Hp), bind_Ok.
  assert (Hx : forall shift : Q -> Q,
            length (map shift (map Qnat (seq 0 (length categories))))
            = length categories)
    by (intros shift; by rewrite !length_map, length_seq).
  destruct (decide (length values1 = length categories
                    \/ length values1 = 1%nat)) as [Hok|Hno].
  - destruct (Axes_bar_at_Ok
                (map (fun xi => xi - (35 # 100) / 2)
                     (map Qnat (seq 0 (length categories))))
                values1 (35 # 100) primary) as [bars ->].
    { rewrite Hx. exact Hok. }
    rewrite bind_Ok, (getitem_Ok _ _ _ Ha), bind_Ok.
    destruct Hbad as [[Hlen Hone]|[Hlen Hone]]; [destruct Hok; done|].
    rewrite Axes_bar_at_mismatch; [reflexivity | | exact Hone |].
    + by rewrite Hx.
    + by rewrite Hx.
  - rewrite Axes_bar_at_mismatch; [reflexivity | | |].
    + by rewrite Hx.
    + intros H. apply Hno. by right.
    + rewrite Hx. intros H. apply Hno. by left.
Qed.

Lemma comparison_rejects_series_length_witness :
  Chart.generate_comparison_chart ["Q1"; "Q2"; "Q3"] [85] [70; 95]
    (chart_scheme "green") = Raise ValueError_matplotlib.
Proof.
  apply (comparison_rejects_series_length "green").
  - apply chart_scheme_lookup. vm_compute. reflexivity.
  - simpl. lia.
  - right. split; discriminate.
Defined.
